(** * GitHub recommendation and analytics dashboards: a shallow embedding

    The repository holds two Streamlit scripts that share one MongoDB
    collection ([github_db.user_data]):

    - [Recommendation_dashboard.py] fetches a user through the GitHub REST
      API, upserts the record, and ranks the stored users by the cosine
      similarity of their language sets;
    - [dashboard.py] fetches a richer record (stars and commits per
      repository and per language) and inserts it on a store miss.

    Modelling decisions, once and for all:

    - Python exceptions are values of [py]; a function that can raise
      returns [py A].
    - [requests.get] yields a response: a status code, the [Link] header
      when there is one, and the decoded body.  Bodies are typed by the
      GitHub schema of the endpoint; fields the code reads defensively
      ([x.get(k)], [x.get(k) or d]) are optional.  The remote side is a
      function of a logical clock (the number of requests served so far)
      and of the URL, so the same URL may answer differently on a retry.
    - [dashboard.py] has no [try].  [DashboardRaising] models its fetch a
      second time, with the requests that raise instead of answering and
      the commits whose date cannot be read; the two models agree when
      nothing raises.
    - The interpreter state is a record: the clock, the trace of requests
      and sleeps performed so far, and the MongoDB collection (a list of
      documents in insertion order; the [_id] key MongoDB adds is left
      out).  Streamlit output is not part of the state.
    - Python dictionaries are finite maps; key order is only modelled where
      the code depends on it.
    - Floating-point similarity scores are modelled by the real numbers
      they approximate.  Where a statement depends on the difference, the
      similarity matrix is also computed in binary64 ([Float64]).
    - A run of a page is modelled up to what it ends in: an uncaught
      exception, one of the messages of the script, or the data it goes on
      to draw. *)

From Stdlib Require Import ZArith List String Ascii Lia Reals Lra Sorted.
From Stdlib Require Import DecimalString SpecFloat.
From stdpp Require Import gmap strings list fin_maps.

Open Scope string_scope.

(** ** Python values and primitives shared by both scripts *)

Module Py.

(** Exceptions the modelled code can raise. *)
Inductive exn :=
| IndexError
| HTTPError (status_code : Z).

Inductive py (A : Type) :=
| Return (a : A)
| Raise (e : exn).
Arguments Return {A} a.
Arguments Raise {A} e.

#[export] Instance py_ret : MRet py := @Return.
#[export] Instance py_bind : MBind py := fun A B f m =>
  match m with
  | Return a => f a
  | Raise e => Raise e
  end.

(** The values found in a record: [None], an integer, a string, a list of
    strings, or a mapping from strings to integers. *)
Inductive pyval :=
| PNone
| PInt (z : Z)
| PStr (s : string)
| PStrs (l : list string)
| PCounts (d : gmap string Z).

#[export] Instance pyval_eq_dec : EqDecision pyval.
Proof. solve_decision. Defined.

Definition of_opt_str (x : option string) : pyval :=
  match x with Some s => PStr s | None => PNone end.

Definition of_opt_int (x : option Z) : pyval :=
  match x with Some z => PInt z | None => PNone end.

(** [l[i]] for a non-negative index. *)
Definition getitem {A} (l : list A) (i : nat) : py A :=
  match l !! i with
  | Some x => Return x
  | None => Raise IndexError
  end.

(** [l[:n]]: the first [n] items, or all but the last [-n] when [n < 0]. *)
Definition slice_to {A} (n : Z) (l : list A) : list A :=
  if decide (0 ≤ n)%Z then take (Z.to_nat n) l
  else take (length l - Z.to_nat (- n)) l.

(** [list(enumerate(l))]. *)
Definition enumerate {A} (l : list A) : list (nat * A) :=
  imap (fun i x => (i, x)) l.

(** [sorted] is stable: an item is inserted after the items that come
    strictly before it and in front of its equals, and items are inserted
    from the right.  [before a b] says that [a] sorts strictly before [b]. *)
Fixpoint insort {A} (before : A -> A -> bool) (x : A) (l : list A) : list A :=
  match l with
  | [] => [x]
  | y :: l' => if before y x then y :: insort before x l' else x :: l
  end.

Definition sorted {A} (before : A -> A -> bool) (l : list A) : list A :=
  foldr (insort before) [] l.

(** [sum(l)] on integers. *)
Definition sum (l : list Z) : Z := foldr Z.add 0%Z l.

(** [sum(d.values())]. *)
Definition sum_values (d : gmap string Z) : Z :=
  map_fold (fun _ v acc => (v + acc)%Z) 0%Z d.

(** [d.get(k, 0)]. *)
Definition get0 (d : gmap string Z) (k : string) : Z := default 0%Z (d !! k).

(** [x or d] on an optional string: [None] and [""] are falsy. *)
Definition str_or (x : option string) (d : string) : string :=
  match x with
  | Some s => if decide (s = "") then d else s
  | None => d
  end.

(** [x or d] on an optional integer: [None] and [0] are falsy. *)
Definition int_or (x : option Z) (d : Z) : Z :=
  match x with
  | Some z => if decide (z = 0%Z) then d else z
  | None => d
  end.

(** Rounding to the nearest integer, halves to the even neighbour. *)
Definition rint (x : R) : Z :=
  let f := Zfloor x in
  let d := (x - IZR f)%R in
  if Rlt_dec d (1 / 2) then f
  else if Rlt_dec (1 / 2) d then (f + 1)%Z
  else if Z.even f then f else (f + 1)%Z.

(** [round(x, ndigits)] on a float. *)
Definition round (x : R) (ndigits : nat) : R :=
  (IZR (rint (x * 10 ^ ndigits)) / 10 ^ ndigits)%R.

(** *** Strings *)

(** [sep.join(l)]. *)
Definition join (sep : string) (l : list string) : string :=
  String.concat sep l.

(** [s.split(sep)] for a non-empty separator, read from the left.  [skip]
    counts the characters of a separator still to be passed over; a
    character outside a separator joins the piece that begins the rest. *)
Definition push (c : ascii) (pieces : list string) : list string :=
  match pieces with
  | [] => [String c ""]
  | piece :: pieces' => String c piece :: pieces'
  end.

Fixpoint split_go (sep : string) (skip : nat) (s : string) : list string :=
  match s with
  | EmptyString => [""]
  | String c s' =>
      match skip with
      | S k => split_go sep k s'
      | O =>
          if String.prefix sep s
          then "" :: split_go sep (String.length sep - 1) s'
          else push c (split_go sep 0 s')
      end
  end.

Definition split (sep s : string) : list string := split_go sep 0 s.

(** [sub in s]. *)
Fixpoint contains (sub s : string) : bool :=
  String.prefix sub s ||
  match s with
  | EmptyString => false
  | String _ s' => contains sub s'
  end.

(** [s.replace(old, new)] for a non-empty [old]. *)
Definition replace (old new s : string) : string := join new (split old s).

Fixpoint mem_char (c : ascii) (chars : string) : bool :=
  match chars with
  | EmptyString => false
  | String d chars' => if Ascii.eqb c d then true else mem_char c chars'
  end.

Fixpoint lstrip (chars s : string) : string :=
  match s with
  | EmptyString => EmptyString
  | String c s' => if mem_char c chars then lstrip chars s' else s
  end.

Fixpoint rstrip (chars s : string) : string :=
  match s with
  | EmptyString => EmptyString
  | String c s' =>
      match rstrip chars s' with
      | EmptyString => if mem_char c chars then EmptyString else String c ""
      | r => String c r
      end
  end.

(** [s.strip(chars)]. *)
Definition strip (chars s : string) : string := rstrip chars (lstrip chars s).

(** The ASCII characters [str.isspace] accepts. *)
Definition whitespace : string :=
  String (ascii_of_nat 32) (String (ascii_of_nat 9) (String (ascii_of_nat 10)
  (String (ascii_of_nat 11) (String (ascii_of_nat 12) (String (ascii_of_nat 13)
  (String (ascii_of_nat 28) (String (ascii_of_nat 29) (String (ascii_of_nat 30)
  (String (ascii_of_nat 31) EmptyString))))))))).

Definition digit_value (c : ascii) : option Z :=
  let n := nat_of_ascii c in
  if (48 <=? n)%nat && (n <=? 57)%nat then Some (Z.of_nat (n - 48)) else None.

(** The digits of an integer literal: at least one digit, single
    underscores allowed between digits. *)
Fixpoint digits_go (acc : Z) (after_digit : bool) (s : string) : option Z :=
  match s with
  | EmptyString => if after_digit then Some acc else None
  | String c s' =>
      match digit_value c with
      | Some d => digits_go (10 * acc + d)%Z true s'
      | None =>
          if Ascii.eqb c "_" && after_digit then digits_go acc false s'
          else None
      end
  end.

(** [int(s)] on ASCII text; [None] stands for [ValueError]. *)
Definition int (s : string) : option Z :=
  match strip whitespace s with
  | String "-" s' => Z.opp <$> digits_go 0 false s'
  | String "+" s' => digits_go 0 false s'
  | s' => digits_go 0 false s'
  end.

(** [l[0]] and [l[-1]] on the result of [split], which is never empty. *)
Definition first (l : list string) : string := hd "" l.
Definition final (l : list string) : string := List.last l "".

End Py.
Export Py.

(** ** The GitHub REST API as the scripts see it *)

Module GitHub.

Record Response (A : Type) := {
  status_code : Z;
  Link : option string;
  json : A
}.
Arguments status_code {A} _.
Arguments Link {A} _.
Arguments json {A} _.

(** [GET /users/{username}]. *)
Record user_json := {
  user_login : option string;
  user_name : option string;
  user_bio : option string;
  user_public_repos : option Z;
  user_followers : option Z;
  user_following : option Z;
  user_created_at : option string;
  user_updated_at : option string;
  user_avatar_url : option string;
  user_html_url : option string;
  user_followers_url : string;
  user_following_url : string
}.

(** An item of a repository listing (repositories, starred,
    subscriptions). *)
Record repo_json := {
  repo_name : option string;
  repo_language : option string;
  repo_stargazers_count : option Z;
  repo_size : option Z;
  repo_fork : bool;
  repo_html_url : string;
  repo_languages_url : string;
  repo_commits_url : string
}.

(** An item of an account listing (followers, following,
    organizations). *)
Record account_json := {
  account_login : string
}.

(** An item of a commit listing: [commit.author.date] when present. *)
Record commit_json := {
  commit_author_date : option string
}.

(** The remote side: what each family of endpoints answers to the request
    number [t] for [url]. *)
Record Server := {
  users_api : nat -> string -> Response user_json;
  repos_api : nat -> string -> Response (list repo_json);
  accounts_api : nat -> string -> Response (list account_json);
  languages_api : nat -> string -> Response (list (string * Z));
  commits_api : nat -> string -> Response (list commit_json)
}.

End GitHub.
Export GitHub.

(** ** Interpreter state: requests, sleeps and the collection *)

Module Runtime.

Inductive event :=
| Request (url : string)
| Sleep (seconds : Z).

Record State := {
  clock : nat;
  trace : list event;
  collection : list (gmap string pyval)
}.

Definition M (A : Type) : Type := State -> A * State.

#[export] Instance M_ret : MRet M := fun A a st => (a, st).
#[export] Instance M_bind : MBind M := fun A B f m st =>
  let (a, st') := m st in f a st'.

(** [requests.get(url, headers=...)]. *)
Definition requests_get {A} (api : nat -> string -> Response A) (url : string)
    : M (Response A) := fun st =>
  (api (clock st) url,
   {| clock := S (clock st);
      trace := trace st ++ [Request url];
      collection := collection st |}).

(** [time.sleep(seconds)]. *)
Definition time_sleep (seconds : Z) : M unit := fun st =>
  (tt, {| clock := clock st;
          trace := trace st ++ [Sleep seconds];
          collection := collection st |}).

(** *** The collection *)

Definition has_login (username : string) (doc : gmap string pyval) : Prop :=
  doc !! "Login" = Some (PStr username).

#[export] Instance has_login_dec username doc : Decision (has_login username doc).
Proof. unfold has_login. apply _. Defined.

(** [collection.find()]. *)
Definition find : M (list (gmap string pyval)) := fun st => (collection st, st).

(** [collection.find_one({"Login": username})]. *)
Definition find_one (username : string) : M (option (gmap string pyval)) :=
  fun st => (snd <$> list_find (has_login username) (collection st), st).

(** [collection.insert_one(doc)]. *)
Definition insert_one (doc : gmap string pyval) : M unit := fun st =>
  (tt, {| clock := clock st; trace := trace st;
          collection := collection st ++ [doc] |}).

(** [$set]: the fields of [data] overwrite or extend the document; its other
    fields stay. *)
Definition set_fields (data doc : gmap string pyval) : gmap string pyval :=
  data ∪ doc.

Fixpoint update_first (username : string) (data : gmap string pyval)
    (docs : list (gmap string pyval)) : option (list (gmap string pyval)) :=
  match docs with
  | [] => None
  | doc :: docs' =>
      if decide (has_login username doc) then Some (set_fields data doc :: docs')
      else (doc ::.) <$> update_first username data docs'
  end.

(** [collection.update_one({"Login": username}, {"$set": data}, upsert=True)]:
    the first matching document is updated in place; without a match a
    document made of the filter and the update is inserted. *)
Definition upsert (username : string) (data : gmap string pyval)
    (docs : list (gmap string pyval)) : list (gmap string pyval) :=
  match update_first username data docs with
  | Some docs' => docs'
  | None => docs ++ [set_fields data {["Login" := PStr username]}]
  end.

Definition update_one_set_upsert (username : string) (data : gmap string pyval)
    : M unit := fun st =>
  (tt, {| clock := clock st; trace := trace st;
          collection := upsert username data (collection st) |}).

End Runtime.
Export Runtime.

(** ** [Recommendation_dashboard.py] *)

Module Recommendation_dashboard.

Section Fetch.
Context (github : Server).

Definition get_json {A} (api : nat -> string -> Response A) (url : string)
    : M (py A) :=
  response ← requests_get api url;
  response ←
    (if decide (status_code response = 403%Z)
     then _ ← time_sleep 60; requests_get api url
     else mret response);
  (* response.raise_for_status() *)
  if decide (400 ≤ status_code response < 600)%Z
  then mret (Raise (HTTPError (status_code response)))
  else mret (Return (json response)).

Definition get_list (url : string) : M (list string) :=
  r ← get_json (accounts_api github) url;
  match r with
  | Return items => mret (account_login <$> items)
  | Raise _ => mret []
  end.

Definition get_starred_or_subs (url : string) : M (list string) :=
  r ← get_json (repos_api github) url;
  match r with
  | Return items => mret (repo_html_url <$> items)
  | Raise _ => mret []
  end.

(** [for lang, count in langs.items(): ...]. *)
Definition add_languages (langs : list (string * Z)) (language_data : gmap string Z)
    : gmap string Z :=
  foldl (fun d lc => <[lc.1 := (get0 d lc.1 + lc.2)%Z]> d) language_data langs.

Fixpoint get_languages_loop (repos : list repo_json) (language_data : gmap string Z)
    : M (py (gmap string Z)) :=
  match repos with
  | [] => mret (Return language_data)
  | repo :: repos' =>
      r ← get_json (languages_api github) (repo_languages_url repo);
      match r with
      | Return langs => get_languages_loop repos' (add_languages langs language_data)
      | Raise e => mret (Raise e)
      end
  end.

Definition get_languages (username : string) : M (gmap string Z) :=
  r ← get_json (repos_api github)
        ("https://api.github.com/users/" ++ username ++ "/repos");
  match r with
  | Return repos =>
      r ← get_languages_loop repos ∅;
      match r with
      | Return language_data => mret language_data
      | Raise _ => mret ∅
      end
  | Raise _ => mret ∅
  end.

Fixpoint get_total_commits_loop (repos : list repo_json) (total : Z) : M Z :=
  match repos with
  | [] => mret total
  | repo :: repos' =>
      if repo_fork repo then get_total_commits_loop repos' total
      else
        let commits_url := replace "{/sha}" "" (repo_commits_url repo) in
        (* params={'per_page': 1} *)
        commits_resp ← requests_get (commits_api github) (commits_url ++ "?per_page=1");
        if decide (status_code commits_resp = 200%Z)
        then get_total_commits_loop repos'
               (total + Z.of_nat (length (json commits_resp)))%Z
        else get_total_commits_loop repos' total
  end.

Definition get_total_commits (username : string) : M Z :=
  r ← get_json (repos_api github)
        ("https://api.github.com/users/" ++ username ++ "/repos");
  match r with
  | Return repos => get_total_commits_loop repos 0%Z
  | Raise _ => mret 0%Z
  end.

(** The dictionary literal [data] of [fetch_and_store_user]. *)
Definition user_record (user : user_json)
    (followers following starred subscriptions organizations : list string)
    (languages : gmap string Z) (total_commits : Z) : gmap string pyval :=
  list_to_map [
    ("Login", of_opt_str (user_login user));
    ("Name", of_opt_str (user_name user));
    ("Bio", of_opt_str (user_bio user));
    ("Public Repositories", of_opt_int (user_public_repos user));
    ("Followers Count", of_opt_int (user_followers user));
    ("Following Count", of_opt_int (user_following user));
    ("Created At", of_opt_str (user_created_at user));
    ("Updated At", of_opt_str (user_updated_at user));
    ("Avatar URL", of_opt_str (user_avatar_url user));
    ("Profile URL", of_opt_str (user_html_url user));
    ("Followers List", PStrs followers);
    ("Following List", PStrs following);
    ("Starred Repositories", PStrs starred);
    ("Subscriptions", PStrs subscriptions);
    ("Organizations", PStrs organizations);
    ("Languages", PCounts languages);
    ("Total Commits", PInt total_commits)
  ].

Definition fetch_and_store_user (username : string)
    : M (option (gmap string pyval)) :=
  r ← get_json (users_api github) ("https://api.github.com/users/" ++ username);
  match r with
  | Raise _ => mret None
  | Return user =>
      followers ← get_list (user_followers_url user);
      following ← get_list (first (split "{" (user_following_url user)));
      starred ← get_starred_or_subs
        ("https://api.github.com/users/" ++ username ++ "/starred");
      subscriptions ← get_starred_or_subs
        ("https://api.github.com/users/" ++ username ++ "/subscriptions");
      organizations ← get_list
        ("https://api.github.com/users/" ++ username ++ "/orgs");
      languages ← get_languages username;
      total_commits ← get_total_commits username;
      let data := user_record user followers following starred subscriptions
                    organizations languages total_commits in
      _ ← update_one_set_upsert username data;
      mret (Some data)
  end.

End Fetch.

(** *** The analyzer *)

(** One row of the dataframe: the columns the script reads.  A missing
    cell is [PNone].  The index is the default [RangeIndex], as
    [preprocess_languages] leaves it ([reset_index(drop=True)]). *)
Record Row := {
  Login : pyval;
  Profile_URL : pyval;
  Avatar_URL : pyval;
  Languages : pyval;
  LanguagesList : list string
}.

Record Recommendation := {
  rec_Login : pyval;
  rec_Profile_URL : pyval;
  Common_Languages : string;
  Similarity_Score : R;
  Avatar : pyval
}.

(** [preprocess_languages]: the key list of the [Languages] mapping (empty
    when the cell is not a mapping), then only the rows with a language. *)
Definition preprocess_languages (df : list Row) : list Row :=
  let df := (fun r =>
    {| Login := Login r; Profile_URL := Profile_URL r;
       Avatar_URL := Avatar_URL r; Languages := Languages r;
       LanguagesList := match Languages r with
                        | PCounts x => (map_to_list x).*1
                        | _ => []
                        end |}) <$> df in
  filter (fun r => 0 < length (LanguagesList r)) df.

(** [pd.DataFrame(data)], restricted to the columns read later. *)
Definition DataFrame (data : list (gmap string pyval)) : list Row :=
  (fun doc =>
     {| Login := default PNone (doc !! "Login");
        Profile_URL := default PNone (doc !! "Profile URL");
        Avatar_URL := default PNone (doc !! "Avatar URL");
        Languages := default PNone (doc !! "Languages");
        LanguagesList := [] |}) <$> data.

(** [load_data].  For an empty collection Python answers [pd.DataFrame()],
    a frame with no rows and no columns; here it is the frame with no
    rows. *)
Definition load_data : M (list Row) :=
  data ← find;
  match data with
  | [] => mret []
  | _ => mret (preprocess_languages (DataFrame data))
  end.

(** [MultiLabelBinarizer]: the classes are the sorted distinct labels; a
    cell is 1 when the sample carries the class. *)
Definition classes_ (y : list (list string)) : list string :=
  sorted String.ltb (remove_dups (concat y)).

Definition indicator (classes labels : list string) : list Z :=
  (fun c => if decide (c ∈ labels) then 1%Z else 0%Z) <$> classes.

Definition fit_transform (y : list (list string)) : list (list Z) :=
  indicator (classes_ y) <$> y.

(** [sklearn.metrics.pairwise.cosine_similarity]: rows are scaled to unit
    Euclidean norm (a zero norm is replaced by 1), then multiplied. *)
Definition sum_R (l : list R) : R := foldr Rplus 0%R l.

Definition dot (a b : list R) : R := sum_R (zip_with Rmult a b).

Definition row_norm (x : list R) : R := sqrt (dot x x).

Definition normalize_row (x : list R) : list R :=
  let n := row_norm x in
  let n := if Req_dec_T n 0 then 1%R else n in
  (fun v => (v / n)%R) <$> x.

Definition normalize (X : list (list R)) : list (list R) :=
  normalize_row <$> X.

Definition cosine_similarity (X : list (list Z)) : list (list R) :=
  let Xn := normalize ((fun x : list Z => IZR <$> x) <$> X) in
  (fun a : list R => (fun b : list R => dot a b) <$> Xn) <$> Xn.

(** [key=lambda x: x[1], reverse=True]. *)
Definition by_score_desc (a b : nat * R) : bool :=
  if Rlt_dec (snd b) (snd a) then true else false.

(** [user_langs.intersection(rec_langs)]; the order in which Python
    iterates over the resulting set is not specified. *)
Definition common_langs (user_langs rec_langs : list string) : list string :=
  filter (fun l => l ∈ rec_langs) (remove_dups user_langs).

(** The body of the loop that builds one recommendation. *)
Definition recommendation (df : list Row) (user_langs : list string)
    (p : nat * R) : py Recommendation :=
  rec_user ← getitem df (fst p);
  let rec_langs := LanguagesList rec_user in
  mret {| rec_Login := Login rec_user;
          rec_Profile_URL := Profile_URL rec_user;
          Common_Languages := join ", " (common_langs user_langs rec_langs);
          Similarity_Score := round (snd p) 3;
          Avatar := Avatar_URL rec_user |}.

(** The default of the [top_n] parameter. *)
Definition top_n_default : Z := 10.

Definition get_recommendations (df : list Row) (username : string)
    (top_n : Z) : py (option (list Recommendation)) :=
  if decide (PStr username ∈ Login <$> df) then
    let lang_matrix := fit_transform (LanguagesList <$> df) in
    let similarity := cosine_similarity lang_matrix in
    user_idx ← getitem
      ((filter (fun ir => Login (snd ir) = PStr username) (enumerate df)).*1) 0;
    row ← getitem similarity user_idx;
    let sim_scores := enumerate row in
    let sim_scores := filter (fun p => fst p ≠ user_idx) sim_scores in
    let sim_scores := slice_to top_n (sorted by_score_desc sim_scores) in
    user ← getitem df user_idx;
    let user_langs := LanguagesList user in
    recommendations ← mapM (recommendation df user_langs) sim_scores;
    mret (Some recommendations)
  else Return None.

(** *** The page: from the button to the results *)

Section Script.
Context (github : Server).

(** The columns of [pd.DataFrame(data)]: the keys of the documents. *)
Definition columns (data : list (gmap string pyval)) : gset string :=
  ⋃ (dom <$> data).

(** [df = load_data()] with the columns of [df].  [None] stands for the
    [KeyError] that [df['Languages']] raises in [preprocess_languages] when
    documents are stored and none has the field; for an empty collection
    the frame has no column at all. *)
Definition load_frame : M (option (gset string * list Row)) :=
  data ← find;
  df ← load_data;
  match data with
  | [] => mret (Some (∅, df))
  | _ =>
      if decide ("Languages" ∈ columns data)
      then mret (Some (columns data ∪ {["LanguagesList"]}, df))
      else mret None
  end.

(** What one run of the script ends in: an uncaught exception, one of its
    three messages, or the list of results. *)
Inductive outcome :=
| KeyError (key : string)
| Uncaught (e : exn)
| Warning_enter_username
| Stopped
| Warning_no_recommendations
| Results (main_user : Row) (recommendations : list Recommendation).

(** From [recommendations = get_recommendations(df, username)] to the end
    of the script.  The columns are read in this order: [Profile URL] and
    [Avatar URL] for the first recommendation, then [Name], [Bio],
    [Public Repositories] and [Followers Count] for the main user. *)
Definition show (cols : gset string) (df : list Row) (username : string) : outcome :=
  match get_recommendations df username top_n_default with
  | Raise e => Uncaught e
  | Return None | Return (Some []) => Warning_no_recommendations
  | Return (Some recommendations) =>
      match filter (fun key => key ∉ cols)
              ["Profile URL"; "Avatar URL"; "Name"; "Bio"; "Public Repositories";
               "Followers Count"] with
      | key :: _ => KeyError key
      | [] =>
          match filter (fun r => Login r = PStr username) df with
          | main_user :: _ => Results main_user recommendations
          | [] => Uncaught IndexError
          end
      end
  end.

(** One run of the script with [username] in the text box and the button
    pressed. *)
Definition run (username : string) : M outcome :=
  loaded ← load_frame;
  match loaded with
  | None => mret (KeyError "Languages")
  | Some (cols, df) =>
      if decide (username = "") then mret Warning_enter_username
      else if decide ("Login" ∈ cols) then
        if decide (PStr username ∈ Login <$> df) then mret (show cols df username)
        else
          new_user ← fetch_and_store_user github username;
          match new_user with
          | Some _ =>
              loaded ← load_frame;
              match loaded with
              | None => mret (KeyError "Languages")
              | Some (cols, df) => mret (show cols df username)
              end
          | None => mret Stopped
          end
      else mret (KeyError "Login")
  end.

End Script.

End Recommendation_dashboard.

(** ** The similarity matrix in binary64 *)

Module Float64.

(** IEEE 754 binary64, the [float64] of NumPy: 53 bits of precision, every
    operation rounded to nearest with ties to even. *)
Definition prec : Z := 53.
Definition emax : Z := 1024.

Definition float : Type := spec_float.

Definition add : float -> float -> float := SFadd prec emax.
Definition mul : float -> float -> float := SFmul prec emax.
Definition div : float -> float -> float := SFdiv prec emax.
Definition sqrt : float -> float := SFsqrt prec emax.
Definition ltb : float -> float -> bool := SFltb.
Definition eqb : float -> float -> bool := SFeqb.

(** The conversion of the integer incidence matrix to [float64]. *)
Definition of_Z (z : Z) : float := binary_normalize prec emax z 0 false.

Definition zero : float := of_Z 0.
Definition one : float := of_Z 1.

(** A product of two rows, the terms added from left to right, each
    product and each sum rounded. *)
Definition dot (a b : list float) : float := foldl add zero (zip_with mul a b).

Definition row_norm (x : list float) : float := sqrt (dot x x).

Definition normalize_row (x : list float) : list float :=
  let n := row_norm x in
  let n := if eqb n zero then one else n in
  (fun v => div v n) <$> x.

Definition normalize (X : list (list float)) : list (list float) :=
  normalize_row <$> X.

(** [sklearn.metrics.pairwise.cosine_similarity] on [float64]: as
    [Recommendation_dashboard.cosine_similarity], with every operation
    rounded. *)
Definition cosine_similarity (X : list (list Z)) : list (list float) :=
  let Xn := normalize ((fun x : list Z => of_Z <$> x) <$> X) in
  (fun a : list float => (fun b : list float => dot a b) <$> Xn) <$> Xn.

End Float64.

(** ** [dashboard.py] *)

Module Dashboard.

Section Fetch.
Context (github : Server).

(** The text [rel="last"]. *)
Definition rel_last : string :=
  "rel=" ++ String (ascii_of_nat 34) ("last" ++ String (ascii_of_nat 34) "").

(** The part of [get_commit_count] that reads a response. *)
Definition commit_count_of (resp : Response (list commit_json)) : Z :=
  if decide (status_code resp ≠ 200%Z) then 0%Z
  else
    let by_length := Z.of_nat (length (json resp)) in
    match Link resp with
    | Some links =>
        let last_links :=
          List.filter (fun link => contains rel_last link) (split "," links) in
        match last_links with
        | link :: _ =>
            let last_url := strip "<> " (first (split ";" link)) in
            match int (final (split "page=" last_url)) with
            | Some total_commits => total_commits
            | None => 0%Z
            end
        | [] => by_length
        end
    | None => by_length
    end.

Definition get_commit_count (username repo_name : string) : M Z :=
  let url := "https://api.github.com/repos/" ++ username ++ "/" ++ repo_name
             ++ "/commits?per_page=1" in
  resp ← requests_get (commits_api github) url;
  mret (commit_count_of resp).

(** The dictionaries and the list that the loop over the repositories
    fills. *)
Record Aggregates := {
  languages : gmap string Z;
  commits_per_repo : gmap string Z;
  stars_per_repo : gmap string Z;
  stars_per_language : gmap string Z;
  commit_dates : list string
}.

Definition no_aggregates : Aggregates :=
  {| languages := ∅; commits_per_repo := ∅; stars_per_repo := ∅;
     stars_per_language := ∅; commit_dates := [] |}.

(** The dates a commit listing contributes: [commit.author.date] when it
    is there and not empty. *)
Definition dates_of (commits : list commit_json) : list string :=
  omap (fun commit =>
          match commit_author_date commit with
          | Some date_str => if decide (date_str = "") then None else Some date_str
          | None => None
          end) commits.

(** One turn of [for repo in repos]. *)
Definition visit_repo (username : string) (repo : repo_json) (acc : Aggregates)
    : M Aggregates :=
  let lang := str_or (repo_language repo) "Unknown" in
  let repo_name := str_or (repo_name repo) "Unknown" in
  let stars := int_or (repo_stargazers_count repo) 0 in
  let size := int_or (repo_size repo) 0 in
  let languages := <[lang := (get0 (languages acc) lang + size)%Z]> (languages acc) in
  let stars_per_language :=
    <[lang := (get0 (stars_per_language acc) lang + stars)%Z]> (stars_per_language acc) in
  let stars_per_repo := <[repo_name := stars]> (stars_per_repo acc) in
  commits_count ← get_commit_count username repo_name;
  let commits_per_repo := <[repo_name := commits_count]> (commits_per_repo acc) in
  let commits_url := "https://api.github.com/repos/" ++ username ++ "/" ++ repo_name
                     ++ "/commits?per_page=100" in
  commits_resp ← requests_get (commits_api github) commits_url;
  let commit_dates :=
    if decide (status_code commits_resp = 200%Z)
    then (commit_dates acc ++ dates_of (json commits_resp))%list
    else commit_dates acc in
  mret {| languages := languages; commits_per_repo := commits_per_repo;
          stars_per_repo := stars_per_repo;
          stars_per_language := stars_per_language;
          commit_dates := commit_dates |}.

Fixpoint visit_repos (username : string) (repos : list repo_json) (acc : Aggregates)
    : M Aggregates :=
  match repos with
  | [] => mret acc
  | repo :: repos' =>
      acc ← visit_repo username repo acc;
      visit_repos username repos' acc
  end.

(** The second loop: for each language, the commits of its repositories. *)
Definition commits_of_language (repos : list repo_json)
    (commits_per_repo : gmap string Z) (lang : string) : Z :=
  sum ((fun repo => get0 commits_per_repo (str_or (repo_name repo) "")) <$>
       filter (fun repo => str_or (repo_language repo) "Unknown" = lang) repos).

(** The second loop: [commits_per_language[lang]] for each key of
    [languages]. *)
Definition commits_per_language (repos : list repo_json) (acc : Aggregates)
    : gmap string Z :=
  map_imap (fun lang _ => Some (commits_of_language repos (commits_per_repo acc) lang))
    (languages acc).

(** The dictionary that [fetch_user_data] returns. *)
Definition user_record (username : string) (user_json : user_json)
    (repos starred : list repo_json) (acc : Aggregates) : gmap string pyval :=
  list_to_map [
    ("Login", PStr username);
    ("Name", PStr (str_or (user_name user_json) username));
    ("Avatar URL", of_opt_str (user_avatar_url user_json));
    ("Profile URL", of_opt_str (user_html_url user_json));
    ("Bio", PStr (str_or (user_bio user_json) ""));
    ("Created At", of_opt_str (user_created_at user_json));
    ("Followers Count", PInt (int_or (user_followers user_json) 0));
    ("Following Count", PInt (int_or (user_following user_json) 0));
    ("Public Repositories", PInt (int_or (user_public_repos user_json) 0));
    ("Languages", PCounts (languages acc));
    ("Commits Per Repo", PCounts (commits_per_repo acc));
    ("Stars Per Repo", PCounts (stars_per_repo acc));
    ("Stars Per Language", PCounts (stars_per_language acc));
    ("Commits Per Language", PCounts (commits_per_language repos acc));
    ("Starred Repositories", PStrs (repo_html_url <$> starred));
    ("Commit Dates", PStrs (commit_dates acc));
    ("Platforms", PStrs ["Linux"; "Windows"; "macOS"]);
    ("Web Frameworks", PCounts (list_to_map [("Django", 3); ("Flask", 2); ("React", 5)]%Z));
    ("Total Commits", PInt (sum_values (commits_per_repo acc)))
  ].

Definition fetch_user_data (username : string) : M (option (gmap string pyval)) :=
  let user_url := "https://api.github.com/users/" ++ username in
  let repos_url := "https://api.github.com/users/" ++ username ++ "/repos?per_page=100" in
  let starred_url := "https://api.github.com/users/" ++ username ++ "/starred?per_page=100" in
  user_resp ← requests_get (users_api github) user_url;
  if decide (status_code user_resp ≠ 200%Z) then mret None
  else
    let user_json := json user_resp in
    repos_resp ← requests_get (repos_api github) repos_url;
    let repos := if decide (status_code repos_resp = 200%Z) then json repos_resp else [] in
    starred_resp ← requests_get (repos_api github) starred_url;
    let starred :=
      if decide (status_code starred_resp = 200%Z) then json starred_resp else [] in
    acc ← visit_repos username repos no_aggregates;
    mret (Some (user_record username user_json repos starred acc)).

(** The start of the body of [if username:], up to the point where a
    record is at hand: [find_one], and on a miss [fetch_user_data] then
    [insert_one]. *)
Definition lookup_or_fetch (username : string) : M (option (gmap string pyval)) :=
  user ← find_one username;
  match user with
  | Some user => mret (Some user)
  | None =>
      user ← fetch_user_data username;
      match user with
      | Some user => _ ← insert_one user; mret (Some user)
      | None => mret None
      end
  end.

End Fetch.

(** *** The page: the [Joined] line and the bubble chart *)

(** [years, remainder = divmod(duration.days, 365)] and
    [months = remainder // 30]. *)
Definition joined (days : Z) : Z * Z :=
  let years := (days / 365)%Z in
  let remainder := (days mod 365)%Z in
  let months := (remainder / 30)%Z in
  (years, months).

(** What the bubble chart of the frameworks computes before it draws. *)
Inductive bubbles :=
| ValueError
| ZeroDivisionError
| Sizes (sizes : list R).

(** The labels and the values are unzipped from the items, which needs at
    least one item; then [sizes = [max(20, (v / max(values)) * 100) for v
    in values]]. *)
Definition bubble_sizes (frameworks : list (string * Z)) : bubbles :=
  match frameworks.*2 with
  | [] => ValueError
  | v :: values =>
      let largest := foldr Z.max v values in
      if decide (largest = 0%Z) then ZeroDivisionError
      else Sizes ((fun v => Rmax 20 (IZR v / IZR largest * 100)) <$> v :: values)
  end.

End Dashboard.

(** ** [dashboard.py] with the exceptions it does not catch *)

Module DashboardRaising.
Import Dashboard.

(** The exceptions [fetch_user_data] can meet.  [dashboard.py] has no
    [try] around them. *)
Inductive error :=
| ConnectionError       (* [requests.get]: no response (any
                           [requests.RequestException]) *)
| AttributeError        (* [None.get]: a commit or an author that is null *)
| ValueError_isoparse.  (* [parser.isoparse]: a text that is no ISO 8601
                           date *)

Inductive raising (A : Type) :=
| Value (a : A)
| Throws (e : error).
Arguments Value {A} a.
Arguments Throws {A} e.

(** State passing that stops at the first exception. *)
Definition MR (A : Type) : Type := State -> raising A * State.

#[export] Instance MR_ret : MRet MR := fun A a st => (Value a, st).
#[export] Instance MR_bind : MBind MR := fun A B f m st =>
  let (r, st') := m st in
  match r with
  | Value a => f a st'
  | Throws e => (Throws e, st')
  end.

Definition throw {A} (e : error) : MR A := fun st => (Throws e, st).

(** An item of a commit listing as JSON allows it: [commit] may be null,
    [commit.author] may be null, and [commit.author.date] may be missing. *)
Inductive commit_item :=
| Commit_null
| Author_null
| Author_date (date : option string).

(** The remote side as [dashboard.py] meets it: the three families of
    endpoints it asks, and the requests that get no response.  [raises t
    url] tells whether request number [t], for [url], raises. *)
Record Network := {
  users : nat -> string -> Response user_json;
  listings : nat -> string -> Response (list repo_json);
  commit_listings : nat -> string -> Response (list commit_item);
  raises : nat -> string -> bool
}.

(** The item with its date, for the parts of the code that only count the
    items or read a date that is there. *)
Definition plain (commit : commit_item) : commit_json :=
  {| commit_author_date :=
       match commit with
       | Author_date date => date
       | Commit_null | Author_null => None
       end |}.

Definition listed (resp : Response (list commit_item)) : Response (list commit_json) :=
  {| status_code := status_code resp; Link := Link resp;
     json := plain <$> json resp |}.

Section Fetch.
(** [isoparse date_str] tells whether [parser.isoparse] accepts the
    text. *)
Context (net : Network) (isoparse : string -> bool).

(** [requests.get(url, headers=headers)]. *)
Definition requests_get {A} (api : nat -> string -> Response A) (url : string)
    : MR (Response A) := fun st =>
  (if raises net (clock st) url then Throws ConnectionError
   else Value (api (clock st) url),
   {| clock := S (clock st);
      trace := trace st ++ [Request url];
      collection := collection st |}).

Definition get_commit_count (username repo_name : string) : MR Z :=
  let url := "https://api.github.com/repos/" ++ username ++ "/" ++ repo_name
             ++ "/commits?per_page=1" in
  resp ← requests_get (commit_listings net) url;
  mret (commit_count_of (listed resp)).

(** [date_str = commit.get("commit", {}).get("author", {}).get("date")],
    then [parser.isoparse(date_str)] when the text is not empty. *)
Definition date_of (commit : commit_item) : raising (option string) :=
  match commit with
  | Commit_null | Author_null => Throws AttributeError
  | Author_date None => Value None
  | Author_date (Some date_str) =>
      if decide (date_str = "") then Value None
      else if isoparse date_str then Value (Some date_str)
      else Throws ValueError_isoparse
  end.

(** [for commit in commits_resp.json(): ...]. *)
Fixpoint dates_of (commits : list commit_item) : raising (list string) :=
  match commits with
  | [] => Value []
  | commit :: commits' =>
      match date_of commit with
      | Throws e => Throws e
      | Value date =>
          match dates_of commits' with
          | Throws e => Throws e
          | Value dates => Value (option_list date ++ dates)%list
          end
      end
  end.

(** One turn of [for repo in repos]. *)
Definition visit_repo (username : string) (repo : repo_json) (acc : Aggregates)
    : MR Aggregates :=
  let lang := str_or (repo_language repo) "Unknown" in
  let repo_name := str_or (repo_name repo) "Unknown" in
  let stars := int_or (repo_stargazers_count repo) 0 in
  let size := int_or (repo_size repo) 0 in
  let languages := <[lang := (get0 (languages acc) lang + size)%Z]> (languages acc) in
  let stars_per_language :=
    <[lang := (get0 (stars_per_language acc) lang + stars)%Z]> (stars_per_language acc) in
  let stars_per_repo := <[repo_name := stars]> (stars_per_repo acc) in
  commits_count ← get_commit_count username repo_name;
  let commits_per_repo := <[repo_name := commits_count]> (commits_per_repo acc) in
  let commits_url := "https://api.github.com/repos/" ++ username ++ "/" ++ repo_name
                     ++ "/commits?per_page=100" in
  commits_resp ← requests_get (commit_listings net) commits_url;
  commit_dates ←
    (if decide (status_code commits_resp = 200%Z)
     then match dates_of (json commits_resp) with
          | Value dates => mret (commit_dates acc ++ dates)%list
          | Throws e => throw e
          end
     else mret (commit_dates acc));
  mret {| languages := languages; commits_per_repo := commits_per_repo;
          stars_per_repo := stars_per_repo;
          stars_per_language := stars_per_language;
          commit_dates := commit_dates |}.

Fixpoint visit_repos (username : string) (repos : list repo_json) (acc : Aggregates)
    : MR Aggregates :=
  match repos with
  | [] => mret acc
  | repo :: repos' =>
      acc ← visit_repo username repo acc;
      visit_repos username repos' acc
  end.

Definition fetch_user_data (username : string) : MR (option (gmap string pyval)) :=
  let user_url := "https://api.github.com/users/" ++ username in
  let repos_url := "https://api.github.com/users/" ++ username ++ "/repos?per_page=100" in
  let starred_url := "https://api.github.com/users/" ++ username ++ "/starred?per_page=100" in
  user_resp ← requests_get (users net) user_url;
  if decide (status_code user_resp ≠ 200%Z) then mret None
  else
    let user_json := json user_resp in
    repos_resp ← requests_get (listings net) repos_url;
    let repos := if decide (status_code repos_resp = 200%Z) then json repos_resp else [] in
    starred_resp ← requests_get (listings net) starred_url;
    let starred :=
      if decide (status_code starred_resp = 200%Z) then json starred_resp else [] in
    acc ← visit_repos username repos no_aggregates;
    mret (Some (user_record username user_json repos starred acc)).

End Fetch.

End DashboardRaising.

(** ** Concrete inputs used by the examples *)

Module Scenarios.
Import Recommendation_dashboard.

Definition row_of (login : string) (langs : list string) : Row :=
  {| Login := PStr login;
     Profile_URL := PStr ("https://github.com/" ++ login);
     Avatar_URL := PStr ("https://avatars.githubusercontent.com/" ++ login);
     Languages := PCounts (list_to_map ((fun l => (l, 1%Z)) <$> langs));
     LanguagesList := langs |}.

(** Two stored documents that carry the same login. *)
Definition df_twins : list Row :=
  [row_of "octocat" ["Python"]; row_of "octocat" ["Python"; "C"]].

(** Two users with no language in common. *)
Definition df_pair : list Row :=
  [row_of "alice" ["Python"; "C"]; row_of "bob" ["Go"]].

(** Two users with the same three languages. *)
Definition df_trio : list Row :=
  [row_of "alice" ["C"; "Go"; "Python"]; row_of "bob" ["C"; "Go"; "Python"]].

(** Fifty-one users, all writing Python: "A", "B", ... *)
Definition df_crowd : list Row :=
  (fun i => row_of (String (ascii_of_nat (65 + i)) "") ["Python"]) <$> seq 0 51.

(** *** Servers *)

Definition answer {A} (status : Z) (body : A) : Response A :=
  {| status_code := status; Link := None; json := body |}.

Definition nobody : user_json :=
  {| user_login := None; user_name := None; user_bio := None;
     user_public_repos := None; user_followers := None; user_following := None;
     user_created_at := None; user_updated_at := None; user_avatar_url := None;
     user_html_url := None; user_followers_url := ""; user_following_url := "" |}.

Definition octocat : user_json :=
  {| user_login := Some "octocat"; user_name := Some "The Octocat"; user_bio := None;
     user_public_repos := Some 8%Z; user_followers := Some 3%Z;
     user_following := Some 9%Z;
     user_created_at := Some "2011-01-25T18:44:36Z";
     user_updated_at := Some "2024-01-22T12:11:05Z";
     user_avatar_url := Some "https://avatars.githubusercontent.com/u/583231";
     user_html_url := Some "https://github.com/octocat";
     user_followers_url := "https://api.github.com/users/octocat/followers";
     user_following_url :=
       "https://api.github.com/users/octocat/following{/other_user}" |}.

(** Every endpoint answers 403. *)
Definition github_forbidden : Server :=
  {| users_api := fun _ _ => answer 403 nobody;
     repos_api := fun _ _ => answer 403 [];
     accounts_api := fun _ _ => answer 403 [];
     languages_api := fun _ _ => answer 403 [];
     commits_api := fun _ _ => answer 403 [] |}.

(** The first request is answered 403, every later one 200. *)
Definition github_recovering : Server :=
  {| users_api := fun t _ => if decide (t = 0%nat) then answer 403 nobody
                             else answer 200 octocat;
     repos_api := fun _ _ => answer 200 [];
     accounts_api := fun _ _ => answer 200 [];
     languages_api := fun _ _ => answer 200 [];
     commits_api := fun _ _ => answer 200 [] |}.

(** Every endpoint answers 200; the user has no repository. *)
Definition github_quiet : Server :=
  {| users_api := fun _ _ => answer 200 octocat;
     repos_api := fun _ _ => answer 200 [];
     accounts_api := fun _ _ => answer 200 [];
     languages_api := fun _ _ => answer 200 [];
     commits_api := fun _ _ => answer 200 [] |}.

(** The profile is served; every other endpoint answers 500. *)
Definition github_profile_only : Server :=
  {| users_api := fun _ _ => answer 200 octocat;
     repos_api := fun _ _ => answer 500 [];
     accounts_api := fun _ _ => answer 500 [];
     languages_api := fun _ _ => answer 500 [];
     commits_api := fun _ _ => answer 500 [] |}.

(** A [Link] header in GitHub's format whose last page is [page]. *)
Definition quote : string := String (ascii_of_nat 34) "".

Definition link_header (page : string) : string :=
  "<https://api.github.com/repositories/1296269/commits?per_page=1&page=2>; rel="
  ++ quote ++ "next" ++ quote
  ++ ", <https://api.github.com/repositories/1296269/commits?per_page=1&page="
  ++ page ++ ">; rel=" ++ quote ++ "last" ++ quote.

Definition a_commit : commit_json :=
  {| commit_author_date := Some "2024-01-22T12:11:05Z" |}.

Definition paginated (page : string) : Response (list commit_json) :=
  {| status_code := 200; Link := Some (link_header page); json := [a_commit] |}.

Definition repo_of (name : option string) (language : string) (fork : bool)
    : repo_json :=
  {| repo_name := name; repo_language := Some language;
     repo_stargazers_count := Some 1%Z; repo_size := Some 10%Z;
     repo_fork := fork;
     repo_html_url := "https://github.com/octocat/" ++ default "" name;
     repo_languages_url := "https://api.github.com/repos/octocat/"
                           ++ default "" name ++ "/languages";
     repo_commits_url := "https://api.github.com/repos/octocat/"
                         ++ default "" name ++ "/commits{/sha}" |}.

(** A user with a repository of three commits and a fork of five. *)
Definition github_busy : Server :=
  {| users_api := fun _ _ => answer 200 octocat;
     repos_api := fun _ _ =>
       answer 200 [repo_of (Some "hello") "Python" false;
                   repo_of (Some "spoon") "C" true];
     accounts_api := fun _ _ => answer 200 [];
     languages_api := fun _ _ => answer 200 [];
     commits_api := fun _ url =>
       if decide (url = "https://api.github.com/repos/octocat/hello/commits?per_page=1")
       then paginated "3"
       else if decide (url = "https://api.github.com/repos/octocat/spoon/commits?per_page=1")
       then paginated "5"
       else answer 200 [a_commit] |}.

(** A listing whose only repository comes without a name. *)
Definition github_nameless : Server :=
  {| users_api := fun _ _ => answer 200 octocat;
     repos_api := fun _ _ => answer 200 [repo_of None "Go" false];
     accounts_api := fun _ _ => answer 200 [];
     languages_api := fun _ _ => answer 200 [];
     commits_api := fun _ _ => answer 200 [a_commit] |}.

(** As [github_nameless], on a server that has no repository called
    [Unknown]: the commits asked under that name are not found. *)
Definition github_nameless_404 : Server :=
  {| users_api := fun _ _ => answer 200 octocat;
     repos_api := fun _ _ => answer 200 [repo_of None "Go" false];
     accounts_api := fun _ _ => answer 200 [];
     languages_api := fun _ _ => answer 200 [];
     commits_api := fun _ _ => answer 404 [] |}.
(** A user with one Python repository; the profile is served under any
    spelling of the user name, with the login as GitHub has it. *)
Definition github_octocat : Server :=
  {| users_api := fun _ _ => answer 200 octocat;
     repos_api := fun _ _ => answer 200 [repo_of (Some "hello") "Python" false];
     accounts_api := fun _ _ => answer 200 [];
     languages_api := fun _ _ => answer 200 [("Python", 1200%Z)];
     commits_api := fun _ _ => answer 200 [a_commit] |}.


(** The interpreter at start-up, with a given collection. *)
Definition boot (docs : list (gmap string pyval)) : State :=
  {| clock := 0; trace := []; collection := docs |}.

(** Two repositories; the language breakdown of the second cannot be
    fetched. *)
Definition github_half : Server :=
  {| users_api := fun _ _ => answer 200 octocat;
     repos_api := fun _ _ =>
       answer 200 [repo_of (Some "hello") "Python" false;
                   repo_of (Some "spoon") "C" false];
     accounts_api := fun _ _ => answer 200 [];
     languages_api := fun _ url =>
       if decide (url = "https://api.github.com/repos/octocat/hello/languages")
       then answer 200 [("Python", 1200%Z)]
       else answer 500 [];
     commits_api := fun _ _ => answer 200 [a_commit] |}.

(** A stored document with the fields the page reads. *)
Definition document_of (login : string) (langs : list (string * Z)) : gmap string pyval :=
  list_to_map [("Login", PStr login); ("Name", PNone); ("Bio", PNone);
               ("Public Repositories", PInt 1); ("Followers Count", PInt 0);
               ("Avatar URL", PStr ("https://avatars.githubusercontent.com/" ++ login));
               ("Profile URL", PStr ("https://github.com/" ++ login));
               ("Languages", PCounts (list_to_map langs))].

(** *** Networks *)

(** One repository with one dated commit; nothing raises. *)
Definition network_fine : DashboardRaising.Network :=
  {| DashboardRaising.users := fun _ _ => answer 200 octocat;
     DashboardRaising.listings := fun _ _ =>
       answer 200 [repo_of (Some "hello") "Python" false];
     DashboardRaising.commit_listings := fun _ _ =>
       answer 200 [DashboardRaising.Author_date (Some "2024-01-22T12:11:05Z")];
     DashboardRaising.raises := fun _ _ => false |}.

(** As [network_fine], but the request for the dates of the commits gets no
    response. *)
Definition network_cut : DashboardRaising.Network :=
  {| DashboardRaising.users := DashboardRaising.users network_fine;
     DashboardRaising.listings := DashboardRaising.listings network_fine;
     DashboardRaising.commit_listings := DashboardRaising.commit_listings network_fine;
     DashboardRaising.raises := fun _ url =>
       bool_decide
         (url = "https://api.github.com/repos/octocat/hello/commits?per_page=100") |}.

(** As [network_fine], but the commit comes without an author. *)
Definition network_null_author : DashboardRaising.Network :=
  {| DashboardRaising.users := DashboardRaising.users network_fine;
     DashboardRaising.listings := DashboardRaising.listings network_fine;
     DashboardRaising.commit_listings := fun _ _ =>
       answer 200 [DashboardRaising.Author_null];
     DashboardRaising.raises := fun _ _ => false |}.

(** A parser that accepts every text. *)
Definition isoparse_any (date_str : string) : bool := true.

End Scenarios.

(** ** Vocabulary of the statements *)

Module Notions.
Import Recommendation_dashboard Dashboard Scenarios.

(** *** The analyzer *)

Definition bit (v : R) : Prop := (v = 0 \/ v = 1)%R.

(** The ranked candidates: the target's similarity row without the target's
    own position, best first, cut to [top_n]. *)
Definition ranked (row : list R) (user_idx : nat) (top_n : Z) : list (nat * R) :=
  slice_to top_n
    (sorted by_score_desc (filter (fun p => fst p ≠ user_idx) (enumerate row))).

Definition similarity_of (df : list Row) : list (list R) :=
  cosine_similarity (fit_transform (LanguagesList <$> df)).

(** A candidate is eligible when it is not the target and has a language. *)
Definition eligible (username : string) (r : Row) : Prop :=
  Login r ≠ PStr username /\ LanguagesList r ≠ [].

#[export] Instance eligible_dec username r : Decision (eligible username r).
Proof. unfold eligible. apply _. Defined.

(** *** Traces *)

Definition is_request (e : event) : bool :=
  match e with Request _ => true | Sleep _ => false end.

(** [steps st st' evs]: going from [st] to [st'] appended [evs] to the
    trace, served one request per [Request] event and left the collection
    alone. *)
Definition steps (st st' : State) (evs : list event) : Prop :=
  trace st' = (trace st ++ evs)%list /\
  clock st' = (clock st + length (List.filter is_request evs))%nat /\
  collection st' = collection st.

(** [raise_for_status] followed by [json()]. *)
Definition checked {A} (response : Response A) : py A :=
  if decide (400 ≤ status_code response < 600)%Z
  then Raise (HTTPError (status_code response))
  else Return (json response).

(** An endpoint is down for [url] when it answers every request for it with
    an error status. *)
Definition down {A} (api : nat -> string -> Response A) (url : string) : Prop :=
  forall t, (400 ≤ status_code (api t url) < 600)%Z.

(** The server returns at most one commit when asked for one per page. *)
Definition honours_per_page_1 (github : Server) : Prop :=
  forall t url,
    (length (json (commits_api github t (url ++ "?per_page=1"))) ≤ 1)%nat.

Definition non_forks (repos : list repo_json) : list repo_json :=
  filter (fun repo => repo_fork repo = false) repos.

(** *** The loop of [fetch_user_data] *)

Definition count_url (username repo_name : string) : string :=
  "https://api.github.com/repos/" ++ username ++ "/" ++ repo_name
  ++ "/commits?per_page=1".

Definition dates_url (username repo_name : string) : string :=
  "https://api.github.com/repos/" ++ username ++ "/" ++ repo_name
  ++ "/commits?per_page=100".

(** One turn of the loop, as a function of the count and the listing it
    reads. *)
Definition visited (repo : repo_json) (acc : Aggregates)
    (count : Z) (listing : Response (list commit_json)) : Aggregates :=
  let lang := str_or (repo_language repo) "Unknown" in
  let name := str_or (repo_name repo) "Unknown" in
  {| languages :=
       <[lang := (get0 (languages acc) lang + int_or (repo_size repo) 0)%Z]>
         (languages acc);
     commits_per_repo := <[name := count]> (commits_per_repo acc);
     stars_per_repo :=
       <[name := int_or (repo_stargazers_count repo) 0]> (stars_per_repo acc);
     stars_per_language :=
       <[lang := (get0 (stars_per_language acc) lang
                  + int_or (repo_stargazers_count repo) 0)%Z]>
         (stars_per_language acc);
     commit_dates :=
       if decide (status_code listing = 200%Z)
       then (commit_dates acc ++ dates_of (json listing))%list
       else commit_dates acc |}.

(** Every count is 0 and no date is collected. *)
Definition no_commits (acc : Aggregates) : Prop :=
  map_Forall (fun _ v => v = 0%Z) (commits_per_repo acc) /\ commit_dates acc = [].

(** The language under which the loop files a repository. *)
Definition lang_of (repo : repo_json) : string :=
  str_or (repo_language repo) "Unknown".

(** The names under which the loop files the repositories, and the counts
    it reads for them in turn, starting at request number [t]: one count per
    repository, fork or not. *)
Definition names_of (repos : list repo_json) : list string :=
  (fun repo => str_or (repo_name repo) "Unknown") <$> repos.

Fixpoint counts_read (github : Server) (username : string)
    (repos : list repo_json) (t : nat) : list Z :=
  match repos with
  | [] => []
  | repo :: repos' =>
      commit_count_of
        (commits_api github t (count_url username (str_or (repo_name repo) "Unknown")))
      :: counts_read github username repos' (S (S t))
  end.

(** *** Text *)

(** A page number as the text of its decimal digits. *)
Definition page_of (u : Decimal.uint) : string := NilEmpty.string_of_uint u.

(** [push_all a pieces]: [a] in front of the first piece. *)
Definition push_all (a : string) (pieces : list string) : list string :=
  match pieces with
  | [] => [a]
  | p :: ps => (a ++ p) :: ps
  end.

(** No occurrence of [sep] begins inside [a], whatever follows [a]. *)
Fixpoint free (sep a : string) : Prop :=
  match a with
  | EmptyString => True
  | String c a' =>
      (forall rest, String.prefix sep (String c (a' ++ rest)) = false) /\ free sep a'
  end.




(** *** Similarity as an overlap of language sets *)

(** The shared languages over the geometric mean of the two numbers of
    languages. *)
Definition overlap (user_langs rec_langs : list string) : R :=
  (INR (length (common_langs user_langs rec_langs))
   / sqrt (INR (length (remove_dups user_langs))
           * INR (length (remove_dups rec_langs))))%R.

(** Two rows with the same set of languages. *)
Definition same_languages (a b : Row) : Prop :=
  forall l, l ∈ LanguagesList a <-> l ∈ LanguagesList b.

(** The order of the ranking on pairs of a position and a score: the
    higher score first, and among equal scores the lower position. *)
Definition ranks_before (p q : nat * R) : Prop :=
  (snd q < snd p)%R \/ (snd q = snd p /\ (fst p < fst q)%nat).

(** *** Servers *)

(** A server that answers each URL the same way at every request. *)
Definition steady (github : Server) : Prop :=
  forall t url,
    users_api github t url = users_api github 0 url /\
    repos_api github t url = repos_api github 0 url /\
    accounts_api github t url = accounts_api github 0 url /\
    languages_api github t url = languages_api github 0 url /\
    commits_api github t url = commits_api github 0 url.

(** An endpoint serves [body] at [url] when it answers every request for it
    with status 200 and that body. *)
Definition serves {A} (api : nat -> string -> Response A) (url : string) (body : A)
    : Prop :=
  forall t, status_code (api t url) = 200%Z /\ json (api t url) = body.


(** *** Fetches that nothing interrupts *)

(** The server that answers as the network does when nothing raises. *)
Definition answering (net : DashboardRaising.Network) : Server :=
  {| users_api := DashboardRaising.users net;
     repos_api := DashboardRaising.listings net;
     accounts_api := fun _ _ => {| status_code := 404; Link := None; json := [] |};
     languages_api := fun _ _ => {| status_code := 404; Link := None; json := [] |};
     commits_api := fun t url =>
       DashboardRaising.listed (DashboardRaising.commit_listings net t url) |}.

(** A commit whose date can be read: the commit and its author are there,
    and the date, when it is there and not empty, is accepted by the
    parser. *)
Definition readable (isoparse : string -> bool)
    (commit : DashboardRaising.commit_item) : Prop :=
  match commit with
  | DashboardRaising.Commit_null | DashboardRaising.Author_null => False
  | DashboardRaising.Author_date None => True
  | DashboardRaising.Author_date (Some date_str) =>
      date_str = "" \/ isoparse date_str = true
  end.

(** Nothing raises in the turn of the loop for [repo] that starts at
    request number [t]: both requests get a response, and the commits of a
    listing answered 200 are readable. *)
Definition visit_clean (net : DashboardRaising.Network) (isoparse : string -> bool)
    (username : string) (t : nat) (repo : repo_json) : Prop :=
  let name := str_or (repo_name repo) "Unknown" in
  let commits_resp :=
    DashboardRaising.commit_listings net (S t) (dates_url username name) in
  DashboardRaising.raises net t (count_url username name) = false /\
  DashboardRaising.raises net (S t) (dates_url username name) = false /\
  (status_code commits_resp = 200%Z -> Forall (readable isoparse) (json commits_resp)).

Fixpoint visits_clean (net : DashboardRaising.Network) (isoparse : string -> bool)
    (username : string) (t : nat) (repos : list repo_json) : Prop :=
  match repos with
  | [] => True
  | repo :: repos' =>
      visit_clean net isoparse username t repo /\
      visits_clean net isoparse username (S (S t)) repos'
  end.

(** Nothing raises in the fetch that starts at request number [t]: the
    profile request gets a response and, when it is answered 200, so do the
    two listing requests, and nothing raises in the loop. *)
Definition fetch_clean (net : DashboardRaising.Network) (isoparse : string -> bool)
    (username : string) (t : nat) : Prop :=
  let user_url := "https://api.github.com/users/" ++ username in
  let repos_url := "https://api.github.com/users/" ++ username ++ "/repos?per_page=100" in
  let starred_url :=
    "https://api.github.com/users/" ++ username ++ "/starred?per_page=100" in
  let repos_resp := DashboardRaising.listings net (S t) repos_url in
  let repos := if decide (status_code repos_resp = 200%Z) then json repos_resp else [] in
  DashboardRaising.raises net t user_url = false /\
  (status_code (DashboardRaising.users net t user_url) = 200%Z ->
   DashboardRaising.raises net (S t) repos_url = false /\
   DashboardRaising.raises net (S (S t)) starred_url = false /\
   visits_clean net isoparse username (S (S (S t))) repos).

End Notions.

(** * Properties *)

Import Recommendation_dashboard Notions.

(** ** Python's list primitives *)

Section ListPrimitives.
Context {A : Type}.
Implicit Types (l : list A) (before : A -> A -> bool).

Lemma insort_perm before x l : insort before x l ≡ₚ x :: l.
Proof.
  induction l as [|y l IH]; simpl; [done|].
  destruct (before y x); [|done].
  rewrite IH. apply Permutation_swap.
Qed.

Lemma sorted_perm before l : sorted before l ≡ₚ l.
Proof.
  induction l as [|x l IH]; simpl; [done|].
  rewrite insort_perm. by f_equiv.
Qed.

Lemma sorted_length before l : length (sorted before l) = length l.
Proof. by rewrite sorted_perm. Qed.

Lemma elem_of_sorted before l x : x ∈ sorted before l ↔ x ∈ l.
Proof. by rewrite sorted_perm. Qed.

(** When [before] is the strict part of a total preorder [le], the result
    of [sorted] is ordered by [le]. *)
Lemma sorted_StronglySorted before (le : A -> A -> Prop) l :
  Transitive le ->
  (forall a b, before a b = true -> le a b) ->
  (forall a b, before a b = false -> le b a) ->
  StronglySorted le (sorted before l).
Proof.
  intros Htr Ht Hf. induction l as [|x l IH]; simpl; [constructor|].
  revert IH. generalize (sorted before l). clear l.
  induction l as [|y l IH]; intros Hs; simpl.
  - repeat constructor.
  - apply StronglySorted_inv in Hs as [Hs Hy].
    destruct (before y x) eqn:E.
    + constructor; [by apply IH|].
      rewrite insort_perm. constructor; [by apply Ht|done].
    + constructor; [by constructor|].
      constructor; [by apply Hf|].
      eapply Forall_impl; [exact Hy|]. intros z Hz. simpl in Hz.
      etrans; [by apply Hf|done].
Qed.

Lemma slice_to_prefix n l : slice_to n l `prefix_of` l.
Proof. unfold slice_to. case_decide; apply prefix_take. Qed.

Lemma slice_to_length n l :
  (0 ≤ n)%Z -> length (slice_to n l) = Z.to_nat n `min` length l.
Proof. intros Hn. unfold slice_to. rewrite decide_True by done. apply length_take. Qed.

Lemma slice_to_negative n l :
  (n < 0)%Z -> length (slice_to n l) = length l - Z.to_nat (- n).
Proof.
  intros Hn. unfold slice_to. rewrite decide_False by lia.
  rewrite length_take. lia.
Qed.

Lemma elem_of_slice_to n l x : x ∈ slice_to n l -> x ∈ l.
Proof.
  intros Hx. destruct (slice_to_prefix n l) as [k Hk].
  rewrite Hk. apply elem_of_app. by left.
Qed.

Lemma StronglySorted_prefix (le : A -> A -> Prop) l1 l2 :
  l1 `prefix_of` l2 -> StronglySorted le l2 -> StronglySorted le l1.
Proof.
  intros [k ->]. revert k. induction l1 as [|x l1 IH]; intros k Hs; [constructor|].
  simpl in Hs. apply StronglySorted_inv in Hs as [Hs Hx].
  constructor; [by eapply IH|].
  apply Forall_app in Hx. tauto.
Qed.

Lemma elem_of_enumerate l i x : (i, x) ∈ enumerate l ↔ l !! i = Some x.
Proof.
  unfold enumerate. rewrite elem_of_lookup_imap. split.
  - intros (j & y & [= -> ->] & Hj). done.
  - intros Hi. by exists i, x.
Qed.

Lemma enumerate_length l : length (enumerate l) = length l.
Proof. apply length_imap. Qed.

Lemma filter_all (P : A -> Prop) `{!forall x, Decision (P x)} l :
  Forall P l -> filter P l = l.
Proof.
  induction 1 as [|x l Hx _ IH]; [done|].
  by rewrite filter_cons_True, IH.
Qed.

Lemma mapM_py_Return {B} (f : A -> py B) l :
  (forall x, x ∈ l -> exists y, f x = Return y) ->
  exists k, mapM f l = Return k /\ Forall2 (fun x y => f x = Return y) l k.
Proof.
  induction l as [|x l IH]; intros Hf; simpl.
  - exists []. split; [done|constructor].
  - destruct (Hf x) as [y Hy]; [by left|].
    destruct IH as (k & Hk & HF); [intros; apply Hf; by right|].
    exists (y :: k). rewrite Hy, Hk. split; [done|by constructor].
Qed.

End ListPrimitives.

(** ** Rounding *)

Section Rounding.
Open Scope R_scope.

Lemma rint_floor_bounds x : (Zfloor x ≤ rint x ≤ Zfloor x + 1)%Z.
Proof.
  unfold rint. destruct (Rlt_dec _ _); [lia|].
  destruct (Rlt_dec _ _); [lia|]. destruct (Z.even _); lia.
Qed.

Lemma rint_lower n y : IZR n <= y -> (n ≤ rint y)%Z.
Proof.
  intros H. apply Zfloor_lub in H. pose proof (rint_floor_bounds y). lia.
Qed.

Lemma rint_upper n y : y <= IZR n -> (rint y ≤ n)%Z.
Proof.
  intros H. pose proof (rint_floor_bounds y) as Hb.
  pose proof (Zfloor_bound y) as [Hf1 Hf2].
  destruct (decide (Zfloor y = n)) as [E|E].
  - unfold rint. rewrite E in *. destruct (Rlt_dec _ _) as [|Hn]; [lia|].
    exfalso. apply Hn. lra.
  - assert (Zfloor y < n)%Z; [|lia].
    assert (Zfloor y ≤ n)%Z; [|lia].
    apply le_IZR. lra.
Qed.

Lemma rint_mono x y : x <= y -> (rint x ≤ rint y)%Z.
Proof.
  intros Hxy. pose proof (Zfloor_le _ _ Hxy) as Hf.
  pose proof (rint_floor_bounds x). pose proof (rint_floor_bounds y).
  destruct (decide (Zfloor x = Zfloor y)) as [E|E]; [|lia].
  unfold rint. rewrite E.
  repeat destruct (Rlt_dec _ _); try lia; try lra; destruct (Z.even _); lia.
Qed.

Lemma round_mono x y n : x <= y -> round x n <= round y n.
Proof.
  intros Hxy. unfold round.
  assert (0 < 10 ^ n) as Hp by (apply pow_lt; lra).
  apply Rmult_le_compat_r; [left; by apply Rinv_0_lt_compat|].
  apply IZR_le, rint_mono. by apply Rmult_le_compat_r; [left|].
Qed.

Lemma round3_unit_interval x : 0 <= x <= 1 -> 0 <= round x 3 <= 1.
Proof.
  intros [H0 H1]. unfold round.
  assert (10 ^ 3 = 1000) as -> by (simpl; lra).
  assert (0 ≤ rint (x * 1000))%Z as Hl by (apply rint_lower; lra).
  assert (rint (x * 1000) ≤ 1000)%Z as Hu by (apply rint_upper; lra).
  apply IZR_le in Hl, Hu. lra.
Qed.

Lemma round_zero n : round 0 n = 0.
Proof.
  unfold round. rewrite Rmult_0_l.
  assert (rint 0 = 0%Z) as ->; [|lra].
  pose proof (rint_lower 0 0 (Rle_refl _)).
  pose proof (rint_upper 0 0 (Rle_refl _)). lia.
Qed.

End Rounding.

(** ** Cosine similarity of 0/1 rows *)

Section Cosine.
Open Scope R_scope.

Lemma dot_nil_l b : dot [] b = 0.
Proof. done. Qed.

Lemma dot_nil_r a : dot a [] = 0.
Proof. by destruct a. Qed.

Lemma dot_cons x a y b : dot (x :: a) (y :: b) = x * y + dot a b.
Proof. done. Qed.

Lemma dot_self_nonneg a : 0 <= dot a a.
Proof.
  induction a as [|x a IH]; [unfold dot; simpl; lra|].
  rewrite dot_cons. nra.
Qed.

Lemma dot_bits a b :
  Forall bit a -> Forall bit b ->
  0 <= dot a b /\ dot a b <= dot a a /\ dot a b <= dot b b.
Proof.
  intros Ha. revert b. induction Ha as [|x a Hx Ha IH]; intros b Hb.
  - pose proof (dot_self_nonneg b). rewrite !dot_nil_l. lra.
  - destruct Hb as [|y b Hy Hb].
    + rewrite !dot_nil_r. pose proof (dot_self_nonneg (x :: a)). lra.
    + rewrite !dot_cons. destruct (IH b Hb) as (? & ? & ?).
      destruct Hx as [-> | ->], Hy as [-> | ->]; lra.
Qed.

Lemma dot_scale a b n m :
  n <> 0 -> m <> 0 ->
  dot ((fun v => v / n) <$> a) ((fun v => v / m) <$> b) = dot a b / (n * m).
Proof.
  intros Hn Hm. revert b. induction a as [|x a IH]; intros [|y b]; simpl.
  - unfold dot; simpl. by field.
  - unfold dot; simpl. by field.
  - rewrite !dot_nil_r. by field.
  - rewrite !dot_cons, IH. by field.
Qed.

Lemma dot_le_norms a b :
  Forall bit a -> Forall bit b -> dot a b <= row_norm a * row_norm b.
Proof.
  intros Ha Hb. destruct (dot_bits a b Ha Hb) as (H0 & H1 & H2).
  unfold row_norm. rewrite <- sqrt_mult by apply dot_self_nonneg.
  rewrite <- (sqrt_square (dot a b)) at 1 by done.
  apply sqrt_le_1_alt. nra.
Qed.

Lemma normalize_row_scale x :
  exists n, 0 < n /\ (row_norm x = 0 /\ n = 1 \/ n = row_norm x) /\
    normalize_row x = (fun v => v / n) <$> x.
Proof.
  unfold normalize_row. destruct (Req_dec_T (row_norm x) 0) as [E|E].
  - exists 1. split; [lra|]. split; [by left|done].
  - exists (row_norm x). split; [|by split; [right|]].
    pose proof (sqrt_pos (dot x x)). unfold row_norm in *. lra.
Qed.

(** An entry of the similarity matrix of two 0/1 rows lies in [0, 1]. *)
Lemma cosine_entry_range a b :
  Forall bit a -> Forall bit b ->
  0 <= dot (normalize_row a) (normalize_row b) <= 1.
Proof.
  intros Ha Hb.
  destruct (normalize_row_scale a) as (n & Hn & Hna & ->).
  destruct (normalize_row_scale b) as (m & Hm & Hmb & ->).
  rewrite dot_scale by lra.
  destruct (dot_bits a b Ha Hb) as (H0 & H1 & H2).
  pose proof (dot_le_norms a b Ha Hb) as Hle.
  assert (0 < n * m) as Hnm by nra.
  assert (row_norm a = 0 -> dot a b = 0) as Za.
  { unfold row_norm. intros E%sqrt_eq_0; [lra|apply dot_self_nonneg]. }
  assert (row_norm b = 0 -> dot a b = 0) as Zb.
  { unfold row_norm. intros E%sqrt_eq_0; [lra|apply dot_self_nonneg]. }
  assert (dot a b <= n * m) as Hd.
  { destruct Hna as [[E ->] | ->], Hmb as [[E' ->] | ->];
      rewrite ?Za, ?Zb by done; try lra; nra. }
  split.
  - apply Rmult_le_pos; [done|]. left. by apply Rinv_0_lt_compat.
  - apply (Rmult_le_reg_r (n * m)); [done|]. field_simplify; lra.
Qed.

(** Two rows with no common 1 have similarity 0. *)
Lemma cosine_entry_orthogonal a b :
  dot a b = 0 -> dot (normalize_row a) (normalize_row b) = 0.
Proof.
  intros E.
  destruct (normalize_row_scale a) as (n & Hn & _ & ->).
  destruct (normalize_row_scale b) as (m & Hm & _ & ->).
  rewrite dot_scale, E by lra. unfold Rdiv. ring.
Qed.

Lemma indicator_bits classes labels : Forall bit (IZR <$> indicator classes labels).
Proof.
  unfold indicator. induction classes as [|c cs IH]; [constructor|].
  rewrite !fmap_cons. constructor; [|done].
  case_decide; [by right|by left].
Qed.

Lemma indicator_dot_disjoint classes l1 l2 :
  (forall c, c ∈ l1 -> c ∉ l2) ->
  dot (IZR <$> indicator classes l1) (IZR <$> indicator classes l2) = 0.
Proof.
  intros Hd. unfold indicator. induction classes as [|c cs IH].
  - done.
  - rewrite !fmap_cons, dot_cons, IH.
    repeat case_decide; try lra. by destruct (Hd c).
Qed.

Lemma cosine_similarity_lookup X i j row v :
  cosine_similarity X !! i = Some row -> row !! j = Some v ->
  exists a b, X !! i = Some a /\ X !! j = Some b /\
    v = dot (normalize_row (IZR <$> a)) (normalize_row (IZR <$> b)).
Proof.
  unfold cosine_similarity, normalize. intros Hi Hj.
  rewrite list_lookup_fmap in Hi.
  apply fmap_Some in Hi as (a' & Ha' & ->).
  rewrite list_lookup_fmap in Hj.
  apply fmap_Some in Hj as (b' & Hb' & ->).
  rewrite !list_lookup_fmap in Ha', Hb'.
  apply fmap_Some in Ha' as (a'' & Ha'' & ->).
  apply fmap_Some in Hb' as (b'' & Hb'' & ->).
  apply fmap_Some in Ha'' as (a & Ha & ->).
  apply fmap_Some in Hb'' as (b & Hb & ->).
  by exists a, b.
Qed.

Lemma cosine_similarity_length X : length (cosine_similarity X) = length X.
Proof. unfold cosine_similarity, normalize. by rewrite !length_fmap. Qed.

Lemma cosine_similarity_row_length X row :
  row ∈ cosine_similarity X -> length row = length X.
Proof.
  unfold cosine_similarity, normalize.
  intros (a & -> & _)%list_elem_of_fmap. by rewrite !length_fmap.
Qed.

End Cosine.

(** ** [get_recommendations] *)

Section Recommendations.
Open Scope R_scope.

Lemma first_index df username :
  PStr username ∈ Login <$> df ->
  exists i user,
    getitem ((filter (fun ir => Login (snd ir) = PStr username) (enumerate df)).*1) 0%nat
      = Return i /\
    df !! i = Some user /\ Login user = PStr username.
Proof.
  intros (r & Hr & Hin)%list_elem_of_fmap.
  apply list_elem_of_lookup in Hin as [i Hi].
  assert ((i, r) ∈ filter (fun ir => Login (snd ir) = PStr username) (enumerate df)) as Hf.
  { apply list_elem_of_filter. split; [done|by apply elem_of_enumerate]. }
  destruct (filter _ (enumerate df)) as [|[k user] rest] eqn:E.
  { by apply elem_of_nil in Hf. }
  exists k, user. split; [done|].
  assert ((k, user) ∈ filter (fun ir => Login (snd ir) = PStr username) (enumerate df)) as Hk.
  { rewrite E. by left. }
  apply list_elem_of_filter in Hk as [Hk1 Hk2].
  by apply elem_of_enumerate in Hk2.
Qed.

Lemma elem_of_ranked row user_idx top_n i v :
  (i, v) ∈ ranked row user_idx top_n -> i ≠ user_idx /\ row !! i = Some v.
Proof.
  unfold ranked. intros H%elem_of_slice_to.
  apply elem_of_sorted, list_elem_of_filter in H as [H1 H2].
  by apply elem_of_enumerate in H2.
Qed.

(** What [get_recommendations] computes when the login is present: it never
    raises, and its result is the ranked candidates mapped through
    [recommendation]. *)
Lemma get_recommendations_present df username top_n :
  PStr username ∈ Login <$> df ->
  exists user_idx user row recs,
    df !! user_idx = Some user /\ Login user = PStr username /\
    similarity_of df !! user_idx = Some row /\
    get_recommendations df username top_n = Return (Some recs) /\
    Forall2 (fun p r => recommendation df (LanguagesList user) p = Return r)
      (ranked row user_idx top_n) recs.
Proof.
  intros Hin. unfold get_recommendations. rewrite decide_True by done.
  destruct (first_index df username Hin) as (i & user & -> & Hi & Hu).
  assert (i < length (similarity_of df))%nat as Hlt.
  { unfold similarity_of, fit_transform.
    rewrite cosine_similarity_length, !length_fmap. by eapply lookup_lt_Some. }
  apply lookup_lt_is_Some in Hlt as [row Hrow].
  destruct (mapM_py_Return (recommendation df (LanguagesList user))
              (ranked row i top_n)) as (recs & Hrecs & HF).
  { intros [j v] [_ Hj]%elem_of_ranked.
    assert (j < length df)%nat as Hjl.
    { apply lookup_lt_Some in Hj.
      rewrite (cosine_similarity_row_length _ row) in Hj
        by (eapply list_elem_of_lookup_2, Hrow).
      unfold fit_transform in Hj. by rewrite !length_fmap in Hj. }
    apply lookup_lt_is_Some in Hjl as [rj Hrj].
    unfold recommendation, getitem. simpl. rewrite Hrj. simpl. eauto. }
  exists i, user, row, recs. split_and!; try done.
  simpl. fold (similarity_of df). unfold getitem. rewrite Hrow, Hi. simpl.
  fold (ranked row i top_n). by rewrite Hrecs.
Qed.

Lemma get_recommendations_absent df username top_n :
  PStr username ∉ Login <$> df -> get_recommendations df username top_n = Return None.
Proof. intros H. unfold get_recommendations. by rewrite decide_False. Qed.

(** Every returned entry comes from a candidate position other than the
    target's. *)
Lemma recommendation_inv df user_langs p r :
  recommendation df user_langs p = Return r ->
  exists rec_user, df !! fst p = Some rec_user /\
    rec_Login r = Login rec_user /\ Similarity_Score r = round (snd p) 3.
Proof.
  unfold recommendation, getitem. destruct (df !! fst p) as [u|]; simpl; [|done].
  intros [= <-]. by exists u.
Qed.

Lemma Forall2_elem_of_r {A B} (P : A -> B -> Prop) l k y :
  Forall2 P l k -> y ∈ k -> exists x, x ∈ l /\ P x y.
Proof.
  induction 1 as [|a b l k Hab _ IH]; intros Hy.
  - by apply elem_of_nil in Hy.
  - apply elem_of_cons in Hy as [-> | Hy].
    + exists a. split; [by left|done].
    + destruct (IH Hy) as (x & ? & ?). exists x. split; [by right|done].
Qed.

Lemma filter_one_unique {A} (P : A -> Prop) `{!forall x, Decision (P x)}
    (l : list A) i j a b :
  length (filter P l) = 1%nat ->
  l !! i = Some a -> l !! j = Some b -> P a -> P b -> i = j.
Proof.
  revert i j. induction l as [|x l IH]; intros i j Hlen Hi Hj Pa Pb; [done|].
  destruct (decide (P x)) as [Px|Px].
  - rewrite filter_cons_True in Hlen by done. simpl in Hlen.
    assert (filter P l = []) as Hnil by (destruct (filter P l); [done|simplify_eq/=]).
    assert (forall y, y ∈ l -> ~ P y) as Hno.
    { intros y Hy Py. assert (y ∈ filter P l) as Hf by by apply list_elem_of_filter.
      rewrite Hnil in Hf. by apply elem_of_nil in Hf. }
    destruct i as [|i], j as [|j]; simpl in *; [done|..].
    + by destruct (Hno b); [eapply list_elem_of_lookup_2|].
    + by destruct (Hno a); [eapply list_elem_of_lookup_2|].
    + by destruct (Hno a); [eapply list_elem_of_lookup_2|].
  - rewrite filter_cons_False in Hlen by done.
    destruct i as [|i], j as [|j]; simplify_eq/=; try done.
    f_equal. by eapply IH.
Qed.

Lemma filter_one_elem {A} (P : A -> Prop) `{!forall x, Decision (P x)} (l : list A) :
  length (filter P l) = 1%nat -> exists x, x ∈ l /\ P x.
Proof.
  destruct (filter P l) as [|x k] eqn:E; [done|]. intros _.
  assert (x ∈ filter P l) as Hx by (rewrite E; by left).
  apply list_elem_of_filter in Hx as [? ?]. eauto.
Qed.

Lemma filter_skip_index_length {A} (l : list A) i :
  (i < length l)%nat ->
  length (filter (fun p => fst p ≠ i) (enumerate l)) = (length l - 1)%nat.
Proof.
  intros Hi. apply lookup_lt_is_Some in Hi as [x Hx].
  rewrite <- (take_drop_middle l i x Hx) at 1 2.
  assert (length (take i l) = i) as Hl.
  { rewrite length_take. apply lookup_lt_Some in Hx. lia. }
  unfold enumerate. rewrite imap_app, filter_app. simpl.
  rewrite filter_cons_False by (simpl; rewrite Hl; lia).
  rewrite !filter_all.
  - rewrite length_app, !length_imap, length_app. simpl. lia.
  - apply Forall_forall. intros [j y] (k & z & [= -> ->] & Hk)%elem_of_lookup_imap.
    simpl. lia.
  - apply Forall_forall. intros [j y] (k & z & [= -> ->] & Hk)%elem_of_lookup_imap.
    simpl. apply lookup_lt_Some in Hk. lia.
Qed.

Lemma ranked_length row user_idx top_n :
  (user_idx < length row)%nat -> (0 ≤ top_n)%Z ->
  length (ranked row user_idx top_n) = (Z.to_nat top_n `min` (length row - 1))%nat.
Proof.
  intros Hi Hn. unfold ranked.
  by rewrite slice_to_length, sorted_length, filter_skip_index_length.
Qed.

Lemma ranked_sorted row user_idx top_n :
  StronglySorted (fun p q : nat * R => snd q <= snd p) (ranked row user_idx top_n).
Proof.
  unfold ranked. eapply StronglySorted_prefix; [apply slice_to_prefix|].
  apply sorted_StronglySorted.
  - intros a b c ? ?. lra.
  - intros a b. unfold by_score_desc. destruct (Rlt_dec _ _); [lra|done].
  - intros a b. unfold by_score_desc. destruct (Rlt_dec _ _); [done|lra].
Qed.

Lemma similarity_row_length df i row :
  similarity_of df !! i = Some row -> length row = length df.
Proof.
  intros H. unfold similarity_of in H.
  rewrite (cosine_similarity_row_length _ row) by (eapply list_elem_of_lookup_2, H).
  unfold fit_transform. by rewrite !length_fmap.
Qed.

(** An entry of the similarity matrix, in terms of the two users' language
    lists. *)
Lemma similarity_entry df i j row v :
  similarity_of df !! i = Some row -> row !! j = Some v ->
  exists a b classes, df !! i = Some a /\ df !! j = Some b /\
    v = dot (normalize_row (IZR <$> indicator classes (LanguagesList a)))
            (normalize_row (IZR <$> indicator classes (LanguagesList b))).
Proof.
  intros Hi Hj.
  destruct (cosine_similarity_lookup _ _ _ _ _ Hi Hj) as (x & y & Hx & Hy & ->).
  unfold fit_transform in Hx, Hy. rewrite !list_lookup_fmap in Hx, Hy.
  apply fmap_Some in Hx as (la & Ha & ->).
  apply fmap_Some in Hy as (lb & Hb & ->).
  apply fmap_Some in Ha as (a & Ha & ->).
  apply fmap_Some in Hb as (b & Hb & ->).
  by exists a, b, (classes_ (LanguagesList <$> df)).
Qed.

Lemma similarity_entry_range df i j row v :
  similarity_of df !! i = Some row -> row !! j = Some v -> 0 <= v <= 1.
Proof.
  intros Hi Hj.
  destruct (similarity_entry _ _ _ _ _ Hi Hj) as (a & b & cs & _ & _ & ->).
  apply cosine_entry_range; apply indicator_bits.
Qed.

End Recommendations.

(** ** Claims about the analyzer *)

Section AnalyzerClaims.
Import Scenarios.
Open Scope R_scope.

(** Where a returned entry comes from. *)
Lemma returned_entry df user row user_idx top_n recs r :
  similarity_of df !! user_idx = Some row ->
  Forall2 (fun p r => recommendation df (LanguagesList user) p = Return r)
    (ranked row user_idx top_n) recs ->
  r ∈ recs ->
  exists idx v rec_user,
    idx ≠ user_idx /\ row !! idx = Some v /\ df !! idx = Some rec_user /\
    rec_Login r = Login rec_user /\ Similarity_Score r = round v 3.
Proof.
  intros Hrow HF Hr.
  destruct (Forall2_elem_of_r _ _ _ _ HF Hr) as ([idx v] & Hp & Hrec).
  apply elem_of_ranked in Hp as [Hne Hv].
  apply recommendation_inv in Hrec as (u & Hu & HL & HS).
  by exists idx, v, u.
Qed.

Lemma returned_sorted df user_langs sel recs :
  StronglySorted (fun p q : nat * R => snd q <= snd p) sel ->
  Forall2 (fun p r => recommendation df user_langs p = Return r) sel recs ->
  StronglySorted (fun r1 r2 => Similarity_Score r2 <= Similarity_Score r1) recs.
Proof.
  intros Hs HF. induction HF as [|p r sel recs Hpr HF IH]; [constructor|].
  apply StronglySorted_inv in Hs as [Hs Hp].
  constructor; [by apply IH|].
  apply Forall_forall. intros r' Hr'.
  destruct (Forall2_elem_of_r _ _ _ _ HF Hr') as (p' & Hp' & Hrec').
  apply recommendation_inv in Hpr as (_ & _ & _ & ->).
  apply recommendation_inv in Hrec' as (_ & _ & _ & ->).
  apply round_mono. rewrite Forall_forall in Hp. by apply Hp.
Qed.

(** C10, as amended.  The incidence matrix holds only 0 and 1, and every
    score that [get_recommendations] returns, a cosine rounded to three
    decimals, lies in [0, 1]; the function never raises and answers [None]
    exactly when the login is absent. *)
Theorem similarity_scores_unit_interval (df : list Row) (username : string) (top_n : Z) :
  Forall (Forall (fun v => v = 0 \/ v = 1)%Z) (fit_transform (LanguagesList <$> df)) /\
  match get_recommendations df username top_n with
  | Return (Some recs) => Forall (fun r => 0 <= Similarity_Score r <= 1) recs
  | Return None => PStr username ∉ Login <$> df
  | Raise _ => False
  end.
Proof.
  split_and!.
  - unfold fit_transform, indicator. apply Forall_fmap, Forall_forall.
    intros labels _. simpl. apply Forall_fmap, Forall_forall. intros c _. simpl.
    case_decide; [by right|by left].
  - destruct (decide (PStr username ∈ Login <$> df)) as [Hin|Hout].
    + destruct (get_recommendations_present df username top_n Hin)
        as (i & user & row & recs & Hi & Hu & Hrow & -> & HF).
      apply Forall_forall. intros r Hr.
      destruct (returned_entry _ _ _ _ _ _ _ Hrow HF Hr)
        as (idx & v & u & _ & Hv & _ & _ & ->).
      apply round3_unit_interval. by eapply similarity_entry_range.
    + by rewrite get_recommendations_absent.
Qed.

(** C10 as stated fails for the cosines themselves: in binary64 the entries
    of the similarity matrix of two users with the same three languages are
    all [1 + 2^-52], above 1. *)
Lemma cosine_similarity_above_one :
  let above := S754_finite false 4503599627370497 (-52) in
  fit_transform (LanguagesList <$> df_trio) = [[1; 1; 1]; [1; 1; 1]]%Z /\
  Float64.cosine_similarity (fit_transform (LanguagesList <$> df_trio))
    = [[above; above]; [above; above]] /\
  Float64.ltb Float64.one above = true.
Proof. vm_compute. split_and!; reflexivity. Qed.

Lemma eligible_count df username :
  PStr username ∈ Login <$> df ->
  (length (filter (eligible username) df) ≤ length df - 1)%nat.
Proof.
  intros (r & Hr & [i Hi]%list_elem_of_lookup)%list_elem_of_fmap.
  rewrite <- (take_drop_middle df i r Hi). rewrite filter_app.
  rewrite filter_cons_False by (intros [Hne _]; by apply Hne).
  rewrite !length_app. simpl.
  pose proof (length_filter (eligible username) (take i df)).
  pose proof (length_filter (eligible username) (drop (S i) df)). lia.
Qed.

(** C4.  With the target present and a non-negative [top_n], the result
    holds [min top_n (rows - 1)] entries, hence at most [top_n], in
    non-increasing order of score; with the default [top_n] and at least 50
    eligible candidates it holds exactly 10. *)
Theorem get_recommendations_truncates (df : list Row) (username : string) (top_n : Z) :
  PStr username ∈ Login <$> df ->
  (0 ≤ top_n)%Z ->
  exists recs,
    get_recommendations df username top_n = Return (Some recs) /\
    length recs = (Z.to_nat top_n `min` (length df - 1))%nat /\
    (Z.of_nat (length recs) ≤ top_n)%Z /\
    StronglySorted (fun r1 r2 => Similarity_Score r2 <= Similarity_Score r1) recs /\
    (top_n = top_n_default ->
     (50 ≤ length (filter (eligible username) df))%nat ->
     length recs = 10%nat).
Proof.
  intros Hin Hn.
  destruct (get_recommendations_present df username top_n Hin)
    as (i & user & row & recs & Hi & Hu & Hrow & Heq & HF).
  exists recs. split; [done|].
  assert (length recs = (Z.to_nat top_n `min` (length df - 1))%nat) as Hlen.
  { rewrite <- (Forall2_length _ _ _ HF), ranked_length; [|..|done].
    - by rewrite (similarity_row_length _ _ _ Hrow).
    - rewrite (similarity_row_length _ _ _ Hrow). by eapply lookup_lt_Some. }
  split_and!.
  - done.
  - lia.
  - eapply returned_sorted; [apply ranked_sorted|done].
  - intros -> H50. pose proof (eligible_count df username Hin).
    rewrite Hlen. unfold top_n_default. lia.
Qed.

Lemma get_recommendations_truncates_crowd :
  exists recs,
    get_recommendations df_crowd "A" top_n_default = Return (Some recs) /\
    length recs = 10%nat /\
    StronglySorted (fun r1 r2 => Similarity_Score r2 <= Similarity_Score r1) recs.
Proof.
  assert (PStr "A" ∈ Login <$> df_crowd) as Hin by (vm_compute; left).
  assert (0 ≤ top_n_default)%Z as Hn by (unfold top_n_default; lia).
  assert (50 ≤ length (filter (eligible "A") df_crowd))%nat as H50
    by (vm_compute; lia).
  destruct (get_recommendations_truncates df_crowd "A" top_n_default Hin Hn)
    as (recs & Heq & _ & _ & Hs & H10).
  exists recs. split_and!; [done|by apply H10|done].
Defined.

(** X8.  Without the bound on [top_n] the slice counts from the end: a
    negative [top_n] drops the last [-top_n] candidates. *)
Lemma get_recommendations_negative_top_n df username top_n :
  PStr username ∈ Login <$> df -> (top_n < 0)%Z ->
  exists recs,
    get_recommendations df username top_n = Return (Some recs) /\
    length recs = (length df - 1 - Z.to_nat (- top_n))%nat.
Proof.
  intros Hin Hn.
  destruct (get_recommendations_present df username top_n Hin)
    as (i & user & row & recs & Hi & Hu & Hrow & Heq & HF).
  exists recs. split; [done|].
  rewrite <- (Forall2_length _ _ _ HF). unfold ranked.
  rewrite slice_to_negative, sorted_length, filter_skip_index_length by
    (try done; rewrite (similarity_row_length _ _ _ Hrow); by eapply lookup_lt_Some).
  by rewrite (similarity_row_length _ _ _ Hrow).
Qed.

(** C1, as amended.  When exactly one row carries the target login, no
    returned entry carries it; every returned score lies in [-1, 1]; and on
    a corpus of two users with disjoint language lists every returned score
    is 0, the other user being returned as soon as [top_n] is at least 1. *)
Theorem get_recommendations_excludes_unique_target
    (df : list Row) (username : string) (top_n : Z) :
  length (filter (fun r => Login r = PStr username) df) = 1%nat ->
  exists recs,
    get_recommendations df username top_n = Return (Some recs) /\
    Forall (fun r => rec_Login r ≠ PStr username /\ -1 <= Similarity_Score r <= 1) recs /\
    (forall a b, df = [a; b] ->
       (forall l, l ∈ LanguagesList a -> l ∉ LanguagesList b) ->
       Forall (fun r => Similarity_Score r = 0) recs /\
       ((1 ≤ top_n)%Z -> length recs = 1%nat)).
Proof.
  intros Hone.
  assert (PStr username ∈ Login <$> df) as Hin.
  { destruct (filter_one_elem _ _ Hone) as (x & Hx & <-).
    by apply list_elem_of_fmap_2. }
  destruct (get_recommendations_present df username top_n Hin)
    as (i & user & row & recs & Hi & Hu & Hrow & Heq & HF).
  exists recs. split_and!; [done|..].
  - apply Forall_forall. intros r Hr.
    destruct (returned_entry _ _ _ _ _ _ _ Hrow HF Hr)
      as (idx & v & u & Hne & Hv & Hidx & -> & ->).
    split.
    + intros Hl. apply Hne.
      by apply (filter_one_unique _ df idx i u user Hone).
    + pose proof (similarity_entry_range _ _ _ _ _ Hrow Hv) as Hr01.
      apply round3_unit_interval in Hr01. lra.
  - intros a b -> Hdisj. split.
    + apply Forall_forall. intros r Hr.
      destruct (returned_entry _ _ _ _ _ _ _ Hrow HF Hr)
        as (idx & v & u & Hne & Hv & Hidx & _ & ->).
      destruct (similarity_entry _ _ _ _ _ Hrow Hv)
        as (x & y & cs & Hx & Hy & ->).
      rewrite cosine_entry_orthogonal; [apply round_zero|].
      destruct i as [|[|?]], idx as [|[|?]]; simplify_eq/=.
      * by apply indicator_dot_disjoint.
      * apply indicator_dot_disjoint. intros c Hc Hc'. by apply (Hdisj c).
    + intros Hn. rewrite <- (Forall2_length _ _ _ HF), ranked_length.
      * rewrite (similarity_row_length _ _ _ Hrow). simpl. lia.
      * rewrite (similarity_row_length _ _ _ Hrow). by eapply lookup_lt_Some.
      * lia.
Qed.

Lemma get_recommendations_excludes_unique_target_pair :
  exists recs,
    get_recommendations df_pair "alice" top_n_default = Return (Some recs) /\
    Forall (fun r => rec_Login r ≠ PStr "alice" /\ -1 <= Similarity_Score r <= 1) recs /\
    Forall (fun r => Similarity_Score r = 0) recs /\
    length recs = 1%nat.
Proof.
  assert (length (filter (fun r => Login r = PStr "alice") df_pair) = 1%nat) as Hone
    by (vm_compute; reflexivity).
  destruct (get_recommendations_excludes_unique_target df_pair "alice" top_n_default Hone)
    as (recs & Heq & Hall & Hpair).
  destruct (Hpair _ _ eq_refl) as [Hzero Hlen].
  { intros l Hl Hb. simpl in Hl, Hb.
    apply list_elem_of_singleton in Hb as ->.
    apply elem_of_cons in Hl as [Hl|Hl]; [discriminate|].
    apply list_elem_of_singleton in Hl. discriminate. }
  exists recs. split_and!; [done..|].
  apply Hlen. unfold top_n_default. lia.
Defined.

(** Two rows with the same login: the one that is not at the target's
    position is returned to the target. *)
Lemma twin_returned df username :
  Login <$> df = [PStr username; PStr username] ->
  exists recs r,
    get_recommendations df username top_n_default = Return (Some recs) /\
    r ∈ recs /\ rec_Login r = PStr username.
Proof.
  intros Hlogins.
  assert (PStr username ∈ Login <$> df) as Hin by (rewrite Hlogins; by left).
  assert (length df = 2%nat) as Hlen2.
  { apply (f_equal length) in Hlogins. by rewrite length_fmap in Hlogins. }
  destruct (get_recommendations_present df username top_n_default Hin)
    as (i & user & row & recs & Hi & Hu & Hrow & Heq & HF).
  assert (length recs = 1%nat) as Hlen.
  { rewrite <- (Forall2_length _ _ _ HF), ranked_length.
    - rewrite (similarity_row_length _ _ _ Hrow), Hlen2. done.
    - rewrite (similarity_row_length _ _ _ Hrow). by eapply lookup_lt_Some.
    - unfold top_n_default. lia. }
  destruct recs as [|r [|]]; simplify_eq/=.
  exists [r], r. split_and!; [done|by left|].
  destruct (returned_entry _ _ _ _ _ _ _ Hrow HF (list_elem_of_here _ _))
    as (idx & v & u & _ & _ & Hidx & -> & _).
  assert ((Login <$> df) !! idx = Some (Login u)) as Hl
    by (by rewrite list_lookup_fmap, Hidx).
  rewrite Hlogins in Hl. destruct idx as [|[|?]]; by simplify_eq/=.
Qed.

(** C1 as stated fails: with two rows of the same login the second one is
    returned to the user it belongs to. *)
Lemma get_recommendations_returns_twin :
  exists recs r,
    get_recommendations df_twins "octocat" top_n_default = Return (Some recs) /\
    r ∈ recs /\ rec_Login r = PStr "octocat".
Proof. by apply twin_returned. Qed.

(** Such a dataframe arises from the scripts themselves: the upsert of
    [fetch_and_store_user] filters on the user name as typed and stores the
    login as GitHub spells it, so a second spelling of a stored user adds a
    second document with the same login. *)
Lemma twins_arise_from_respelling :
  let st1 := (fetch_and_store_user github_octocat "octocat" (boot [])).2 in
  let st2 := (fetch_and_store_user github_octocat "Octocat" st1).2 in
  let df := (load_data st2).1 in
  Login <$> df = [PStr "octocat"; PStr "octocat"] /\
  exists recs r,
    get_recommendations df "octocat" top_n_default = Return (Some recs) /\
    r ∈ recs /\ rec_Login r = PStr "octocat".
Proof.
  intros st1 st2 df.
  assert (Login <$> df = [PStr "octocat"; PStr "octocat"]) as Hlogins
    by (vm_compute; reflexivity).
  split; [exact Hlogins|by apply twin_returned].
Qed.

End AnalyzerClaims.

(** ** The state monad and the frame of a fetch *)

Section Frames.

Lemma M_bind_unfold {A B} (m : M A) (f : A -> M B) st :
  (m ≫= f) st = f (m st).1 (m st).2.
Proof. unfold mbind, M_bind. by destruct (m st). Qed.

Lemma M_ret_unfold {A} (a : A) st : (mret a : M A) st = (a, st).
Proof. done. Qed.

Lemma steps_refl st : steps st st [].
Proof. unfold steps. rewrite app_nil_r. simpl. split_and!; [done|lia|done]. Qed.

Lemma steps_trans st1 st2 st3 evs evs' :
  steps st1 st2 evs -> steps st2 st3 evs' -> steps st1 st3 (evs ++ evs').
Proof.
  intros (Ht & Hc & Hd) (Ht' & Hc' & Hd'). unfold steps.
  rewrite Ht', Ht, Hc', Hc, Hd', Hd, List.filter_app, length_app, app_assoc.
  split_and!; [done|lia|done].
Qed.

Lemma requests_get_steps {A} (api : nat -> string -> Response A) url st :
  steps st (requests_get api url st).2 [Request url].
Proof. unfold steps. simpl. split_and!; [done|lia|done]. Qed.

Lemma requests_get_response {A} (api : nat -> string -> Response A) url st :
  (requests_get api url st).1 = api (clock st) url.
Proof. done. Qed.

Lemma time_sleep_steps seconds st : steps st (time_sleep seconds st).2 [Sleep seconds].
Proof. unfold steps. simpl. split_and!; [done|lia|done]. Qed.

End Frames.

(** ** [get_json]: one retry after a 403 *)

Section GetJson.
Import Recommendation_dashboard.
Context {A : Type} (api : nat -> string -> Response A).

Lemma get_json_403 url st :
  status_code (api (clock st) url) = 403%Z ->
  (get_json api url st).1 = checked (api (S (clock st)) url) /\
  steps st (get_json api url st).2 [Request url; Sleep 60; Request url].
Proof.
  intros H403. unfold get_json. rewrite M_bind_unfold, requests_get_response.
  rewrite decide_True by done. rewrite M_bind_unfold.
  unfold checked. simpl. case_decide; simpl.
  - split; [done|]. unfold steps. simpl. rewrite <- !app_assoc. simpl.
    split_and!; [done|lia|done].
  - split; [done|]. unfold steps. simpl. rewrite <- !app_assoc. simpl.
    split_and!; [done|lia|done].
Qed.

Lemma get_json_not_403 url st :
  status_code (api (clock st) url) ≠ 403%Z ->
  (get_json api url st).1 = checked (api (clock st) url) /\
  steps st (get_json api url st).2 [Request url].
Proof.
  intros H403. unfold get_json. rewrite M_bind_unfold, requests_get_response.
  rewrite decide_False by done. rewrite M_bind_unfold.
  unfold checked. simpl. case_decide; simpl.
  - split; [done|]. unfold steps. simpl. split_and!; [done|lia|done].
  - split; [done|]. unfold steps. simpl. split_and!; [done|lia|done].
Qed.

(** Whatever the answers, [get_json] sends one or two requests, sleeps at
    most once, and leaves the collection alone. *)
Lemma get_json_steps url st :
  exists evs, steps st (get_json api url st).2 evs.
Proof.
  destruct (decide (status_code (api (clock st) url) = 403%Z)) as [E|E].
  - eexists. by apply get_json_403.
  - eexists. by apply get_json_not_403.
Qed.

Lemma get_json_down url st :
  down api url -> exists e, (get_json api url st).1 = Raise e.
Proof.
  intros Hd.
  destruct (decide (status_code (api (clock st) url) = 403%Z)) as [E|E].
  - destruct (get_json_403 url st E) as [-> _]. unfold checked.
    rewrite decide_True by apply Hd. eauto.
  - destruct (get_json_not_403 url st E) as [-> _]. unfold checked.
    rewrite decide_True by apply Hd. eauto.
Qed.

End GetJson.

(** ** [dashboard.py]: what a fetch does to the state *)

Section DashboardFrames.
Import Dashboard.
Context (github : Server).

Lemma get_commit_count_run username repo_name st :
  get_commit_count github username repo_name st =
  (commit_count_of (commits_api github (clock st) (count_url username repo_name)),
   (requests_get (commits_api github) (count_url username repo_name) st).2).
Proof. done. Qed.

Lemma visit_repo_run username repo acc st :
  let name := str_or (repo_name repo) "Unknown" in
  (visit_repo github username repo acc st).1 =
    visited repo acc
      (commit_count_of (commits_api github (clock st) (count_url username name)))
      (commits_api github (S (clock st)) (dates_url username name)) /\
  steps st (visit_repo github username repo acc st).2
    [Request (count_url username name); Request (dates_url username name)].
Proof.
  unfold visit_repo, get_commit_count, requests_get, mbind, M_bind, mret, M_ret.
  simpl. split; [done|].
  unfold steps. simpl. rewrite <- !app_assoc. split_and!; [done|lia|done].
Qed.

Lemma visit_repos_steps username repos acc st :
  exists evs,
    steps st (visit_repos github username repos acc st).2 evs /\
    Forall (fun e => is_request e = true) evs.
Proof.
  revert acc st. induction repos as [|repo repos IH]; intros acc st; simpl.
  - exists []. split; [apply steps_refl|constructor].
  - rewrite M_bind_unfold.
    destruct (visit_repo_run username repo acc st) as [_ Hs].
    destruct (IH (visit_repo github username repo acc st).1
                 (visit_repo github username repo acc st).2) as (evs & Hs' & Hq).
    eexists. split; [eapply steps_trans; [exact Hs|exact Hs']|].
    by repeat constructor.
Qed.

(** The requests of the loop, in order: the count request and the dates
    request of each repository. *)
Lemma visit_repos_trace username repos acc st :
  steps st (visit_repos github username repos acc st).2
    (repos ≫= fun repo =>
       [Request (count_url username (str_or (repo_name repo) "Unknown"));
        Request (dates_url username (str_or (repo_name repo) "Unknown"))]).
Proof.
  revert acc st. induction repos as [|repo repos IH]; intros acc st.
  - apply steps_refl.
  - cbn [visit_repos]. rewrite M_bind_unfold.
    destruct (visit_repo_run username repo acc st) as [_ Hs].
    eapply (steps_trans _ _ _ [_; _]); [exact Hs|apply IH].
Qed.

(** [fetch_user_data] only sends requests: it never sleeps and never
    touches the collection. *)
Lemma fetch_user_data_steps username st :
  exists evs,
    steps st (fetch_user_data github username st).2 evs /\
    Forall (fun e => is_request e = true) evs.
Proof.
  unfold fetch_user_data. rewrite M_bind_unfold.
  pose proof (requests_get_steps (users_api github)
    ("https://api.github.com/users/" ++ username) st) as H1.
  case_decide.
  - eexists. split; [exact H1|by repeat constructor].
  - rewrite M_bind_unfold.
    match goal with |- context [requests_get (repos_api github) ?u ?s] =>
      pose proof (requests_get_steps (repos_api github) u s) as H2;
      set (st2 := (requests_get (repos_api github) u s).2) in *;
      set (r2 := (requests_get (repos_api github) u s).1) in * end.
    rewrite M_bind_unfold.
    match goal with |- context [requests_get (repos_api github) ?u st2] =>
      pose proof (requests_get_steps (repos_api github) u st2) as H3;
      set (st3 := (requests_get (repos_api github) u st2).2) in *;
      set (r3 := (requests_get (repos_api github) u st2).1) in * end.
    rewrite M_bind_unfold.
    match goal with |- context [visit_repos github username ?rs ?a st3] =>
      destruct (visit_repos_steps username rs a st3) as (evs & H4 & Hq) end.
    eexists. split.
    + simpl. eapply steps_trans; [|exact H4].
      eapply steps_trans; [|exact H3]. eapply steps_trans; [exact H1|exact H2].
    + by repeat constructor.
Qed.

Lemma fetch_user_data_not_found username st :
  status_code (users_api github (clock st) ("https://api.github.com/users/" ++ username))
    ≠ 200%Z ->
  (fetch_user_data github username st).1 = None /\
  steps st (fetch_user_data github username st).2
    [Request ("https://api.github.com/users/" ++ username)].
Proof.
  intros H. unfold fetch_user_data. rewrite M_bind_unfold, requests_get_response.
  rewrite decide_True by done. split; [done|apply requests_get_steps].
Qed.

End DashboardFrames.

(** ** The rate-limit policy *)

Section RateLimit.
Import Recommendation_dashboard Dashboard Scenarios.

Lemma get_total_commits_loop_steps github repos total st :
  exists evs,
    steps st (get_total_commits_loop github repos total st).2 evs /\
    Forall (fun e => is_request e = true) evs.
Proof.
  revert total st. induction repos as [|repo repos IH]; intros total st; simpl.
  - exists []. split; [apply steps_refl|constructor].
  - destruct (repo_fork repo); [apply IH|].
    rewrite M_bind_unfold.
    match goal with |- context [requests_get (commits_api github) ?u st] =>
      pose proof (requests_get_steps (commits_api github) u st) as H1;
      set (st1 := (requests_get (commits_api github) u st).2) in *;
      set (r1 := (requests_get (commits_api github) u st).1) in * end.
    case_decide.
    + destruct (IH (total + Z.of_nat (length (json r1)))%Z st1) as (evs & Hs & Hq).
      eexists. split; [eapply steps_trans; [exact H1|exact Hs]|by repeat constructor].
    + destruct (IH total st1) as (evs & Hs & Hq).
      eexists. split; [eapply steps_trans; [exact H1|exact Hs]|by repeat constructor].
Qed.

(** The commit loop of [get_total_commits] sends one request per
    repository that is not a fork, and nothing else. *)
Lemma get_total_commits_loop_trace github repos total st :
  steps st (get_total_commits_loop github repos total st).2
    ((fun repo =>
        Request (replace "{/sha}" "" (repo_commits_url repo) ++ "?per_page=1"))
     <$> non_forks repos).
Proof.
  revert total st. unfold non_forks.
  induction repos as [|repo repos IH]; intros total st.
  - apply steps_refl.
  - cbn [get_total_commits_loop]. destruct (repo_fork repo) eqn:Hfork.
    + rewrite filter_cons_False by (rewrite Hfork; done). apply IH.
    + rewrite filter_cons_True by done. rewrite fmap_cons.
      rewrite M_bind_unfold.
      eapply (steps_trans _ _ _ [_]);
        [apply (requests_get_steps (commits_api github))|].
      case_decide; apply IH.
Qed.

(** C2 as stated fails: in [dashboard.py] a 403 on the profile request ends
    the fetch at once, without sleep and without retry. *)
Lemma fetch_user_data_gives_up_on_403 :
  status_code (users_api github_forbidden 0 "https://api.github.com/users/octocat")
    = 403%Z /\
  fetch_user_data github_forbidden "octocat" (boot []) =
    (None, {| clock := 1;
              trace := [Request "https://api.github.com/users/octocat"];
              collection := [] |}).
Proof. split; reflexivity. Qed.

End RateLimit.

(** ** The store: [$set] merges, [fetch_and_store_user] writes *)

Section Store.
Import Recommendation_dashboard Dashboard Scenarios.

Lemma set_fields_lookup data doc k :
  set_fields data doc !! k =
  match data !! k with Some v => Some v | None => doc !! k end.
Proof.
  unfold set_fields. destruct (data !! k) as [v|] eqn:E.
  - by apply lookup_union_Some_l.
  - by rewrite lookup_union_r.
Qed.

Lemma update_first_found username data docs i doc :
  list_find (has_login username) docs = Some (i, doc) ->
  update_first username data docs = Some (<[i := set_fields data doc]> docs).
Proof.
  revert i. induction docs as [|d docs IH]; intros i; [done|].
  simpl. case_decide.
  - by intros [= <- <-].
  - destruct (list_find _ docs) as [[j d']|] eqn:E; [|done].
    simpl. intros [= <- <-]. by rewrite (IH j).
Qed.

Lemma update_first_missing username data docs :
  list_find (has_login username) docs = None ->
  update_first username data docs = None.
Proof.
  induction docs as [|d docs IH]; [done|].
  simpl. case_decide; [done|].
  destruct (list_find _ docs) as [[j d']|] eqn:E; [done|].
  intros _. by rewrite IH.
Qed.

(** Every helper of [fetch_and_store_user] leaves the collection alone. *)
Lemma get_list_steps github url st :
  exists evs, steps st (get_list github url st).2 evs.
Proof.
  unfold get_list. rewrite M_bind_unfold.
  destruct (get_json_steps (accounts_api github) url st) as [evs Hs].
  exists evs. by destruct (get_json _ _ _).1.
Qed.

Lemma get_starred_or_subs_steps github url st :
  exists evs, steps st (get_starred_or_subs github url st).2 evs.
Proof.
  unfold get_starred_or_subs. rewrite M_bind_unfold.
  destruct (get_json_steps (repos_api github) url st) as [evs Hs].
  exists evs. by destruct (get_json _ _ _).1.
Qed.

Lemma get_languages_loop_steps github repos language_data st :
  exists evs, steps st (get_languages_loop github repos language_data st).2 evs.
Proof.
  revert language_data st.
  induction repos as [|repo repos IH]; intros language_data st; simpl.
  - exists []. apply steps_refl.
  - rewrite M_bind_unfold.
    destruct (get_json_steps (languages_api github) (repo_languages_url repo) st)
      as [evs Hs].
    destruct (get_json _ _ _).1 as [langs|e].
    + destruct (IH (add_languages langs language_data)
                  (get_json (languages_api github) (repo_languages_url repo) st).2)
        as [evs' Hs'].
      eexists. eapply steps_trans; [exact Hs|exact Hs'].
    + by exists evs.
Qed.

Lemma get_languages_steps github username st :
  exists evs, steps st (get_languages github username st).2 evs.
Proof.
  unfold get_languages. rewrite M_bind_unfold.
  match goal with |- context [get_json (repos_api github) ?u st] =>
    destruct (get_json_steps (repos_api github) u st) as [evs Hs];
    set (st1 := (get_json (repos_api github) u st).2) in *;
    destruct (get_json (repos_api github) u st).1 as [repos|e] end.
  - rewrite M_bind_unfold.
    destruct (get_languages_loop_steps github repos ∅ st1) as [evs' Hs'].
    exists (evs ++ evs')%list.
    destruct (get_languages_loop _ _ _ _).1; simpl; by eapply steps_trans.
  - by exists evs.
Qed.

Lemma get_total_commits_steps github username st :
  exists evs, steps st (get_total_commits github username st).2 evs.
Proof.
  unfold get_total_commits. rewrite M_bind_unfold.
  match goal with |- context [get_json (repos_api github) ?u st] =>
    destruct (get_json_steps (repos_api github) u st) as [evs Hs];
    set (st1 := (get_json (repos_api github) u st).2) in *;
    destruct (get_json (repos_api github) u st).1 as [repos|e] end.
  - destruct (get_total_commits_loop_steps github repos 0%Z st1) as (evs' & Hs' & _).
    exists (evs ++ evs')%list. by eapply steps_trans.
  - by exists evs.
Qed.

(** [fetch_and_store_user], step by step: the profile, then the seven
    secondary fetches in the order of the dictionary literal, then the
    upsert. *)
Lemma fetch_and_store_user_fails github username st e :
  (get_json (users_api github) ("https://api.github.com/users/" ++ username) st).1
    = Raise e ->
  fetch_and_store_user github username st =
  (None, (get_json (users_api github) ("https://api.github.com/users/" ++ username) st).2).
Proof.
  intros H. unfold fetch_and_store_user. rewrite M_bind_unfold, H. done.
Qed.

Lemma fetch_and_store_user_run github username st user :
  (get_json (users_api github) ("https://api.github.com/users/" ++ username) st).1
    = Return user ->
  let s0 := (get_json (users_api github)
               ("https://api.github.com/users/" ++ username) st).2 in
  let r1 := get_list github (user_followers_url user) s0 in
  let r2 := get_list github (first (split "{" (user_following_url user))) r1.2 in
  let r3 := get_starred_or_subs github
              ("https://api.github.com/users/" ++ username ++ "/starred") r2.2 in
  let r4 := get_starred_or_subs github
              ("https://api.github.com/users/" ++ username ++ "/subscriptions") r3.2 in
  let r5 := get_list github
              ("https://api.github.com/users/" ++ username ++ "/orgs") r4.2 in
  let r6 := get_languages github username r5.2 in
  let r7 := get_total_commits github username r6.2 in
  let data := Recommendation_dashboard.user_record
                user r1.1 r2.1 r3.1 r4.1 r5.1 r6.1 r7.1 in
  fetch_and_store_user github username st =
    (Some data, {| clock := clock r7.2; trace := trace r7.2;
                   collection := upsert username data (collection r7.2) |}) /\
  collection r7.2 = collection st.
Proof.
  intros H. simpl. split.
  - unfold fetch_and_store_user. rewrite M_bind_unfold, H.
    by rewrite !M_bind_unfold.
  - destruct (get_json_steps (users_api github)
      ("https://api.github.com/users/" ++ username) st) as (? & _ & _ & <-).
    match goal with |- collection (get_total_commits _ _ ?s).2 = _ =>
      destruct (get_total_commits_steps github username s) as (? & _ & _ & ->) end.
    match goal with |- collection (get_languages _ _ ?s).2 = _ =>
      destruct (get_languages_steps github username s) as (? & _ & _ & ->) end.
    match goal with |- collection (get_list _ ?u ?s).2 = _ =>
      destruct (get_list_steps github u s) as (? & _ & _ & ->) end.
    match goal with |- collection (get_starred_or_subs _ ?u ?s).2 = _ =>
      destruct (get_starred_or_subs_steps github u s) as (? & _ & _ & ->) end.
    match goal with |- collection (get_starred_or_subs _ ?u ?s).2 = _ =>
      destruct (get_starred_or_subs_steps github u s) as (? & _ & _ & ->) end.
    match goal with |- collection (get_list _ ?u ?s).2 = _ =>
      destruct (get_list_steps github u s) as (? & _ & _ & ->) end.
    match goal with |- collection (get_list _ ?u ?s).2 = _ =>
      destruct (get_list_steps github u s) as (? & _ & _ & ->) end.
    done.
Qed.

Lemma lookup_or_fetch_run github username st :
  lookup_or_fetch github username st =
  match list_find (has_login username) (collection st) with
  | Some (_, user) => (Some user, st)
  | None =>
      let r := fetch_user_data github username st in
      match r.1 with
      | Some user =>
          (Some user, {| clock := clock r.2; trace := trace r.2;
                         collection := collection r.2 ++ [user] |})
      | None => (None, r.2)
      end
  end.
Proof.
  unfold lookup_or_fetch. rewrite M_bind_unfold. unfold find_one. simpl.
  destruct (list_find _ _) as [[i user]|]; simpl; [done|].
  rewrite M_bind_unfold. by destruct (fetch_user_data _ _ _).1.
Qed.

(** C8, as amended.  [fetch_user_data] of [dashboard.py] leaves the
    collection as it found it, and its caller inserts the record it returns
    on a store miss.  [fetch_and_store_user] of [Recommendation_dashboard.py]
    writes: when the profile request succeeds it returns a record and the
    collection it leaves is the upsert of that record, under the name as
    typed, into the collection it found; when the profile request fails it
    returns [None] and leaves the collection as it found it. *)
Theorem fetch_effect_on_store (github : Server) (username : string) (st : State) :
  let profile :=
    (get_json (users_api github) ("https://api.github.com/users/" ++ username) st).1 in
  collection (fetch_user_data github username st).2 = collection st /\
  collection (lookup_or_fetch github username st).2 =
    match list_find (has_login username) (collection st),
          (fetch_user_data github username st).1 with
    | None, Some user => (collection st ++ [user])%list
    | _, _ => collection st
    end /\
  match profile with
  | Return user =>
      exists data,
        (fetch_and_store_user github username st).1 = Some data /\
        data !! "Login" = Some (of_opt_str (user_login user)) /\
        collection (fetch_and_store_user github username st).2
          = upsert username data (collection st)
  | Raise _ =>
      (fetch_and_store_user github username st).1 = None /\
      collection (fetch_and_store_user github username st).2 = collection st
  end.
Proof.
  intros profile.
  destruct (fetch_user_data_steps github username st) as (evs & (_ & _ & Hc) & _).
  split_and!.
  - exact Hc.
  - rewrite lookup_or_fetch_run.
    destruct (list_find _ _) as [[i user]|]; [done|]. simpl.
    destruct (fetch_user_data _ _ _).1; simpl; by rewrite Hc.
  - unfold profile.
    destruct (get_json (users_api github)
                ("https://api.github.com/users/" ++ username) st).1 as [user|e] eqn:E.
    + destruct (fetch_and_store_user_run github username st user E) as [-> Hcol].
      eexists. split; [reflexivity|]. split; [reflexivity|].
      simpl. by rewrite Hcol.
    + rewrite (fetch_and_store_user_fails github username st e E). simpl.
      split; [done|].
      by destruct (get_json_steps (users_api github)
        ("https://api.github.com/users/" ++ username) st) as (? & _ & _ & ->).
Qed.

(** C8 as stated fails: on an empty collection [fetch_and_store_user]
    leaves one document behind. *)
Lemma fetch_and_store_user_writes :
  collection (boot []) = [] /\
  length (collection (fetch_and_store_user github_quiet "octocat" (boot [])).2) = 1%nat.
Proof.
  split; [done|].
  assert ((get_json (users_api github_quiet)
             ("https://api.github.com/users/" ++ "octocat") (boot [])).1
          = Return octocat) as E by reflexivity.
  destruct (fetch_and_store_user_run github_quiet "octocat" (boot []) octocat E)
    as [-> Hcol].
  cbn [snd collection]. rewrite Hcol. reflexivity.
Qed.




End Store.

(** ** Secondary endpoints that fail *)

Section Degrade.
Import Recommendation_dashboard Dashboard Scenarios.
Context (github : Server).

Lemma get_list_down url st :
  down (accounts_api github) url -> (get_list github url st).1 = [].
Proof.
  intros Hd. unfold get_list. rewrite M_bind_unfold.
  destruct (get_json_down (accounts_api github) url st Hd) as [e ->]. done.
Qed.

Lemma get_starred_or_subs_down url st :
  down (repos_api github) url -> (get_starred_or_subs github url st).1 = [].
Proof.
  intros Hd. unfold get_starred_or_subs. rewrite M_bind_unfold.
  destruct (get_json_down (repos_api github) url st Hd) as [e ->]. done.
Qed.

Lemma get_languages_down_repos username st :
  down (repos_api github) ("https://api.github.com/users/" ++ username ++ "/repos") ->
  (get_languages github username st).1 = ∅.
Proof.
  intros Hd. unfold get_languages. rewrite M_bind_unfold.
  destruct (get_json_down (repos_api github) _ st Hd) as [e ->]. done.
Qed.

Lemma get_languages_loop_down repos language_data st :
  (forall url, down (languages_api github) url) ->
  repos = [] \/ exists e, (get_languages_loop github repos language_data st).1 = Raise e.
Proof.
  intros Hd. destruct repos as [|repo repos]; [by left|right].
  simpl. rewrite M_bind_unfold.
  destruct (get_json_down (languages_api github) (repo_languages_url repo) st (Hd _))
    as [e ->].
  by exists e.
Qed.

Lemma get_languages_down_languages username st :
  (forall url, down (languages_api github) url) ->
  (get_languages github username st).1 = ∅.
Proof.
  intros Hd. unfold get_languages. rewrite M_bind_unfold.
  destruct (get_json _ _ _).1 as [repos|e]; [|done].
  rewrite M_bind_unfold.
  match goal with |- context [get_languages_loop github repos ∅ ?s] =>
    destruct (get_languages_loop_down repos ∅ s Hd) as [-> | [e ->]] end; done.
Qed.

Lemma get_total_commits_down_repos username st :
  down (repos_api github) ("https://api.github.com/users/" ++ username ++ "/repos") ->
  (get_total_commits github username st).1 = 0%Z.
Proof.
  intros Hd. unfold get_total_commits. rewrite M_bind_unfold.
  destruct (get_json_down (repos_api github) _ st Hd) as [e ->]. done.
Qed.

Lemma get_total_commits_loop_down repos total st :
  (forall t url, status_code (commits_api github t url) ≠ 200%Z) ->
  (get_total_commits_loop github repos total st).1 = total.
Proof.
  intros Hd. revert st. induction repos as [|repo repos IH]; intros st; [done|].
  simpl. destruct (repo_fork repo); [apply IH|].
  rewrite M_bind_unfold, requests_get_response.
  rewrite decide_False by apply Hd. apply IH.
Qed.

Lemma get_total_commits_down_commits username st :
  (forall t url, status_code (commits_api github t url) ≠ 200%Z) ->
  (get_total_commits github username st).1 = 0%Z.
Proof.
  intros Hd. unfold get_total_commits. rewrite M_bind_unfold.
  destruct (get_json _ _ _).1 as [repos|e]; [|done].
  by apply get_total_commits_loop_down.
Qed.

(** [dashboard.py]: the fetch after a profile answered 200. *)
Lemma fetch_user_data_run username st :
  status_code (users_api github (clock st) ("https://api.github.com/users/" ++ username))
    = 200%Z ->
  let user_resp := users_api github (clock st) ("https://api.github.com/users/" ++ username) in
  let repos_resp := repos_api github (S (clock st))
    ("https://api.github.com/users/" ++ username ++ "/repos?per_page=100") in
  let starred_resp := repos_api github (S (S (clock st)))
    ("https://api.github.com/users/" ++ username ++ "/starred?per_page=100") in
  let repos := if decide (status_code repos_resp = 200%Z) then json repos_resp else [] in
  let starred :=
    if decide (status_code starred_resp = 200%Z) then json starred_resp else [] in
  let st3 :=
    {| clock := S (S (S (clock st)));
       trace := ((trace st
         ++ [Request ("https://api.github.com/users/" ++ username)])
         ++ [Request ("https://api.github.com/users/" ++ username ++ "/repos?per_page=100")])
         ++ [Request ("https://api.github.com/users/" ++ username ++ "/starred?per_page=100")];
       collection := collection st |} in
  fetch_user_data github username st =
  (Some (Dashboard.user_record username (json user_resp) repos starred
           (visit_repos github username repos no_aggregates st3).1),
   (visit_repos github username repos no_aggregates st3).2).
Proof.
  intros H200. simpl. unfold fetch_user_data.
  rewrite M_bind_unfold, requests_get_response, decide_False by (by intros ?).
  rewrite !M_bind_unfold. simpl.
  by destruct (visit_repos _ _ _ _ _).
Qed.

Lemma visit_repos_no_commits username repos acc st :
  (forall t url, status_code (commits_api github t url) ≠ 200%Z) ->
  no_commits acc ->
  no_commits (visit_repos github username repos acc st).1.
Proof.
  intros Hd. revert acc st. induction repos as [|repo repos IH]; intros acc st Hacc.
  - done.
  - simpl. rewrite M_bind_unfold. apply IH.
    destruct (visit_repo_run github username repo acc st) as [-> _].
    destruct Hacc as [Hz Hdates]. split; simpl.
    + apply map_Forall_insert_2; [|done].
      unfold commit_count_of. by rewrite decide_True by apply Hd.
    + by rewrite decide_False by apply Hd.
Qed.

Lemma sum_values_zero (d : gmap string Z) :
  map_Forall (fun _ v => v = 0%Z) d -> sum_values d = 0%Z.
Proof.
  unfold sum_values. induction d as [|k v d Hk Hfold IH] using map_first_key_ind.
  - done.
  - intros Hall. rewrite map_fold_insert_first_key by done.
    apply map_Forall_insert in Hall as [-> Hall]; [|done].
    by rewrite IH.
Qed.

End Degrade.

(** ** Exceptions in [dashboard.py] *)

Section Raising.
Import Dashboard Scenarios DashboardRaising.
Context (net : Network) (isoparse : string -> bool).

Lemma MR_bind_unfold {A B} (m : MR A) (f : A -> MR B) st :
  (m ≫= f) st =
  match (m st).1 with
  | Value a => f a (m st).2
  | Throws e => (Throws e, (m st).2)
  end.
Proof. unfold mbind, MR_bind. by destruct (m st) as [[a|e] st']. Qed.

Lemma dates_of_readable commits :
  match DashboardRaising.dates_of isoparse commits with
  | Value dates =>
      Forall (readable isoparse) commits /\
      dates = Dashboard.dates_of (plain <$> commits)
  | Throws _ => ~ Forall (readable isoparse) commits
  end.
Proof.
  induction commits as [|commit commits IH]; [by split|].
  cbn [DashboardRaising.dates_of].
  assert (match date_of isoparse commit with
          | Value date =>
              readable isoparse commit /\
              Dashboard.dates_of [plain commit] = option_list date
          | Throws _ => ~ readable isoparse commit
          end) as Hd.
  { destruct commit as [| |[date_str|]]; cbn; try tauto.
    unfold Dashboard.dates_of. cbn.
    case_decide; [by split; [left|]|].
    destruct (isoparse date_str) eqn:E; [by split; [right|]|].
    intros [?|?]; congruence. }
  destruct (date_of isoparse commit) as [date|e].
  - destruct Hd as [Hr Hdate].
    destruct (DashboardRaising.dates_of isoparse commits) as [dates|e].
    + destruct IH as [Hall ->]. split; [by constructor|].
      rewrite fmap_cons, <- Hdate. unfold Dashboard.dates_of.
      change (plain commit :: (plain <$> commits))
        with ([plain commit] ++ (plain <$> commits))%list.
      by rewrite omap_app.
    + intros Hall. apply IH. by apply Forall_inv_tail in Hall.
  - intros Hall. apply Hd. by apply Forall_inv in Hall.
Qed.

Lemma visit_repo_raising username repo acc st :
  let r := DashboardRaising.visit_repo net isoparse username repo acc st in
  let r0 := Dashboard.visit_repo (answering net) username repo acc st in
  match r.1 with
  | Value acc' =>
      visit_clean net isoparse username (clock st) repo /\ r = (Value r0.1, r0.2)
  | Throws _ => ~ visit_clean net isoparse username (clock st) repo
  end.
Proof.
  unfold visit_clean, count_url, dates_url.
  unfold DashboardRaising.visit_repo, DashboardRaising.get_commit_count,
    DashboardRaising.requests_get, mbind, MR_bind, mret, MR_ret, throw.
  cbn [fst snd clock trace collection].
  destruct (raises net (clock st) _) eqn:E1; [cbn; by intros (? & _)|].
  cbn [fst snd clock trace collection].
  destruct (raises net (S (clock st)) _) eqn:E2; [cbn; by intros (_ & ? & _)|].
  cbn [fst snd clock trace collection].
  match goal with |- context [commit_listings net (S (clock st)) ?u] =>
    set (commits_resp := commit_listings net (S (clock st)) u) end.
  pose proof (dates_of_readable (json commits_resp)) as Hdates.
  unfold Dashboard.visit_repo, Dashboard.get_commit_count, Runtime.requests_get,
    mbind, M_bind, mret, M_ret.
  cbn [fst snd clock trace collection commits_api answering].
  fold commits_resp.
  destruct (decide (status_code commits_resp = 200%Z)) as [H200|H200].
  - destruct (DashboardRaising.dates_of isoparse (json commits_resp)) as [dates|e].
    + destruct Hdates as [Hall ->]. cbn. split; [done|].
      by rewrite decide_True by done.
    + cbn. intros (_ & _ & Hall). by apply Hdates, Hall.
  - cbn. split; [done|]. by rewrite decide_False by done.
Qed.

Lemma visit_repos_raising username repos acc st :
  let r := DashboardRaising.visit_repos net isoparse username repos acc st in
  let r0 := Dashboard.visit_repos (answering net) username repos acc st in
  match r.1 with
  | Value acc' =>
      visits_clean net isoparse username (clock st) repos /\ r = (Value r0.1, r0.2)
  | Throws _ => ~ visits_clean net isoparse username (clock st) repos
  end.
Proof.
  revert acc st. induction repos as [|repo repos IH]; intros acc st; [by split|].
  cbn [DashboardRaising.visit_repos Dashboard.visit_repos visits_clean].
  rewrite MR_bind_unfold, M_bind_unfold.
  pose proof (visit_repo_raising username repo acc st) as Hv. cbn zeta in Hv.
  destruct (visit_repo_run (answering net) username repo acc st) as [_ (_ & Hc & _)].
  cbn [length List.filter is_request] in Hc.
  remember (Dashboard.visit_repo (answering net) username repo acc st) as r0 eqn:Hr0.
  clear Hr0.
  destruct (DashboardRaising.visit_repo net isoparse username repo acc st)
    as [[acc'|e] st']; cbn [fst snd] in *.
  - destruct Hv as [Hclean [= -> ->]].
    specialize (IH r0.1 r0.2). cbn zeta in IH.
    replace (clock r0.2) with (S (S (clock st))) in IH by lia.
    destruct (DashboardRaising.visit_repos net isoparse username repos r0.1 r0.2).1
      as [acc''|e].
    + destruct IH as [Hrest ->]. by split.
    + intros [_ ?]. by apply IH.
  - intros [? _]. by apply Hv.
Qed.

(** The fetch of [dashboard.py] with its exceptions: it completes exactly
    when nothing raises, and then answers what the fetch without
    exceptions answers. *)
Lemma fetch_user_data_raising username st :
  let r := DashboardRaising.fetch_user_data net isoparse username st in
  let r0 := Dashboard.fetch_user_data (answering net) username st in
  match r.1 with
  | Value user => fetch_clean net isoparse username (clock st) /\ r = (Value r0.1, r0.2)
  | Throws _ => ~ fetch_clean net isoparse username (clock st)
  end.
Proof.
  unfold fetch_clean, DashboardRaising.fetch_user_data, Dashboard.fetch_user_data,
    DashboardRaising.requests_get, Runtime.requests_get,
    mbind, MR_bind, M_bind, mret, MR_ret, M_ret.
  cbn [fst snd clock trace collection users_api repos_api answering].
  destruct (raises net (clock st) _) eqn:E1; [cbn; by intros (? & _)|].
  cbn [fst snd clock trace collection].
  case_decide as H200.
  { cbn. split; [|done]. split; [done|]. by intros ?. }
  cbn [fst snd clock trace collection].
  destruct (raises net (S (clock st)) _) eqn:E2.
  { cbn. intros (_ & H). by destruct (H H200) as (? & _). }
  cbn [fst snd clock trace collection].
  destruct (raises net (S (S (clock st))) _) eqn:E3.
  { cbn. intros (_ & H). by destruct (H H200) as (_ & ? & _). }
  cbn [fst snd clock trace collection].
  match goal with
  |- context [DashboardRaising.visit_repos net isoparse username ?rs ?a ?s] =>
    pose proof (visit_repos_raising username rs a s) as Hv;
    cbn zeta in Hv; cbn [clock] in Hv;
    destruct (DashboardRaising.visit_repos net isoparse username rs a s)
      as [[acc|e] st'];
    destruct (Dashboard.visit_repos (answering net) username rs a s) as [acc0 st0]
  end; cbn [fst snd] in *.
  - destruct Hv as [Hclean [= -> ->]]. by split.
  - intros (_ & H). destruct (H H200) as (_ & _ & ?). by apply Hv.
Qed.

End Raising.

Section DegradeClaim.
Import Recommendation_dashboard Dashboard Scenarios DashboardRaising.

(** Fields of the record of [dashboard.py]. *)
Lemma record_total_commits username u repos starred acc :
  Dashboard.user_record username u repos starred acc !! "Total Commits"
  = Some (PInt (sum_values (commits_per_repo acc))).
Proof. reflexivity. Qed.

Lemma record_commit_dates username u repos starred acc :
  Dashboard.user_record username u repos starred acc !! "Commit Dates"
  = Some (PStrs (commit_dates acc)).
Proof. reflexivity. Qed.

Lemma record_commits_per_repo username u repos starred acc :
  Dashboard.user_record username u repos starred acc !! "Commits Per Repo"
  = Some (PCounts (commits_per_repo acc)).
Proof. reflexivity. Qed.

Lemma record_commits_per_language username u repos starred acc :
  Dashboard.user_record username u repos starred acc !! "Commits Per Language"
  = Some (PCounts (commits_per_language repos acc)).
Proof. reflexivity. Qed.

(** C7, as amended.  Once the profile is fetched, [fetch_and_store_user]
    returns a record with all of its seventeen fields whatever the
    secondary endpoints answer, and a secondary endpoint that answers with
    an error status leaves its field empty (the lists, the language
    mapping) or zero (the commit total).  Likewise [fetch_user_data] of
    [dashboard.py], once the profile is answered 200, returns a record with
    all of its nineteen fields whatever status the other requests are
    answered with; a repository or starred listing that is not answered 200
    counts as empty, and commit endpoints that are not answered 200 give
    zero counts and no dates.  But [dashboard.py] catches no exception: its
    fetch completes exactly when no request raises and every commit of a
    listing answered 200 is readable, and then it answers as described;
    otherwise the exception ends the fetch and no record is returned. *)
Theorem secondary_failures_degrade (github : Server) (net : Network)
    (isoparse : string -> bool) (username : string) (st : State) :
  (forall user,
     (get_json (users_api github) ("https://api.github.com/users/" ++ username) st).1
       = Return user ->
     exists data st',
       fetch_and_store_user github username st = (Some data, st') /\
       dom data = list_to_set
         ["Login"; "Name"; "Bio"; "Public Repositories"; "Followers Count";
          "Following Count"; "Created At"; "Updated At"; "Avatar URL"; "Profile URL";
          "Followers List"; "Following List"; "Starred Repositories"; "Subscriptions";
          "Organizations"; "Languages"; "Total Commits"] /\
       (down (accounts_api github) (user_followers_url user) ->
        data !! "Followers List" = Some (PStrs [])) /\
       (down (accounts_api github) (first (split "{" (user_following_url user))) ->
        data !! "Following List" = Some (PStrs [])) /\
       (down (repos_api github)
          ("https://api.github.com/users/" ++ username ++ "/starred") ->
        data !! "Starred Repositories" = Some (PStrs [])) /\
       (down (repos_api github)
          ("https://api.github.com/users/" ++ username ++ "/subscriptions") ->
        data !! "Subscriptions" = Some (PStrs [])) /\
       (down (accounts_api github)
          ("https://api.github.com/users/" ++ username ++ "/orgs") ->
        data !! "Organizations" = Some (PStrs [])) /\
       (down (repos_api github) ("https://api.github.com/users/" ++ username ++ "/repos") ->
        data !! "Languages" = Some (PCounts ∅) /\
        data !! "Total Commits" = Some (PInt 0)) /\
       ((forall url, down (languages_api github) url) ->
        data !! "Languages" = Some (PCounts ∅)) /\
       ((forall t url, status_code (commits_api github t url) ≠ 200%Z) ->
        data !! "Total Commits" = Some (PInt 0))) /\
  (status_code (users_api github (clock st) ("https://api.github.com/users/" ++ username))
     = 200%Z ->
   exists record st',
     Dashboard.fetch_user_data github username st = (Some record, st') /\
     dom record = list_to_set
       ["Login"; "Name"; "Avatar URL"; "Profile URL"; "Bio"; "Created At";
        "Followers Count"; "Following Count"; "Public Repositories"; "Languages";
        "Commits Per Repo"; "Stars Per Repo"; "Stars Per Language";
        "Commits Per Language"; "Starred Repositories"; "Commit Dates"; "Platforms";
        "Web Frameworks"; "Total Commits"] /\
     (status_code (repos_api github (S (clock st))
        ("https://api.github.com/users/" ++ username ++ "/repos?per_page=100")) ≠ 200%Z ->
      record !! "Languages" = Some (PCounts ∅) /\
      record !! "Commits Per Repo" = Some (PCounts ∅) /\
      record !! "Stars Per Repo" = Some (PCounts ∅) /\
      record !! "Stars Per Language" = Some (PCounts ∅) /\
      record !! "Commits Per Language" = Some (PCounts ∅) /\
      record !! "Commit Dates" = Some (PStrs []) /\
      record !! "Total Commits" = Some (PInt 0)) /\
     (status_code (repos_api github (S (S (clock st)))
        ("https://api.github.com/users/" ++ username ++ "/starred?per_page=100")) ≠ 200%Z ->
      record !! "Starred Repositories" = Some (PStrs [])) /\
     ((forall t url, status_code (commits_api github t url) ≠ 200%Z) ->
      record !! "Commit Dates" = Some (PStrs []) /\
      record !! "Total Commits" = Some (PInt 0) /\
      exists counts, record !! "Commits Per Repo" = Some (PCounts counts) /\
        map_Forall (fun _ v => v = 0%Z) counts)) /\
  match (DashboardRaising.fetch_user_data net isoparse username st).1 with
  | Value _ =>
      fetch_clean net isoparse username (clock st) /\
      DashboardRaising.fetch_user_data net isoparse username st
      = (Value (Dashboard.fetch_user_data (answering net) username st).1,
         (Dashboard.fetch_user_data (answering net) username st).2)
  | Throws _ => ~ fetch_clean net isoparse username (clock st)
  end.
Proof.
  split_and!.
  - intros user Huser.
    destruct (fetch_and_store_user_run github username st user Huser) as [Hrun _].
    eexists _, _. split; [exact Hrun|].
    split; [unfold Recommendation_dashboard.user_record;
            by rewrite dom_list_to_map_L|].
    split_and!.
    + intros Hd. by rewrite get_list_down.
    + intros Hd. by rewrite (get_list_down _ _ _ Hd).
    + intros Hd. by rewrite (get_starred_or_subs_down _ _ _ Hd).
    + intros Hd. by rewrite (get_starred_or_subs_down _ _ _ Hd).
    + intros Hd. by rewrite (get_list_down _ _ _ Hd).
    + intros Hd. by rewrite get_languages_down_repos, get_total_commits_down_repos.
    + intros Hd. by rewrite get_languages_down_languages.
    + intros Hd. by rewrite get_total_commits_down_commits.
  - intros H200. eexists _, _.
    split; [exact (fetch_user_data_run github username st H200)|].
    split; [unfold Dashboard.user_record; by rewrite dom_list_to_map_L|].
    split_and!.
    + intros Hd. by rewrite !decide_False by done.
    + intros Hd. by rewrite (decide_False _ _ Hd).
    + intros Hd.
      match goal with |- context [Dashboard.visit_repos github username ?rs ?a ?s] =>
        destruct (visit_repos_no_commits github username rs a s Hd) as [Hz Hdates];
        [done|] end.
      split_and!.
      * by rewrite record_commit_dates, Hdates.
      * by rewrite record_total_commits, sum_values_zero.
      * eexists. split; [apply record_commits_per_repo|exact Hz].
  - apply fetch_user_data_raising.
Qed.

Lemma secondary_failures_degrade_profile_only :
  (exists data st',
     fetch_and_store_user github_profile_only "octocat" (boot []) = (Some data, st') /\
     data !! "Followers List" = Some (PStrs []) /\
     data !! "Following List" = Some (PStrs []) /\
     data !! "Starred Repositories" = Some (PStrs []) /\
     data !! "Subscriptions" = Some (PStrs []) /\
     data !! "Organizations" = Some (PStrs []) /\
     data !! "Languages" = Some (PCounts ∅) /\
     data !! "Total Commits" = Some (PInt 0)) /\
  (exists record st',
     Dashboard.fetch_user_data github_profile_only "octocat" (boot [])
       = (Some record, st') /\
     record !! "Languages" = Some (PCounts ∅) /\
     record !! "Starred Repositories" = Some (PStrs []) /\
     record !! "Total Commits" = Some (PInt 0)) /\
  (DashboardRaising.fetch_user_data network_fine isoparse_any "octocat" (boot [])).1
    = Value (Dashboard.fetch_user_data (answering network_fine) "octocat" (boot [])).1.
Proof.
  assert (forall A (body : A) url, down (fun _ _ => answer 500 body) url) as Hdown
    by (intros A body url t; simpl; lia).
  destruct (secondary_failures_degrade github_profile_only network_fine isoparse_any
              "octocat" (boot [])) as (H1 & H2 & H3).
  split_and!.
  - destruct (H1 octocat eq_refl)
      as (data & st' & Hrun & _ & Ha & Hb & Hc & Hd & He & Hf & _).
    exists data, st'. split; [exact Hrun|].
    split_and!; [apply Ha|apply Hb|apply Hc|apply Hd|apply He|apply Hf|apply Hf];
      apply Hdown.
  - destruct (H2 eq_refl) as (record & st' & Hrun & _ & Ha & Hb & _).
    exists record, st'. split; [exact Hrun|].
    split_and!; [apply Ha|apply Hb|apply Ha]; simpl; lia.
  - assert (fetch_clean network_fine isoparse_any "octocat" 0) as Hclean.
    { split; [reflexivity|]. intros _. split; [reflexivity|]. split; [reflexivity|].
      split; [|exact I]. split; [reflexivity|]. split; [reflexivity|].
      intros _. constructor; [by right|constructor]. }
    destruct (DashboardRaising.fetch_user_data network_fine isoparse_any "octocat"
                (boot [])).1 as [user|e] eqn:E.
    + destruct H3 as [_ H3]. rewrite H3 in E. cbn [fst] in E. by rewrite <- E.
    + destruct (H3 Hclean).
Defined.

(** C7 as stated fails in [dashboard.py] for failures that are exceptions:
    with the profile answered 200, a request for the commits of a
    repository that gets no response, or a commit whose author is null,
    ends the fetch without a record. *)
Lemma fetch_user_data_aborts :
  status_code (users network_cut 0 "https://api.github.com/users/octocat") = 200%Z /\
  (DashboardRaising.fetch_user_data network_cut isoparse_any "octocat" (boot [])).1
    = Throws ConnectionError /\
  (DashboardRaising.fetch_user_data network_null_author isoparse_any "octocat"
     (boot [])).1
    = Throws AttributeError.
Proof. split_and!; vm_compute; reflexivity. Qed.

End DegradeClaim.

(** ** One retry, and only through [get_json] *)

Section RetryClaim.
Import Recommendation_dashboard Dashboard Scenarios.

(** C2, as amended.  A request sent through [get_json] that is answered
    403 is followed by one sleep of 60 seconds and one retry of the same
    URL; an error status on the retry is raised to the caller, with no
    further request or sleep.  Requests sent directly are sent once, never
    retried and never wait, whatever they are answered: the commit loop of
    [get_total_commits] sends exactly one request per repository that is
    not a fork, and [fetch_user_data] of [dashboard.py] sends exactly the
    profile request, the two listing requests and two requests per listed
    repository when the profile is answered 200, and answers [None] after
    the profile request alone when it is not. *)
Theorem rate_limit_retry_once {A} (api : nat -> string -> Response A) (url : string)
    (github : Server) (username : string) (st : State) :
  status_code (api (clock st) url) = 403%Z ->
  let retry := api (S (clock st)) url in
  let user_url := "https://api.github.com/users/" ++ username in
  let repos_url := "https://api.github.com/users/" ++ username ++ "/repos?per_page=100" in
  let starred_url :=
    "https://api.github.com/users/" ++ username ++ "/starred?per_page=100" in
  let repos_resp := repos_api github (S (clock st)) repos_url in
  let repos := if decide (status_code repos_resp = 200%Z) then json repos_resp else [] in
  (get_json api url st).1 =
    (if decide (400 ≤ status_code retry < 600)%Z
     then Raise (HTTPError (status_code retry)) else Return (json retry)) /\
  steps st (get_json api url st).2 [Request url; Sleep 60; Request url] /\
  (forall listed total s,
     steps s (get_total_commits_loop github listed total s).2
       ((fun repo =>
           Request (replace "{/sha}" "" (repo_commits_url repo) ++ "?per_page=1"))
        <$> non_forks listed)) /\
  (if decide (status_code (users_api github (clock st) user_url) = 200%Z)
   then
     steps st (fetch_user_data github username st).2
       ([Request user_url; Request repos_url; Request starred_url]
        ++ (repos ≫= fun repo =>
              [Request (count_url username (str_or (repo_name repo) "Unknown"));
               Request (dates_url username (str_or (repo_name repo) "Unknown"))]))
   else
     (fetch_user_data github username st).1 = None /\
     steps st (fetch_user_data github username st).2 [Request user_url]).
Proof.
  intros H403 retry user_url repos_url starred_url repos_resp repos.
  destruct (get_json_403 api url st H403) as [Hr Hs].
  split_and!.
  - exact Hr.
  - exact Hs.
  - intros listed total s. apply get_total_commits_loop_trace.
  - case_decide as H200.
    + rewrite (fetch_user_data_run github username st H200). cbn [snd].
      eapply steps_trans; [|apply visit_repos_trace].
      unfold steps. cbn [trace clock collection]. rewrite <- !app_assoc.
      split_and!; [done|simpl; lia|done].
    + by apply fetch_user_data_not_found.
Qed.

Lemma rate_limit_retry_once_recovering :
  (get_json (users_api github_recovering) "https://api.github.com/users/octocat" (boot [])).1
    = Return octocat /\
  trace (get_json (users_api github_recovering) "https://api.github.com/users/octocat"
           (boot [])).2
    = [Request "https://api.github.com/users/octocat"; Sleep 60;
       Request "https://api.github.com/users/octocat"] /\
  trace (get_total_commits_loop github_forbidden
           [repo_of (Some "hello") "Python" false; repo_of (Some "spoon") "C" true]
           0 (boot [])).2
    = [Request "https://api.github.com/repos/octocat/hello/commits?per_page=1"] /\
  trace (fetch_user_data github_forbidden "octocat" (boot [])).2
    = [Request "https://api.github.com/users/octocat"].
Proof.
  destruct (rate_limit_retry_once (users_api github_recovering)
              "https://api.github.com/users/octocat" github_forbidden "octocat"
              (boot []) eq_refl) as (Hr & (Ht & _) & Hloop & Hfetch).
  split_and!.
  - exact Hr.
  - exact Ht.
  - destruct (Hloop [repo_of (Some "hello") "Python" false;
                     repo_of (Some "spoon") "C" true] 0%Z (boot [])) as (Hl & _).
    rewrite Hl. vm_compute. reflexivity.
  - destruct Hfetch as (_ & Hf & _). exact Hf.
Defined.

End RetryClaim.

(** ** Commit totals in [Recommendation_dashboard.py] *)

Section TotalCommits.
Import Recommendation_dashboard Scenarios.

Lemma get_total_commits_loop_bound github repos total st :
  honours_per_page_1 github ->
  (total ≤ (get_total_commits_loop github repos total st).1
         ≤ total + Z.of_nat (length (non_forks repos)))%Z.
Proof.
  intros Hpp. revert total st.
  induction repos as [|repo repos IH]; intros total st; simpl.
  - unfold non_forks. simpl. lia.
  - unfold non_forks in *. destruct (repo_fork repo) eqn:Hf.
    + rewrite filter_cons_False by (rewrite Hf; done). apply IH.
    + rewrite filter_cons_True by done. simpl length.
      rewrite M_bind_unfold, requests_get_response.
      match goal with |- context [commits_api github (clock st) (?u ++ "?per_page=1")] =>
        pose proof (Hpp (clock st) u) as H1 end.
      case_decide.
      * match goal with |- context [get_total_commits_loop github repos ?t ?s] =>
          pose proof (IH t s) end. lia.
      * match goal with |- context [get_total_commits_loop github repos ?t ?s] =>
          pose proof (IH t s) end. lia.
Qed.

Lemma upsert_stored username data docs :
  exists doc, doc ∈ upsert username data docs /\
    forall k v, data !! k = Some v -> doc !! k = Some v.
Proof.
  unfold upsert.
  destruct (list_find (has_login username) docs) as [[i doc]|] eqn:E.
  - rewrite (update_first_found _ _ _ _ _ E).
    exists (set_fields data doc). split.
    + apply list_elem_of_lookup. exists i. apply list_lookup_insert_eq.
      apply list_find_Some in E as (Hi & _). by eapply lookup_lt_Some.
    + intros k v Hk. by rewrite set_fields_lookup, Hk.
  - rewrite (update_first_missing _ _ _ E).
    exists (set_fields data {["Login" := PStr username]}). split.
    + apply elem_of_app. right. by left.
    + intros k v Hk. by rewrite set_fields_lookup, Hk.
Qed.

(** C9.  When the server returns at most one commit per page of size one,
    the total that [get_total_commits] computes is at most the number of
    non-fork repositories in the listing it received (and 0 when the listing
    failed); this is the value [fetch_and_store_user] writes under
    [Total Commits]. *)
Theorem total_commits_at_most_non_forks (github : Server) (username : string)
    (st : State) :
  honours_per_page_1 github ->
  (forall s,
     let total := (get_total_commits github username s).1 in
     (0 ≤ total)%Z /\
     match (get_json (repos_api github)
              ("https://api.github.com/users/" ++ username ++ "/repos") s).1 with
     | Return repos => (total ≤ Z.of_nat (length (non_forks repos)))%Z
     | Raise _ => total = 0%Z
     end) /\
  (forall data st',
     fetch_and_store_user github username st = (Some data, st') ->
     exists s doc,
       data !! "Total Commits" = Some (PInt (get_total_commits github username s).1) /\
       doc ∈ collection st' /\
       doc !! "Total Commits" = Some (PInt (get_total_commits github username s).1)).
Proof.
  intros Hpp. split.
  - intros s. simpl. unfold get_total_commits. rewrite M_bind_unfold.
    destruct (get_json _ _ _).1 as [repos|e]; [|done].
    match goal with |- context [get_total_commits_loop github repos 0%Z ?s'] =>
      pose proof (get_total_commits_loop_bound github repos 0%Z s' Hpp) end.
    lia.
  - intros data st' Hrun.
    destruct (get_json (users_api github)
                ("https://api.github.com/users/" ++ username) st).1 as [user|e] eqn:E.
    + destruct (fetch_and_store_user_run github username st user E) as [Hrun' _].
      rewrite Hrun' in Hrun. injection Hrun as <- <-.
      match goal with |- context [upsert username ?d ?docs] =>
        destruct (upsert_stored username d docs) as (doc & Hin & Hdoc) end.
      eexists _, doc. split_and!; [reflexivity|exact Hin|].
      by apply Hdoc.
    + by rewrite (fetch_and_store_user_fails github username st e E) in Hrun.
Qed.

Lemma total_commits_at_most_non_forks_busy :
  (0 ≤ (get_total_commits github_busy "octocat" (boot [])).1 ≤ 1)%Z.
Proof.
  assert (honours_per_page_1 github_busy) as Hpp.
  { intros t url. simpl. repeat case_decide; simpl; lia. }
  destruct (total_commits_at_most_non_forks github_busy "octocat" (boot []) Hpp)
    as [Hbound _].
  destruct (Hbound (boot [])) as [H0 H1]. split; [exact H0|exact H1].
Defined.

End TotalCommits.

(** ** Text: splitting, searching, stripping, reading a number *)

Section Strings.
Import Dashboard Scenarios.
#[local] Arguments String.append : simpl nomatch.


Lemma append_nil_r (a : string) : a ++ "" = a.
Proof. induction a as [|x a IH]; simpl; [done|by rewrite IH]. Qed.

Lemma split_go_cons sep skip c s :
  split_go sep skip (String c s) =
  match skip with
  | S k => split_go sep k s
  | O =>
      if String.prefix sep (String c s)
      then "" :: split_go sep (String.length sep - 1) s
      else push c (split_go sep 0 s)
  end.
Proof. done. Qed.

Lemma split_go_nonempty sep skip s : split_go sep skip s <> [].
Proof.
  revert skip. induction s as [|c s IH]; intros skip; [done|].
  rewrite split_go_cons. destruct skip; [|apply IH].
  destruct (String.prefix _ _); [done|].
  specialize (IH 0%nat). by destruct (split_go sep 0 s).
Qed.


Lemma split_go_free sep a rest :
  free sep a -> split_go sep 0 (a ++ rest) = push_all a (split_go sep 0 rest).
Proof.
  intros Ha. pose proof (split_go_nonempty sep 0 rest) as Hne.
  induction a as [|c a IH]; cbn [String.append].
  - by destruct (split_go sep 0 rest).
  - destruct Ha as [Hc Ha]. rewrite split_go_cons, Hc, IH by done.
    by destruct (split_go sep 0 rest).
Qed.

Lemma split_free sep a : free sep a -> split sep a = [a].
Proof.
  intros Ha. unfold split. rewrite <- (append_nil_r a) at 1.
  rewrite split_go_free by done. simpl. by rewrite append_nil_r.
Qed.

Lemma prefix_app sep rest : String.prefix sep (sep ++ rest) = true.
Proof.
  induction sep as [|c sep IH]; simpl; [by destruct rest|].
  by destruct (ascii_dec c c).
Qed.

Lemma split_go_skip sep s rest :
  split_go sep (String.length s) (s ++ rest) = split_go sep 0 rest.
Proof. induction s as [|c s IH]; simpl; [done|]. by rewrite <- IH. Qed.

Lemma split_go_sep sep rest :
  sep <> "" -> split_go sep 0 (sep ++ rest) = "" :: split_go sep 0 rest.
Proof.
  intros Hne. destruct sep as [|c sep]; [done|].
  change (String c sep ++ rest) with (String c (sep ++ rest)).
  rewrite split_go_cons.
  change (String c (sep ++ rest)) with (String c sep ++ rest).
  rewrite prefix_app.
  replace (String.length (String c sep) - 1)%nat with (String.length sep)
    by (simpl; lia).
  by rewrite split_go_skip.
Qed.

(** A text made of a separator-free piece, a separator and the rest. *)
Lemma split_piece sep a rest :
  sep <> "" -> free sep a ->
  split sep (a ++ sep ++ rest) = a :: split sep rest.
Proof.
  intros Hne Ha. unfold split.
  rewrite split_go_free, split_go_sep by done. simpl. by rewrite append_nil_r.
Qed.

Lemma contains_cons sub c s :
  contains sub (String c s) = String.prefix sub (String c s) || contains sub s.
Proof. done. Qed.

Lemma no_char_free c sep' base :
  contains (String c "") base = false -> free (String c sep') base.
Proof.
  induction base as [|b base IH]; [done|].
  rewrite contains_cons. intros [Hp Hc]%orb_false_iff.
  split; [|by apply IH].
  intros rest. simpl in Hp |- *. destruct (ascii_dec c b); [|done].
  by destruct base.
Qed.

Lemma contains_free sub a rest :
  free sub a -> contains sub (a ++ rest) = contains sub rest.
Proof.
  intros Ha. induction a as [|c a IH]; cbn [String.append]; [done|].
  destruct Ha as [Hc Ha]. by rewrite contains_cons, Hc, IH.
Qed.



(** Digits *)
Lemma free_page sep u :
  (forall d s, digit_value d <> None -> String.prefix sep (String d s) = false) ->
  free sep (page_of u).
Proof.
  intros Hsep. induction u; simpl; [done|split; [intros; by apply Hsep|done]..].
Qed.








Lemma digit_not_bracket d : digit_value d <> None -> mem_char d "<> " = false.
Proof.
  unfold digit_value. intros H.
  destruct d as [[] [] [] [] [] [] [] []]; vm_compute in H; try done; reflexivity.
Qed.

Lemma digit_not_head (sep : string) c sep' d s :
  sep = String c sep' -> digit_value c = None ->
  digit_value d <> None -> String.prefix sep (String d s) = false.
Proof.
  intros -> Hc Hd. simpl. destruct (ascii_dec c d) as [->|]; [done|done].
Qed.





















End Strings.

(** ** Commit counts in [dashboard.py] *)

Section CommitCounts.
Import Recommendation_dashboard Dashboard Scenarios.

Lemma counts_read_length github username repos t :
  length (counts_read github username repos t) = length repos.
Proof. revert t. induction repos; intros t; simpl; [done|by rewrite IHrepos]. Qed.

Lemma visit_repos_commits_per_repo github username repos acc st :
  commits_per_repo (visit_repos github username repos acc st).1 =
  foldl (fun m nc => <[nc.1 := nc.2]> m) (commits_per_repo acc)
    (zip (names_of repos) (counts_read github username repos (clock st))).
Proof.
  revert acc st. induction repos as [|repo repos IH]; intros acc st; [done|].
  simpl. rewrite M_bind_unfold.
  destruct (visit_repo_run github username repo acc st) as [Hv (_ & Hc & _)].
  rewrite IH, Hv, Hc. simpl.
  by replace (clock st + 2)%nat with (S (S (clock st))) by lia.
Qed.

Lemma sum_values_insert_fresh (m : gmap string Z) k v :
  m !! k = None -> sum_values (<[k := v]> m) = (v + sum_values m)%Z.
Proof.
  intros Hk. unfold sum_values.
  rewrite map_fold_insert_L; [done| |done]. intros. lia.
Qed.

Lemma sum_values_filed (m : gmap string Z) names counts :
  NoDup names -> (forall n, n ∈ names -> m !! n = None) ->
  length names = length counts ->
  sum_values (foldl (fun m nc => <[nc.1 := nc.2]> m) m (zip names counts))
  = (sum_values m + sum counts)%Z.
Proof.
  revert m counts. induction names as [|n names IH]; intros m counts Hnd Hfresh Hlen.
  - destruct counts; [|done]. simpl. lia.
  - destruct counts as [|c counts]; [done|]. simpl.
    apply NoDup_cons in Hnd as [Hn Hnd].
    rewrite IH; [| done | | by simplify_eq/=].
    + rewrite sum_values_insert_fresh by (apply Hfresh; by left). lia.
    + intros n' Hn'. rewrite lookup_insert_ne by (intros ->; done).
      apply Hfresh. by right.
Qed.




(** The two defaults of a missing name.  On a listing whose repository
    comes without a name, answered by a server that counts a commit under
    the name [Unknown], the repository is counted under ["Unknown"] in
    [Commits Per Repo] and looked up under [""] for its language.  GitHub
    gives every repository a name. *)
Lemma commits_per_language_misses_nameless :
  exists record st',
    fetch_user_data github_nameless "octocat" (boot []) = (Some record, st') /\
    record !! "Commits Per Repo" = Some (PCounts {["Unknown" := 1%Z]}) /\
    record !! "Commits Per Language" = Some (PCounts {["Go" := 0%Z]}) /\
    record !! "Total Commits" = Some (PInt 1).
Proof.
  eexists _, _.
  split; [exact (fetch_user_data_run github_nameless "octocat" (boot []) eq_refl)|].
  split_and!; vm_compute; reflexivity.
Qed.



(** The second loop of [fetch_user_data] when every repository has a
    name: it reads the counts under the names the first loop filed them
    under. *)
Lemma commits_of_language_named repos (counts : gmap string Z) lang :
  Forall (fun repo => str_or (repo_name repo) "" ≠ "") repos ->
  commits_of_language repos counts lang =
  sum ((fun repo => get0 counts (str_or (repo_name repo) "Unknown")) <$>
       filter (fun repo => str_or (repo_language repo) "Unknown" = lang) repos).
Proof.
  intros Hnamed. unfold commits_of_language. f_equal.
  induction Hnamed as [|repo repos Hrepo _ IH]; [done|].
  destruct (decide (str_or (repo_language repo) "Unknown" = lang)) as [E|E].
  - rewrite !filter_cons_True by done. rewrite !fmap_cons, IH. f_equal.
    unfold str_or in *. destruct (repo_name repo) as [n|]; [|done].
    by case_decide.
  - by rewrite !filter_cons_False by done.
Qed.

Lemma sum_app (l k : list Z) : sum (l ++ k) = (sum l + sum k)%Z.
Proof. induction l as [|x l IH]; simpl; [done|]. rewrite IH. lia. Qed.

Lemma sum_split_by (f : repo_json -> Z) (P : repo_json -> Prop)
    `{!forall r, Decision (P r)} (repos : list repo_json) :
  sum (f <$> repos)
  = (sum (f <$> filter P repos) + sum (f <$> filter (fun r => ~ P r) repos))%Z.
Proof.
  induction repos as [|r repos IH]; [done|].
  rewrite fmap_cons. simpl. rewrite IH.
  destruct (decide (P r)).
  - rewrite filter_cons_True, (filter_cons_False (fun r => ~ P r)) by (done || tauto).
    rewrite fmap_cons. simpl. lia.
  - rewrite filter_cons_False, (filter_cons_True (fun r => ~ P r)) by done.
    rewrite fmap_cons. simpl. lia.
Qed.

(** Regrouping: the sums per language add up to the sum over the
    repositories, when every language of a repository is a key. *)
Lemma sum_values_by_language (f : repo_json -> Z) (m : gmap string Z) repos :
  Forall (fun repo => lang_of repo ∈ dom m) repos ->
  sum_values (map_imap (fun lang _ =>
      Some (sum (f <$> filter (fun repo => lang_of repo = lang) repos))) m)
  = sum (f <$> repos).
Proof.
  revert repos. induction m as [|k x m Hk IH] using map_ind; intros repos Hdom.
  - destruct repos as [|r repos]; [done|].
    apply Forall_cons in Hdom as [Hr _]. set_solver.
  - rewrite map_imap_insert.
    rewrite sum_values_insert_fresh by (by rewrite map_lookup_imap, Hk).
    rewrite (sum_split_by f (fun repo => lang_of repo = k) repos). f_equal.
    rewrite <- (IH (filter (fun r => lang_of r ≠ k) repos)).
    + f_equal. apply map_imap_ext. intros lang.
      destruct (m !! lang) as [y|] eqn:Hy; [|done]. simpl. do 3 f_equal.
      rewrite list_filter_filter. f_equal. apply list_filter_iff.
      intros r. split; [|tauto]. intros E. split; [done|].
      intros E2. rewrite <- E, E2 in Hy. congruence.
    + apply Forall_forall. intros r [Hne Hr]%list_elem_of_filter.
      rewrite Forall_forall in Hdom. specialize (Hdom r Hr).
      rewrite dom_insert_L in Hdom.
      apply elem_of_union in Hdom as [Hd%elem_of_singleton|Hd]; [done|done].
Qed.

Lemma visit_repos_languages github username repos acc st :
  dom (languages (visit_repos github username repos acc st).1)
  = dom (languages acc) ∪ list_to_set (lang_of <$> repos).
Proof.
  revert acc st. induction repos as [|repo repos IH]; intros acc st.
  - simpl. by rewrite union_empty_r_L.
  - simpl. rewrite M_bind_unfold, IH.
    destruct (visit_repo_run github username repo acc st) as [-> _].
    simpl. rewrite dom_insert_L. unfold lang_of.
    apply set_eq. intros x. rewrite !elem_of_union, elem_of_singleton. tauto.
Qed.

Lemma filed_lookup_other (m : gmap string Z) names counts n :
  n ∉ names ->
  foldl (fun m nc => <[nc.1 := nc.2]> m) m (zip names counts) !! n = m !! n.
Proof.
  revert m counts. induction names as [|x names IH]; intros m counts Hn; [done|].
  destruct counts as [|c counts]; [done|]. simpl.
  rewrite IH by (intros ?; apply Hn; by right).
  apply lookup_insert_ne. intros ->. apply Hn. by left.
Qed.

Lemma filed_lookup (m : gmap string Z) names counts :
  NoDup names -> length names = length counts ->
  get0 (foldl (fun m nc => <[nc.1 := nc.2]> m) m (zip names counts)) <$> names = counts.
Proof.
  revert m counts. induction names as [|x names IH]; intros m counts Hnd Hlen.
  - by destruct counts.
  - destruct counts as [|c counts]; [done|].
    apply NoDup_cons in Hnd as [Hx Hnd]. simpl. f_equal.
    + unfold get0. by rewrite filed_lookup_other, lookup_insert_eq.
    + apply IH; [done|by simplify_eq/=].
Qed.

(** X20.  The property of C6 holds for listings in which every repository
    has a name: the entry of a language is the sum of the counts filed for
    the repositories of that language, the entries add up to the sum of
    these counts over the repositories, and with distinct names to
    [Total Commits]. *)
Lemma commits_per_language_sums github username st :
  status_code (users_api github (clock st) ("https://api.github.com/users/" ++ username))
    = 200%Z ->
  let repos_resp := repos_api github (S (clock st))
    ("https://api.github.com/users/" ++ username ++ "/repos?per_page=100") in
  let repos := if decide (status_code repos_resp = 200%Z) then json repos_resp else [] in
  Forall (fun repo => str_or (repo_name repo) "" ≠ "") repos ->
  exists record langs counts per_language,
    (fetch_user_data github username st).1 = Some record /\
    record !! "Languages" = Some (PCounts langs) /\
    record !! "Commits Per Repo" = Some (PCounts counts) /\
    record !! "Commits Per Language" = Some (PCounts per_language) /\
    (forall lang,
       per_language !! lang =
       if decide (lang ∈ dom langs)
       then Some (sum ((fun repo => get0 counts (str_or (repo_name repo) "Unknown")) <$>
                       filter (fun repo => lang_of repo = lang) repos))
       else None) /\
    sum_values per_language
      = sum ((fun repo => get0 counts (str_or (repo_name repo) "Unknown")) <$> repos) /\
    (NoDup (names_of repos) -> sum_values per_language = sum_values counts).
Proof.
  intros H200 repos_resp repos Hnamed.
  rewrite (fetch_user_data_run github username st H200). simpl.
  fold repos_resp. fold repos.
  set (st3 := {| clock := _ |}).
  set (acc := (visit_repos github username repos no_aggregates st3).1).
  eexists _, (languages acc), (commits_per_repo acc), (commits_per_language repos acc).
  assert (commits_per_language repos acc =
          map_imap (fun lang _ => Some (sum
            ((fun repo => get0 (commits_per_repo acc) (str_or (repo_name repo) "Unknown"))
             <$> filter (fun repo => lang_of repo = lang) repos))) (languages acc)) as Hcpl.
  { unfold commits_per_language. apply map_imap_ext. intros lang.
    destruct (languages acc !! lang); [|done]. simpl. do 2 f_equal.
    by apply commits_of_language_named. }
  assert (sum_values (commits_per_language repos acc)
      = sum ((fun repo => get0 (commits_per_repo acc) (str_or (repo_name repo) "Unknown"))
             <$> repos)) as Hsum.
  { rewrite Hcpl. apply sum_values_by_language.
    apply Forall_forall. intros repo Hrepo. unfold acc.
    rewrite visit_repos_languages. apply elem_of_union. right.
    apply elem_of_list_to_set. by apply list_elem_of_fmap_2. }
  split_and!; [done|done|done|done|..].
  - intros lang. rewrite Hcpl, map_lookup_imap.
    case_decide as Hd.
    + apply elem_of_dom in Hd as [x ->]. done.
    + apply not_elem_of_dom in Hd as ->. done.
  - done.
  - intros Hnd. rewrite Hsum. unfold acc.
    rewrite visit_repos_commits_per_repo. simpl.
    assert (length (names_of repos)
            = length (counts_read github username repos (S (S (S (clock st)))))) as Hlen
      by (unfold names_of; by rewrite counts_read_length, length_fmap).
    rewrite sum_values_filed by done.
    change (sum_values ∅) with 0%Z. rewrite Z.add_0_l. f_equal.
    etrans; [|by apply (filed_lookup ∅ (names_of repos))].
    unfold names_of. by rewrite <- list_fmap_compose.
Qed.

(** The second loop reads the counts the first loop filed as soon as the
    two defaults of a missing name lead to the same count. *)
Lemma commits_of_language_filed repos (counts : gmap string Z) lang :
  Forall (fun repo => get0 counts (str_or (repo_name repo) "")
                      = get0 counts (str_or (repo_name repo) "Unknown")) repos ->
  commits_of_language repos counts lang =
  sum ((fun repo => get0 counts (str_or (repo_name repo) "Unknown")) <$>
       filter (fun repo => str_or (repo_language repo) "Unknown" = lang) repos).
Proof.
  intros Hsame. unfold commits_of_language. f_equal.
  induction Hsame as [|repo repos Hrepo _ IH]; [done|].
  destruct (decide (str_or (repo_language repo) "Unknown" = lang)) as [E|E].
  - rewrite !filter_cons_True by done. by rewrite !fmap_cons, IH, Hrepo.
  - by rewrite !filter_cons_False by done.
Qed.

Lemma counts_read_lookup github username repos t i n :
  names_of repos !! i = Some n ->
  counts_read github username repos t !! i
  = Some (commit_count_of (commits_api github (t + 2 * i) (count_url username n))).
Proof.
  revert t i. induction repos as [|repo repos IH]; intros t i; [done|].
  destruct i as [|i]; simpl.
  - intros [= <-]. do 3 f_equal. lia.
  - intros Hn. rewrite (IH _ _ Hn). do 3 f_equal. lia.
Qed.

Lemma filed_zero (m : gmap string Z) names counts k :
  get0 m k = 0%Z -> length names = length counts ->
  (forall i, names !! i = Some k -> counts !! i = Some 0%Z) ->
  get0 (foldl (fun m nc => <[nc.1 := nc.2]> m) m (zip names counts)) k = 0%Z.
Proof.
  revert m counts. induction names as [|x names IH]; intros m counts Hm Hlen Hz.
  - by destruct counts.
  - destruct counts as [|c counts]; [done|]. simpl. apply IH.
    + unfold get0. destruct (decide (x = k)) as [->|Hne].
      * rewrite lookup_insert_eq. specialize (Hz 0%nat eq_refl). by simplify_eq/=.
      * by rewrite lookup_insert_ne.
    + by simplify_eq/=.
    + intros i Hi. apply (Hz (S i) Hi).
Qed.

Lemma names_of_not_empty repos : "" ∉ names_of repos.
Proof.
  unfold names_of. intros (repo & E & _)%list_elem_of_fmap.
  unfold str_or in E. destruct (repo_name repo) as [n|]; [|done].
  by case_decide.
Qed.

(** C6.  The entry of a language in [Commits Per Language] is the sum of
    the counts filed for the repositories of that language, the entries add
    up to the sum of these counts over the repositories, and with distinct
    names to [Total Commits].  This holds when every listed repository has
    a name, as GitHub's listings have, and also when a name is missing or
    empty as long as the server has no commits to count under the name
    [Unknown]. *)
Theorem commits_per_language_consistent (github : Server) (username : string)
    (st : State) :
  status_code (users_api github (clock st) ("https://api.github.com/users/" ++ username))
    = 200%Z ->
  let repos_resp := repos_api github (S (clock st))
    ("https://api.github.com/users/" ++ username ++ "/repos?per_page=100") in
  let repos := if decide (status_code repos_resp = 200%Z) then json repos_resp else [] in
  Forall (fun repo => str_or (repo_name repo) "" ≠ "") repos \/
  (forall t, commit_count_of (commits_api github t (count_url username "Unknown")) = 0%Z) ->
  exists record langs counts per_language,
    (fetch_user_data github username st).1 = Some record /\
    record !! "Languages" = Some (PCounts langs) /\
    record !! "Commits Per Repo" = Some (PCounts counts) /\
    record !! "Commits Per Language" = Some (PCounts per_language) /\
    (forall lang,
       per_language !! lang =
       if decide (lang ∈ dom langs)
       then Some (sum ((fun repo => get0 counts (str_or (repo_name repo) "Unknown")) <$>
                       filter (fun repo => lang_of repo = lang) repos))
       else None) /\
    sum_values per_language
      = sum ((fun repo => get0 counts (str_or (repo_name repo) "Unknown")) <$> repos) /\
    (NoDup (names_of repos) ->
     sum_values per_language = sum_values counts /\
     record !! "Total Commits" = Some (PInt (sum_values per_language))).
Proof.
  intros H200 repos_resp repos Hreal.
  rewrite (fetch_user_data_run github username st H200). simpl.
  fold repos_resp. fold repos.
  set (st3 := {| clock := _ |}).
  set (acc := (visit_repos github username repos no_aggregates st3).1).
  assert (length (names_of repos)
          = length (counts_read github username repos (S (S (S (clock st)))))) as Hlen
    by (unfold names_of; by rewrite counts_read_length, length_fmap).
  assert (Forall (fun repo => get0 (commits_per_repo acc) (str_or (repo_name repo) "")
             = get0 (commits_per_repo acc) (str_or (repo_name repo) "Unknown")) repos)
    as Hsame.
  { apply Forall_forall. intros repo Hrepo.
    destruct (decide (str_or (repo_name repo) "" = "")) as [Hnone|Hsome].
    - destruct Hreal as [Hnamed|Hzero].
      { rewrite Forall_forall in Hnamed. by destruct (Hnamed repo Hrepo). }
      assert (str_or (repo_name repo) "Unknown" = "Unknown") as ->.
      { unfold str_or in *. destruct (repo_name repo) as [n|]; [|done].
        by case_decide. }
      rewrite Hnone. unfold acc. rewrite visit_repos_commits_per_repo. simpl.
      transitivity 0%Z.
      + unfold get0. rewrite filed_lookup_other by apply names_of_not_empty. done.
      + symmetry. apply filed_zero; [done|done|].
        intros i Hi. rewrite (counts_read_lookup _ _ _ _ _ _ Hi). f_equal. apply Hzero.
    - unfold str_or in *. destruct (repo_name repo) as [n|]; [|done].
      by case_decide. }
  eexists _, (languages acc), (commits_per_repo acc), (commits_per_language repos acc).
  assert (commits_per_language repos acc =
          map_imap (fun lang _ => Some (sum
            ((fun repo => get0 (commits_per_repo acc) (str_or (repo_name repo) "Unknown"))
             <$> filter (fun repo => lang_of repo = lang) repos))) (languages acc)) as Hcpl.
  { unfold commits_per_language. apply map_imap_ext. intros lang.
    destruct (languages acc !! lang); [|done]. simpl. do 2 f_equal.
    by apply commits_of_language_filed. }
  assert (sum_values (commits_per_language repos acc)
      = sum ((fun repo => get0 (commits_per_repo acc) (str_or (repo_name repo) "Unknown"))
             <$> repos)) as Hsum.
  { rewrite Hcpl. apply sum_values_by_language.
    apply Forall_forall. intros repo Hrepo. unfold acc.
    rewrite visit_repos_languages. apply elem_of_union. right.
    apply elem_of_list_to_set. by apply list_elem_of_fmap_2. }
  split_and!; [done|done|done|done|..].
  - intros lang. rewrite Hcpl, map_lookup_imap.
    case_decide as Hd.
    + apply elem_of_dom in Hd as [x ->]. done.
    + apply not_elem_of_dom in Hd as ->. done.
  - done.
  - intros Hnd.
    assert (sum_values (commits_per_language repos acc)
            = sum_values (commits_per_repo acc)) as Heq.
    { rewrite Hsum. unfold acc.
      rewrite visit_repos_commits_per_repo. simpl.
      rewrite sum_values_filed by done.
      change (sum_values ∅) with 0%Z. rewrite Z.add_0_l. f_equal.
      etrans; [|by apply (filed_lookup ∅ (names_of repos))].
      unfold names_of. by rewrite <- list_fmap_compose. }
    split; [done|]. by rewrite record_total_commits, Heq.
Qed.

Lemma commits_per_language_consistent_busy :
  (exists record,
     (fetch_user_data github_busy "octocat" (boot [])).1 = Some record /\
     record !! "Commits Per Repo"
       = Some (PCounts (list_to_map [("hello", 3%Z); ("spoon", 5%Z)])) /\
     record !! "Commits Per Language"
       = Some (PCounts (list_to_map [("Python", 3%Z); ("C", 5%Z)])) /\
     record !! "Total Commits" = Some (PInt 8)) /\
  (exists record,
     (fetch_user_data github_nameless_404 "octocat" (boot [])).1 = Some record /\
     record !! "Commits Per Repo" = Some (PCounts {["Unknown" := 0%Z]}) /\
     record !! "Commits Per Language" = Some (PCounts {["Go" := 0%Z]}) /\
     record !! "Total Commits" = Some (PInt 0)).
Proof.
  split.
  - destruct (commits_per_language_consistent github_busy "octocat" (boot []) eq_refl)
      as (record & langs & counts & per_language & Hrun & _ & Hc & Hp & _ & _ & Hsum).
    + left. repeat constructor; discriminate.
    + exists record. split; [exact Hrun|].
      rewrite (fetch_user_data_run github_busy "octocat" (boot []) eq_refl) in Hrun.
      injection Hrun as <-. split_and!; vm_compute; reflexivity.
  - destruct (commits_per_language_consistent github_nameless_404 "octocat" (boot [])
                eq_refl)
      as (record & langs & counts & per_language & Hrun & _ & Hc & Hp & _ & _ & Hsum).
    + right. intros t. reflexivity.
    + exists record. split; [exact Hrun|].
      rewrite (fetch_user_data_run github_nameless_404 "octocat" (boot []) eq_refl)
        in Hrun.
      injection Hrun as <-. split_and!; vm_compute; reflexivity.
Defined.
End CommitCounts.

(** * Further properties of the two scripts *)

(** ** Similarity as an overlap *)

Section Overlap.
Open Scope R_scope.

Lemma classes_NoDup y : NoDup (classes_ y).
Proof.
  unfold classes_. rewrite sorted_perm. apply NoDup_remove_dups.
Qed.

Lemma elem_of_classes y c : c ∈ classes_ y <-> exists labels, labels ∈ y /\ c ∈ labels.
Proof.
  unfold classes_. rewrite elem_of_sorted, elem_of_remove_dups.
  induction y as [|labels y IH]; simpl.
  - split; [by intros ?%elem_of_nil|]. by intros (? & ?%elem_of_nil & _).
  - rewrite elem_of_app, IH. split.
    + intros [H | (labels' & H1 & H2)].
      * exists labels. split; [by left|done].
      * exists labels'. split; [by right|done].
    + intros (labels' & [-> | H1]%elem_of_cons & H2); [by left|right; eauto].
Qed.

Lemma indicator_dot classes l1 l2 :
  dot (IZR <$> indicator classes l1) (IZR <$> indicator classes l2)
  = INR (length (filter (fun c => c ∈ l1 /\ c ∈ l2) classes)).
Proof.
  unfold indicator. induction classes as [|c cs IH]; [done|].
  rewrite !fmap_cons, dot_cons, IH.
  destruct (decide (c ∈ l1 /\ c ∈ l2)) as [[H1 H2]|Hn].
  - rewrite filter_cons_True by done. rewrite !decide_True by done.
    cbn [length]. rewrite S_INR. lra.
  - rewrite filter_cons_False by done.
    repeat case_decide; try lra. by destruct Hn.
Qed.

Lemma common_langs_NoDup a b : NoDup (common_langs a b).
Proof. unfold common_langs. apply NoDup_filter, NoDup_remove_dups. Qed.

Lemma elem_of_common_langs a b l : l ∈ common_langs a b <-> l ∈ a /\ l ∈ b.
Proof.
  unfold common_langs. rewrite list_elem_of_filter, elem_of_remove_dups. tauto.
Qed.

Lemma shared_classes_length classes l1 l2 :
  NoDup classes -> (forall c, c ∈ l1 -> c ∈ classes) ->
  length (filter (fun c => c ∈ l1 /\ c ∈ l2) classes) = length (common_langs l1 l2).
Proof.
  intros Hnd Hsub. apply Permutation_length, NoDup_Permutation.
  - by apply NoDup_filter.
  - apply common_langs_NoDup.
  - intros c. rewrite list_elem_of_filter, elem_of_common_langs.
    split; [tauto|]. intros [H1 H2]. split_and!; auto.
Qed.

Lemma common_langs_self a : length (common_langs a a) = length (remove_dups a).
Proof.
  apply Permutation_length, NoDup_Permutation.
  - apply common_langs_NoDup.
  - apply NoDup_remove_dups.
  - intros c. rewrite elem_of_common_langs, elem_of_remove_dups. tauto.
Qed.

Lemma common_langs_comm a b : length (common_langs a b) = length (common_langs b a).
Proof.
  apply Permutation_length, NoDup_Permutation; try apply common_langs_NoDup.
  intros c. rewrite !elem_of_common_langs. tauto.
Qed.

Lemma common_langs_le a b :
  (length (common_langs a b) <= length (remove_dups a))%nat.
Proof. unfold common_langs. apply length_filter. Qed.

(** The similarity of two rows of the incidence matrix. *)
Lemma cosine_entry_overlap classes l1 l2 :
  NoDup classes ->
  (forall c, c ∈ l1 -> c ∈ classes) -> (forall c, c ∈ l2 -> c ∈ classes) ->
  dot (normalize_row (IZR <$> indicator classes l1))
      (normalize_row (IZR <$> indicator classes l2))
  = overlap l1 l2.
Proof.
  intros Hnd H1 H2. unfold overlap.
  set (A := IZR <$> indicator classes l1). set (B := IZR <$> indicator classes l2).
  assert (dot A B = INR (length (common_langs l1 l2))) as Hab.
  { unfold A, B. by rewrite indicator_dot, shared_classes_length. }
  assert (dot A A = INR (length (remove_dups l1))) as Haa.
  { unfold A. by rewrite indicator_dot, shared_classes_length, common_langs_self. }
  assert (dot B B = INR (length (remove_dups l2))) as Hbb.
  { unfold B. by rewrite indicator_dot, shared_classes_length, common_langs_self. }
  destruct (normalize_row_scale A) as (n & Hn & Hna & ->).
  destruct (normalize_row_scale B) as (m & Hm & Hmb & ->).
  rewrite dot_scale by lra. rewrite Hab.
  pose proof (common_langs_le l1 l2) as Hle1.
  pose proof (common_langs_le l2 l1) as Hle2. rewrite <- common_langs_comm in Hle2.
  apply le_INR in Hle1, Hle2.
  pose proof (pos_INR (length (common_langs l1 l2))) as Hpos.
  unfold row_norm in Hna, Hmb. rewrite Haa in Hna. rewrite Hbb in Hmb.
  assert (forall k : nat, sqrt (INR k) = 0 -> INR k = 0) as Hz.
  { intros k E. apply sqrt_eq_0 in E; [done|apply pos_INR]. }
  destruct Hna as [[E ->] | ->].
  { apply Hz in E. assert (INR (length (common_langs l1 l2)) = 0) as -> by lra.
    unfold Rdiv. by rewrite !Rmult_0_l. }
  destruct Hmb as [[E ->] | ->].
  { apply Hz in E. assert (INR (length (common_langs l1 l2)) = 0) as -> by lra.
    unfold Rdiv. by rewrite !Rmult_0_l. }
  rewrite sqrt_mult by apply pos_INR. done.
Qed.

Lemma similarity_lookup df i j a b :
  df !! i = Some a -> df !! j = Some b ->
  exists row, similarity_of df !! i = Some row /\
    row !! j = Some (overlap (LanguagesList a) (LanguagesList b)).
Proof.
  intros Ha Hb.
  assert (i < length (similarity_of df))%nat as Hlt.
  { unfold similarity_of, fit_transform.
    rewrite cosine_similarity_length, !length_fmap. by eapply lookup_lt_Some. }
  apply lookup_lt_is_Some in Hlt as [row Hrow].
  assert (j < length row)%nat as Hj.
  { rewrite (similarity_row_length df i) by done. by eapply lookup_lt_Some. }
  apply lookup_lt_is_Some in Hj as [v Hv].
  exists row. split; [done|]. rewrite Hv. f_equal.
  destruct (cosine_similarity_lookup _ _ _ _ _ Hrow Hv) as (x & y & Hx & Hy & ->).
  unfold fit_transform in Hx, Hy. rewrite !list_lookup_fmap in Hx, Hy.
  rewrite Ha in Hx. rewrite Hb in Hy. simpl in Hx, Hy.
  injection Hx as <-. injection Hy as <-.
  apply cosine_entry_overlap.
  - apply classes_NoDup.
  - intros c Hc. apply elem_of_classes. exists (LanguagesList a). split; [|done].
    apply list_elem_of_fmap. exists a. split; [done|]. by eapply list_elem_of_lookup_2.
  - intros c Hc. apply elem_of_classes. exists (LanguagesList b). split; [|done].
    apply list_elem_of_fmap. exists b. split; [done|]. by eapply list_elem_of_lookup_2.
Qed.

Lemma overlap_comm a b : overlap a b = overlap b a.
Proof. unfold overlap. by rewrite common_langs_comm, Rmult_comm. Qed.

Lemma overlap_same a b :
  a <> [] -> (forall l, l ∈ a <-> l ∈ b) -> overlap a b = 1.
Proof.
  intros Hne Hab. unfold overlap.
  assert (length (common_langs a b) = length (remove_dups a)) as ->.
  { apply Permutation_length, NoDup_Permutation;
      [apply common_langs_NoDup|apply NoDup_remove_dups|].
    intros c. rewrite elem_of_common_langs, elem_of_remove_dups.
    split; [tauto|]. intros Hc. split; [done|by apply Hab]. }
  assert (length (remove_dups b) = length (remove_dups a)) as ->.
  { apply Permutation_length, NoDup_Permutation; try apply NoDup_remove_dups.
    intros c. rewrite !elem_of_remove_dups. symmetry. apply Hab. }
  assert (0 < INR (length (remove_dups a))) as Hpos.
  { apply lt_0_INR. destruct a as [|x a]; [done|].
    assert (x ∈ remove_dups (x :: a)) as Hx by (apply elem_of_remove_dups; by left).
    destruct (remove_dups (x :: a)); [by apply elem_of_nil in Hx|simpl; lia]. }
  rewrite sqrt_square by lra. field. lra.
Qed.

Lemma overlap_range a b : 0 <= overlap a b <= 1.
Proof.
  unfold overlap.
  pose proof (common_langs_le a b) as H1.
  pose proof (common_langs_le b a) as H2. rewrite <- common_langs_comm in H2.
  apply le_INR in H1, H2.
  set (c := INR (length (common_langs a b))) in *.
  set (x := INR (length (remove_dups a))) in *.
  set (y := INR (length (remove_dups b))) in *.
  assert (0 <= c) as Hc by apply pos_INR.
  destruct (Req_dec c 0) as [-> | Hne].
  { unfold Rdiv. rewrite Rmult_0_l. lra. }
  assert (0 < x * y) as Hxy by nra.
  assert (c <= sqrt (x * y)) as Hle.
  { rewrite <- (sqrt_square c) by done. apply sqrt_le_1_alt. nra. }
  assert (0 < sqrt (x * y)) as Hs by (by apply sqrt_lt_R0).
  split.
  - apply Rmult_le_pos; [done|]. left. by apply Rinv_0_lt_compat.
  - apply (Rmult_le_reg_r (sqrt (x * y))); [done|]. field_simplify; lra.
Qed.

End Overlap.

(** ** Rounding and the order of the ranking *)

Section RoundingError.
Open Scope R_scope.

Lemma round3_one : round 1 3 = 1.
Proof.
  unfold round. assert (10 ^ 3 = 1000) as -> by (simpl; lra).
  rewrite Rmult_1_l.
  assert (rint 1000 = 1000%Z) as ->; [|lra].
  pose proof (rint_lower 1000 1000 (Rle_refl _)).
  pose proof (rint_upper 1000 1000 (Rle_refl _)). lia.
Qed.

End RoundingError.

Section Order.
Open Scope R_scope.

Lemma imap_ascending {A} (l : list A) k :
  StronglySorted (fun p q : nat * A => (fst p < fst q)%nat)
    (imap (fun i x => ((k + i)%nat, x)) l).
Proof.
  revert k. induction l as [|x l IH]; intros k; [constructor|].
  cbn [imap]. constructor.
  - rewrite (imap_ext _ (fun i x => ((S k + i)%nat, x))); [apply IH|].
    intros i y _. simpl. f_equal. lia.
  - apply Forall_forall. intros [j y] (i & z & [= -> ->] & _)%elem_of_lookup_imap.
    simpl. lia.
Qed.

Lemma enumerate_ascending {A} (l : list A) :
  StronglySorted (fun p q : nat * A => (fst p < fst q)%nat) (enumerate l).
Proof. apply (imap_ascending l 0). Qed.

Lemma StronglySorted_filter {A} (R : A -> A -> Prop) (P : A -> Prop)
    `{!forall x, Decision (P x)} l :
  StronglySorted R l -> StronglySorted R (filter P l).
Proof.
  induction 1 as [|x l Hs IH Hx]; [constructor|].
  destruct (decide (P x)).
  - rewrite filter_cons_True by done. constructor; [done|].
    apply Forall_forall. intros y [_ Hy]%list_elem_of_filter.
    rewrite Forall_forall in Hx. by apply Hx.
  - by rewrite filter_cons_False.
Qed.

Lemma insort_ranks x l :
  StronglySorted ranks_before l -> Forall (fun y => (fst x < fst y)%nat) l ->
  StronglySorted ranks_before (insort by_score_desc x l).
Proof.
  induction 1 as [|y l Hs IH Hy]; intros Hx; simpl.
  - repeat constructor.
  - apply Forall_cons in Hx as [Hxy Hx].
    unfold by_score_desc at 1. destruct (Rlt_dec (snd x) (snd y)) as [Hlt|Hge].
    + constructor; [by apply IH|].
      apply Forall_forall. intros z Hz. rewrite insort_perm in Hz.
      apply elem_of_cons in Hz as [-> | Hz]; [by left|].
      rewrite Forall_forall in Hy. by apply Hy.
    + constructor; [by constructor|].
      apply Forall_cons. split.
      * unfold ranks_before. destruct (Rlt_dec (snd y) (snd x)); [by left|].
        right. split; [lra|done].
      * apply Forall_forall. intros z Hz.
        rewrite Forall_forall in Hy, Hx. specialize (Hy z Hz). specialize (Hx z Hz).
        unfold ranks_before in *.
        destruct Hy as [Hy | [Hy _]].
        -- left. lra.
        -- destruct (Rlt_dec (snd z) (snd x)); [by left|]. right. split; [lra|done].
Qed.

Lemma sorted_ranks l :
  StronglySorted (fun p q : nat * R => (fst p < fst q)%nat) l ->
  StronglySorted ranks_before (sorted by_score_desc l).
Proof.
  induction 1 as [|x l Hs IH Hx]; [constructor|].
  simpl. apply insort_ranks; [done|].
  apply Forall_forall. intros y Hy. apply elem_of_sorted in Hy.
  rewrite Forall_forall in Hx. by apply Hx.
Qed.

Lemma ranked_ranks row user_idx top_n :
  StronglySorted ranks_before (ranked row user_idx top_n).
Proof.
  unfold ranked. eapply StronglySorted_prefix; [apply slice_to_prefix|].
  apply sorted_ranks, StronglySorted_filter, enumerate_ascending.
Qed.

Lemma ascending_NoDup {A} (l : list (nat * A)) :
  StronglySorted (fun p q : nat * A => (fst p < fst q)%nat) l -> NoDup l.*1.
Proof.
  induction 1 as [|p l Hs IH Hp]; [constructor|].
  rewrite fmap_cons. constructor; [|done].
  intros (q & Hq & Hin)%list_elem_of_fmap.
  rewrite Forall_forall in Hp. specialize (Hp q Hin). lia.
Qed.

Lemma ranked_NoDup row user_idx top_n : NoDup (ranked row user_idx top_n).*1.
Proof.
  unfold ranked.
  assert (forall n (l : list (nat * R)), (slice_to n l).*1 `sublist_of` l.*1) as Hs.
  { intros n l. unfold slice_to. case_decide; rewrite fmap_take; apply sublist_take. }
  refine (sublist_NoDup _ _ _ (Hs _ _)).
  rewrite sorted_perm.
  apply ascending_NoDup, StronglySorted_filter, enumerate_ascending.
Qed.

End Order.

(** ** [get_recommendations], entry by entry *)

Section Ranking.
Import Scenarios.
Open Scope R_scope.

Lemma filter_imap_find {A} (P : A -> Prop) `{!forall x, Decision (P x)}
    (l : list A) k i x :
  list_find P l = Some (i, x) ->
  filter (fun ir : nat * A => P (snd ir)) (imap (fun i x => ((k + i)%nat, x)) l) !! 0%nat
  = Some ((k + i)%nat, x).
Proof.
  revert k i. induction l as [|y l IH]; intros k i Hf; [done|].
  cbn [imap]. simpl in Hf. destruct (decide (P y)) as [Py|Py].
  - injection Hf as <- <-. rewrite filter_cons_True by done. done.
  - rewrite filter_cons_False by done.
    destruct (list_find P l) as [[j z]|] eqn:E; [|done]. simpl in Hf.
    injection Hf as <- <-.
    rewrite (imap_ext _ (fun i x => ((S k + i)%nat, x))).
    + rewrite (IH (S k) j eq_refl). do 2 f_equal. lia.
    + intros ? ? _. simpl. f_equal. lia.
Qed.

Lemma filter_enumerate_find {A} (P : A -> Prop) `{!forall x, Decision (P x)}
    (l : list A) i x :
  list_find P l = Some (i, x) ->
  filter (fun ir : nat * A => P (snd ir)) (enumerate l) !! 0%nat = Some (i, x).
Proof. intros Hf. exact (filter_imap_find P l 0 i x Hf). Qed.

(** The target is the first row that carries the login. *)
Lemma get_recommendations_at df username top_n i user :
  list_find (fun r => Login r = PStr username) df = Some (i, user) ->
  exists row recs,
    similarity_of df !! i = Some row /\
    get_recommendations df username top_n = Return (Some recs) /\
    Forall2 (fun p r => recommendation df (LanguagesList user) p = Return r)
      (ranked row i top_n) recs.
Proof.
  intros Hfind. pose proof Hfind as (Hi & Hu & _)%list_find_Some.
  assert (PStr username ∈ Login <$> df) as Hin.
  { apply list_elem_of_fmap. exists user. split; [done|by eapply list_elem_of_lookup_2]. }
  assert (i < length (similarity_of df))%nat as Hlt.
  { unfold similarity_of, fit_transform.
    rewrite cosine_similarity_length, !length_fmap. by eapply lookup_lt_Some. }
  apply lookup_lt_is_Some in Hlt as [row Hrow].
  destruct (mapM_py_Return (recommendation df (LanguagesList user))
              (ranked row i top_n)) as (recs & Hrecs & HF).
  { intros [j v] [_ Hj]%elem_of_ranked.
    assert (j < length df)%nat as Hjl.
    { apply lookup_lt_Some in Hj. by rewrite (similarity_row_length df i) in Hj. }
    apply lookup_lt_is_Some in Hjl as [rj Hrj].
    unfold recommendation, getitem. simpl. rewrite Hrj. simpl. eauto. }
  exists row, recs. split_and!; try done.
  unfold get_recommendations. rewrite decide_True by done.
  assert (getitem ((filter (fun ir => Login (snd ir) = PStr username) (enumerate df)).*1)
            0%nat = Return i) as ->.
  { unfold getitem. rewrite list_lookup_fmap.
    rewrite (filter_enumerate_find (fun r => Login r = PStr username) df i user Hfind).
    done. }
  simpl. fold (similarity_of df). unfold getitem. rewrite Hrow, Hi. simpl.
  fold (ranked row i top_n). by rewrite Hrecs.
Qed.

Lemma Forall2_strengthen {A B} (P Q : A -> B -> Prop) (S : A -> Prop) l k :
  Forall2 P l k -> Forall S l -> (forall a b, P a b -> S a -> Q a b) -> Forall2 Q l k.
Proof.
  intros HF. induction HF as [|a b l k Hab HF IH]; intros HS Himp; [constructor|].
  apply Forall_cons in HS as [Ha HS]. constructor; [by apply Himp|by apply IH].
Qed.

(** The whole of [get_recommendations] on a frame that holds the target:
    the positions it reports, and the entry it builds for each. *)
Lemma get_recommendations_run df username top_n i user :
  list_find (fun r => Login r = PStr username) df = Some (i, user) ->
  exists (sel : list (nat * R)) recs,
    get_recommendations df username top_n = Return (Some recs) /\
    StronglySorted ranks_before sel /\
    NoDup sel.*1 /\
    Forall2 (fun p r =>
      fst p ≠ i /\
      exists rec_user, df !! fst p = Some rec_user /\
        snd p = overlap (LanguagesList user) (LanguagesList rec_user) /\
        r = {| rec_Login := Login rec_user;
               rec_Profile_URL := Profile_URL rec_user;
               Common_Languages :=
                 join ", " (common_langs (LanguagesList user) (LanguagesList rec_user));
               Similarity_Score := round (snd p) 3;
               Avatar := Avatar_URL rec_user |}) sel recs.
Proof.
  intros Hfind. pose proof Hfind as (Hi & Hu & _)%list_find_Some.
  destruct (get_recommendations_at df username top_n i user Hfind)
    as (row & recs & Hrow & Hrun & HF).
  exists (ranked row i top_n), recs. split_and!; [done|apply ranked_ranks|apply ranked_NoDup|].
  assert (Forall (fun p => fst p ≠ i /\ row !! fst p = Some (snd p)) (ranked row i top_n))
    as Hsel.
  { apply Forall_forall. intros [idx v] Hp. by apply elem_of_ranked in Hp. }
  eapply Forall2_strengthen; [exact HF|exact Hsel|]. clear HF Hsel.
  intros [idx v] r Hrec [Hne Hv]. simpl in Hne, Hv. simpl. split; [done|].
  unfold recommendation, getitem in Hrec. simpl in Hrec.
  destruct (df !! idx) as [u|] eqn:Hidx; simpl in Hrec; [|done].
  injection Hrec as <-. exists u. split; [done|].
  destruct (similarity_lookup df i idx user u Hi Hidx) as (row' & Hrow' & Hov).
  rewrite Hrow in Hrow'. injection Hrow' as <-. rewrite Hv in Hov.
  by injection Hov as ->.
Qed.

End Ranking.

Section Analyzer.
Import Scenarios.
Open Scope R_scope.

Lemma indicator_product classes l1 l2 :
  sum (zip_with Z.mul (indicator classes l1) (indicator classes l2))
  = Z.of_nat (length (filter (fun c => c ∈ l1 /\ c ∈ l2) classes)).
Proof.
  assert (forall x l, sum (x :: l) = (x + sum l)%Z) as Hcons by done.
  unfold indicator. induction classes as [|c cs IH]; [done|].
  rewrite !fmap_cons. cbn [zip_with]. rewrite Hcons, IH.
  destruct (decide (c ∈ l1 /\ c ∈ l2)) as [[H1 H2]|Hn].
  - rewrite filter_cons_True by done. rewrite !decide_True by done.
    cbn [length]. lia.
  - rewrite filter_cons_False by done.
    repeat case_decide; try lia. by destruct Hn.
Qed.

(** X3.  The incidence matrix that [get_recommendations] builds has one row
    per row of the frame and one column per language of the frame, each
    language once; an entry is 1 when the user has the language and 0 when
    not; and the product of two rows is the number of languages the two
    users share.  The matrix holds integers: no rounding is involved. *)
Theorem fit_transform_incidence (df : list Row) (i j : nat) (a b : Row) :
  df !! i = Some a -> df !! j = Some b ->
  let classes := classes_ (LanguagesList <$> df) in
  NoDup classes /\
  (forall c, c ∈ classes <-> exists r, r ∈ df /\ c ∈ LanguagesList r) /\
  length (fit_transform (LanguagesList <$> df)) = length df /\
  exists row_i row_j,
    fit_transform (LanguagesList <$> df) !! i = Some row_i /\
    fit_transform (LanguagesList <$> df) !! j = Some row_j /\
    length row_i = length classes /\
    (forall k c, classes !! k = Some c ->
       row_i !! k = Some (if decide (c ∈ LanguagesList a) then 1 else 0)%Z) /\
    sum (zip_with Z.mul row_i row_j)
    = Z.of_nat (length (common_langs (LanguagesList a) (LanguagesList b))).
Proof.
  intros Ha Hb classes.
  assert (forall r c, r ∈ df -> c ∈ LanguagesList r -> c ∈ classes) as Hsub.
  { intros r c Hr Hc. apply elem_of_classes. exists (LanguagesList r).
    split; [by apply list_elem_of_fmap_2|done]. }
  split_and!.
  - apply classes_NoDup.
  - intros c. unfold classes. rewrite elem_of_classes. split.
    + intros (labels & (r & -> & Hr)%list_elem_of_fmap & Hc). by exists r.
    + intros (r & Hr & Hc). exists (LanguagesList r).
      split; [by apply list_elem_of_fmap_2|done].
  - unfold fit_transform. by rewrite !length_fmap.
  - exists (indicator classes (LanguagesList a)), (indicator classes (LanguagesList b)).
    unfold fit_transform. rewrite !list_lookup_fmap, Ha, Hb. fold classes.
    split_and!; [done|done|..].
    + unfold indicator. by rewrite length_fmap.
    + intros k c Hk. unfold indicator. by rewrite list_lookup_fmap, Hk.
    + rewrite indicator_product. f_equal. apply shared_classes_length.
      * apply classes_NoDup.
      * intros c Hc. apply (Hsub a); [by eapply list_elem_of_lookup_2|done].
Qed.

Lemma fit_transform_incidence_trio :
  exists row_i row_j,
    fit_transform (LanguagesList <$> df_trio) !! 0%nat = Some row_i /\
    fit_transform (LanguagesList <$> df_trio) !! 1%nat = Some row_j /\
    sum (zip_with Z.mul row_i row_j) = 3%Z.
Proof.
  destruct (fit_transform_incidence df_trio 0 1 _ _ eq_refl eq_refl)
    as (_ & _ & _ & row_i & row_j & Hi & Hj & _ & _ & Hdot).
  exists row_i, row_j. split_and!; [exact Hi|exact Hj|].
  rewrite Hdot. reflexivity.
Defined.

(** X6.  When every row of the frame has the target's languages (at least
    one), every returned score is 1. *)
Theorem get_recommendations_same_languages (df : list Row) (username : string)
    (top_n : Z) (user_idx : nat) (user : Row) :
  list_find (fun r => Login r = PStr username) df = Some (user_idx, user) ->
  LanguagesList user ≠ [] ->
  Forall (same_languages user) df ->
  exists recs,
    get_recommendations df username top_n = Return (Some recs) /\
    Forall (fun r => Similarity_Score r = 1) recs.
Proof.
  intros Hfind Hne Hsame.
  destruct (get_recommendations_run df username top_n user_idx user Hfind)
    as (sel & recs & Hrun & _ & _ & HF).
  exists recs. split; [done|].
  apply Forall_forall. intros r Hr.
  destruct (Forall2_elem_of_r _ _ _ _ HF Hr) as ([idx v] & _ & _ & u & Hu & Hv & ->).
  simpl in *. subst v. rewrite overlap_same; [apply round3_one|done|].
  rewrite Forall_forall in Hsame. apply Hsame. by eapply list_elem_of_lookup_2.
Qed.

Lemma get_recommendations_same_languages_crowd :
  exists recs,
    get_recommendations df_crowd "A" top_n_default = Return (Some recs) /\
    Forall (fun r => Similarity_Score r = 1) recs.
Proof.
  apply (get_recommendations_same_languages df_crowd "A" top_n_default 0
           (row_of "A" ["Python"])).
  - reflexivity.
  - discriminate.
  - apply Forall_forall. intros r Hr.
    unfold df_crowd in Hr. apply list_elem_of_fmap in Hr as (n & -> & _).
    intros l. reflexivity.
Defined.

(** X7.  Every returned entry copies the login, profile URL and avatar of
    one row of the frame other than the target's; its common languages are
    the languages that both the target and that row have, each once; and
    no row is reported twice, so distinct logins in the frame give distinct
    logins in the result. *)
Theorem get_recommendations_entries (df : list Row) (username : string) (top_n : Z)
    (user_idx : nat) (user : Row) :
  list_find (fun r => Login r = PStr username) df = Some (user_idx, user) ->
  exists recs,
    get_recommendations df username top_n = Return (Some recs) /\
    Forall (fun r => exists idx rec_user langs,
      idx ≠ user_idx /\ df !! idx = Some rec_user /\
      rec_Login r = Login rec_user /\
      rec_Profile_URL r = Profile_URL rec_user /\
      Avatar r = Avatar_URL rec_user /\
      Common_Languages r = join ", " langs /\ NoDup langs /\
      forall l, l ∈ langs <-> l ∈ LanguagesList user /\ l ∈ LanguagesList rec_user) recs /\
    (NoDup (Login <$> df) -> NoDup (rec_Login <$> recs)).
Proof.
  intros Hfind.
  destruct (get_recommendations_run df username top_n user_idx user Hfind)
    as (sel & recs & Hrun & _ & Hnd & HF).
  exists recs. split_and!; [done|..].
  - apply Forall_forall. intros r Hr.
    destruct (Forall2_elem_of_r _ _ _ _ HF Hr) as ([idx v] & _ & Hne & u & Hu & Hv & ->).
    simpl in *. exists idx, u, (common_langs (LanguagesList user) (LanguagesList u)).
    split_and!; try done; [apply common_langs_NoDup|apply elem_of_common_langs].
  - intros Hlogins. clear Hrun.
    induction HF as [|p r sel recs' Hp HF IH]; [constructor|].
    rewrite fmap_cons in Hnd. apply NoDup_cons in Hnd as [Hp1 Hnd].
    rewrite fmap_cons. constructor; [|by apply IH].
    intros (r' & Hr' & Hin)%list_elem_of_fmap.
    destruct (Forall2_elem_of_r _ _ _ _ HF Hin) as (q & Hq & _ & u' & Hu' & _ & ->).
    destruct Hp as (_ & u & Hu & _ & ->). simpl in Hr'.
    assert (fst p = fst q) as E.
    { eapply NoDup_lookup; [exact Hlogins|..].
      - rewrite list_lookup_fmap, Hu. done.
      - rewrite list_lookup_fmap, Hu'. simpl. by rewrite Hr'. }
    apply Hp1. rewrite E. apply list_elem_of_fmap. by exists q.
Qed.

Lemma get_recommendations_entries_pair :
  exists recs,
    get_recommendations df_pair "alice" top_n_default = Return (Some recs) /\
    NoDup (rec_Login <$> recs).
Proof.
  destruct (get_recommendations_entries df_pair "alice" top_n_default 0
              (row_of "alice" ["Python"; "C"]) eq_refl) as (recs & Hrun & _ & Hnd).
  exists recs. split; [done|]. apply Hnd.
  apply (bool_decide_unpack _). vm_compute. exact I.
Defined.

Lemma get_recommendations_negative_top_n_crowd :
  exists recs,
    get_recommendations df_crowd "A" (-1) = Return (Some recs) /\
    length recs = 49%nat.
Proof.
  assert (PStr "A" ∈ Login <$> df_crowd) as Hin by (vm_compute; left).
  destruct (get_recommendations_negative_top_n df_crowd "A" (-1) Hin) as (recs & Hrun & Hlen);
    [lia|].
  exists recs. split; [done|]. rewrite Hlen. reflexivity.
Defined.

End Analyzer.

(** ** The frame: [load_data] and [preprocess_languages] *)

Section Frame.
Import Scenarios.

Lemma preprocess_languages_elem df r :
  r ∈ preprocess_languages df <->
  exists r0, r0 ∈ df /\
    r = {| Login := Login r0; Profile_URL := Profile_URL r0;
           Avatar_URL := Avatar_URL r0; Languages := Languages r0;
           LanguagesList := match Languages r0 with
                            | PCounts x => (map_to_list x).*1
                            | _ => []
                            end |} /\
    exists x, Languages r0 = PCounts x /\ x ≠ ∅.
Proof.
  unfold preprocess_languages. rewrite list_elem_of_filter, list_elem_of_fmap.
  split.
  - intros (Hlen & r0 & -> & Hin). exists r0. split_and!; [done|done|].
    simpl in Hlen. destruct (Languages r0) as [| | | |x]; simpl in Hlen; try lia.
    exists x. split; [done|]. intros ->. rewrite map_to_list_empty in Hlen.
    simpl in Hlen. lia.
  - intros (r0 & Hin & -> & x & Hx & Hne). split; [|by exists r0].
    simpl. rewrite Hx. rewrite length_fmap.
    destruct (map_to_list x) as [|kv l] eqn:E; [|simpl; lia].
    by apply map_to_list_empty_iff in E.
Qed.

Lemma DataFrame_elem data r0 :
  r0 ∈ DataFrame data <->
  exists doc, doc ∈ data /\
    r0 = {| Login := default PNone (doc !! "Login");
            Profile_URL := default PNone (doc !! "Profile URL");
            Avatar_URL := default PNone (doc !! "Avatar URL");
            Languages := default PNone (doc !! "Languages");
            LanguagesList := [] |}.
Proof.
  unfold DataFrame. rewrite list_elem_of_fmap.
  split; intros (doc & H1 & H2); by exists doc.
Qed.

Lemma load_data_run st :
  load_data st = (preprocess_languages (DataFrame (collection st)), st).
Proof.
  unfold load_data, find, mbind, M_bind, mret, M_ret.
  by destruct (collection st).
Qed.

(** The logins of the frame: those of the documents that have a language. *)
Lemma load_data_logins st u :
  PStr u ∈ Login <$> (load_data st).1 <->
  exists doc x, doc ∈ collection st /\ doc !! "Login" = Some (PStr u) /\
    doc !! "Languages" = Some (PCounts x) /\ x ≠ ∅.
Proof.
  rewrite load_data_run. cbn [fst]. rewrite list_elem_of_fmap. split.
  - intros (r & Hu & (r0 & (doc & Hdoc & ->)%DataFrame_elem & -> & x & Hx & Hne)
              %preprocess_languages_elem).
    simpl in Hu, Hx. exists doc, x. split_and!; try done.
    + destruct (doc !! "Login") as [v|]; simpl in Hu; [by subst v|done].
    + destruct (doc !! "Languages") as [v|]; simpl in Hx; [by subst v|done].
  - intros (doc & x & Hdoc & HL & Hx & Hne).
    eexists. split; [|apply preprocess_languages_elem; eexists; split_and!;
      [apply DataFrame_elem; by exists doc|reflexivity|]].
    + simpl. by rewrite HL.
    + simpl. rewrite Hx. by exists x.
Qed.

Lemma elem_of_columns data k :
  k ∈ columns data <-> exists doc, doc ∈ data /\ is_Some (doc !! k).
Proof.
  unfold columns. rewrite elem_of_union_list. split.
  - intros (X & (doc & -> & Hdoc)%list_elem_of_fmap & Hk). exists doc.
    split; [done|]. by apply elem_of_dom.
  - intros (doc & Hdoc & Hk). exists (dom doc). split; [|by apply elem_of_dom].
    apply list_elem_of_fmap. by exists doc.
Qed.

Lemma load_frame_run st :
  load_frame st =
  (match collection st with
   | [] => Some (∅, (load_data st).1)
   | _ => if decide ("Languages" ∈ columns (collection st))
          then Some (columns (collection st) ∪ {["LanguagesList"]}, (load_data st).1)
          else None
   end, st).
Proof.
  unfold load_frame, load_data, find, mbind, M_bind, mret, M_ret.
  destruct st as [t evs docs]. cbn [collection fst snd].
  destruct docs as [|doc docs]; [done|]. by case_decide.
Qed.

End Frame.

Section FrameProperties.
Import Scenarios.

Lemma sublist_filter_fmap {A B} (f : A -> A) (g : A -> B) (P : A -> Prop)
    `{!forall x, Decision (P x)} (l : list A) :
  (forall x, g (f x) = g x) -> g <$> filter P (f <$> l) `sublist_of` g <$> l.
Proof.
  intros Hg. induction l as [|x l IH]; [done|].
  rewrite !fmap_cons. destruct (decide (P (f x))).
  - rewrite filter_cons_True by done. rewrite fmap_cons, Hg. by apply sublist_skip.
  - rewrite filter_cons_False by done. by apply sublist_cons.
Qed.

(** X1.  [preprocess_languages] keeps, in their order, exactly the rows
    whose [Languages] cell is a mapping with at least one key; the language
    list of a row it keeps holds the keys of that mapping, each once.
    Applying it to its own result changes nothing. *)
Theorem preprocess_languages_keeps (df : list Row) :
  Forall (fun r => exists x,
            Languages r = PCounts x /\ x ≠ ∅ /\
            NoDup (LanguagesList r) /\
            forall l, l ∈ LanguagesList r <-> is_Some (x !! l))
    (preprocess_languages df) /\
  Login <$> preprocess_languages df `sublist_of` Login <$> df /\
  (forall r x, r ∈ df -> Languages r = PCounts x -> x ≠ ∅ ->
     Login r ∈ Login <$> preprocess_languages df) /\
  preprocess_languages (preprocess_languages df) = preprocess_languages df.
Proof.
  split_and!.
  - apply Forall_forall. intros r (r0 & _ & -> & x & Hx & Hne)%preprocess_languages_elem.
    exists x. cbn [Languages LanguagesList]. rewrite Hx. split_and!; [done|done|..].
    + apply NoDup_fst_map_to_list.
    + intros l. rewrite list_elem_of_fmap. split.
      * intros ([k v] & -> & Hkv%elem_of_map_to_list). by exists v.
      * intros [v Hv]. exists (l, v). split; [done|by apply elem_of_map_to_list].
  - unfold preprocess_languages. by apply sublist_filter_fmap.
  - intros r x Hr Hx Hne. apply list_elem_of_fmap. eexists. split;
      [|apply preprocess_languages_elem; exists r; split_and!; [done|reflexivity|by exists x]].
    done.
  - set (out := preprocess_languages df).
    assert (Forall (fun r => exists r0 x, Languages r0 = PCounts x /\ x ≠ ∅ /\
              r = {| Login := Login r0; Profile_URL := Profile_URL r0;
                     Avatar_URL := Avatar_URL r0; Languages := Languages r0;
                     LanguagesList := (map_to_list x).*1 |}) out) as Hout.
    { apply Forall_forall.
      intros r (r0 & _ & -> & x & Hx & Hne)%preprocess_languages_elem.
      exists r0, x. by rewrite Hx. }
    clearbody out. unfold preprocess_languages.
    induction Hout as [|r out (r0 & x & Hx & Hne & ->) Hout IH]; [done|].
    rewrite fmap_cons. cbn [Login Profile_URL Avatar_URL Languages]. rewrite Hx.
    rewrite filter_cons_True.
    + by rewrite IH.
    + cbn [LanguagesList]. rewrite length_fmap.
      destruct (map_to_list x) as [|kv l] eqn:E; [|simpl; lia].
      by apply map_to_list_empty_iff in E.
Qed.

(** X2.  Loading the frame sends no request and writes nothing.  It raises
    [KeyError] exactly when documents are stored and none of them has a
    [Languages] field: it raises in that case and in no other.  When it
    does not raise, a login is in the frame exactly when a stored document
    carries it together with a mapping of at least one language. *)
Theorem load_frame_reads (st : State) :
  (load_frame st).2 = st /\
  ((load_frame st).1 = None <->
     collection st ≠ [] /\
     Forall (fun doc => doc !! "Languages" = None) (collection st)) /\
  (forall cols df, (load_frame st).1 = Some (cols, df) ->
     df = (load_data st).1 /\
     (collection st = [] -> cols = ∅ /\ df = []) /\
     forall u, PStr u ∈ Login <$> df <->
       exists doc x, doc ∈ collection st /\ doc !! "Login" = Some (PStr u) /\
         doc !! "Languages" = Some (PCounts x) /\ x ≠ ∅).
Proof.
  rewrite load_frame_run. cbn [fst snd]. split; [done|].
  destruct (collection st) as [|d0 ds] eqn:Hc.
  - split.
    + split; [done|]. by intros [? _].
    + intros cols df [= <- <-]. split_and!; [done| |].
      * intros _. split; [done|]. rewrite load_data_run, Hc. done.
      * intros u. rewrite load_data_logins, Hc. done.
  - rewrite <- Hc. case_decide as Hl.
    + split.
      * split; [done|]. intros [_ Hall]. exfalso.
        apply elem_of_columns in Hl as (doc & Hdoc & [v Hv]).
        rewrite Forall_forall in Hall. by rewrite (Hall doc Hdoc) in Hv.
      * intros cols df [= <- <-]. split_and!; [done|by rewrite Hc|].
        intros u. apply load_data_logins.
    + split; [|done]. split; [|done]. intros _.
      split; [by rewrite Hc|]. apply Forall_forall. intros doc Hdoc.
      destruct (doc !! "Languages") as [v|] eqn:E; [|done].
      exfalso. apply Hl, elem_of_columns. exists doc. split; [done|by rewrite E].
Qed.

End FrameProperties.

(** ** [fetch_and_store_user] against a steady server *)

Section Steady.
Import Scenarios.

Lemma get_json_steady {A} (api : nat -> string -> Response A) url st :
  (forall t, api t url = api 0%nat url) ->
  (get_json api url st).1 = checked (api 0%nat url).
Proof.
  intros Hs.
  destruct (decide (status_code (api (clock st) url) = 403%Z)) as [E|E].
  - destruct (get_json_403 api url st E) as [-> _]. by rewrite Hs.
  - destruct (get_json_not_403 api url st E) as [-> _]. by rewrite Hs.
Qed.

Lemma get_json_serves {A} (api : nat -> string -> Response A) url body st :
  serves api url body ->
  (get_json api url st).1 = Return body /\
  steps st (get_json api url st).2 [Request url].
Proof.
  intros Hs. destruct (Hs (clock st)) as [H200 Hb].
  destruct (get_json_not_403 api url st) as [-> Hst]; [rewrite H200; lia|].
  split; [|done]. unfold checked. rewrite decide_False by (rewrite H200; lia).
  by rewrite Hb.
Qed.

Lemma get_list_steady github url st st' :
  steady github -> (get_list github url st).1 = (get_list github url st').1.
Proof.
  intros Hs. unfold get_list. rewrite !M_bind_unfold.
  rewrite !get_json_steady by (intros t; apply Hs).
  by destruct (checked _).
Qed.

Lemma get_starred_or_subs_steady github url st st' :
  steady github ->
  (get_starred_or_subs github url st).1 = (get_starred_or_subs github url st').1.
Proof.
  intros Hs. unfold get_starred_or_subs. rewrite !M_bind_unfold.
  rewrite !get_json_steady by (intros t; apply Hs).
  by destruct (checked _).
Qed.

Lemma get_languages_loop_steady github repos language_data st st' :
  steady github ->
  (get_languages_loop github repos language_data st).1
  = (get_languages_loop github repos language_data st').1.
Proof.
  intros Hs. revert language_data st st'.
  induction repos as [|repo repos IH]; intros language_data st st'; [done|].
  simpl. rewrite !M_bind_unfold.
  rewrite !get_json_steady by (intros t; apply Hs).
  destruct (checked _); [apply IH|done].
Qed.

Lemma get_languages_steady github username st st' :
  steady github ->
  (get_languages github username st).1 = (get_languages github username st').1.
Proof.
  intros Hs. unfold get_languages. rewrite !M_bind_unfold.
  rewrite !get_json_steady by (intros t; apply Hs).
  destruct (checked _); [|done]. rewrite !M_bind_unfold.
  match goal with |- context [get_languages_loop github ?r ∅ ?s1] =>
    match goal with |- context [(get_languages_loop github r ∅ ?s2).1] =>
      rewrite (get_languages_loop_steady github r ∅ s1 s2 Hs) end end.
  by destruct (get_languages_loop _ _ _ _).1.
Qed.

Lemma get_total_commits_loop_steady github repos total st st' :
  steady github ->
  (get_total_commits_loop github repos total st).1
  = (get_total_commits_loop github repos total st').1.
Proof.
  intros Hs. revert total st st'.
  induction repos as [|repo repos IH]; intros total st st'; [done|].
  simpl. destruct (repo_fork repo); [apply IH|].
  rewrite !M_bind_unfold, !requests_get_response.
  destruct (Hs (clock st) (replace "{/sha}" "" (repo_commits_url repo) ++ "?per_page=1"))
    as (_ & _ & _ & _ & ->).
  destruct (Hs (clock st') (replace "{/sha}" "" (repo_commits_url repo) ++ "?per_page=1"))
    as (_ & _ & _ & _ & ->).
  case_decide; apply IH.
Qed.

Lemma get_total_commits_steady github username st st' :
  steady github ->
  (get_total_commits github username st).1 = (get_total_commits github username st').1.
Proof.
  intros Hs. unfold get_total_commits. rewrite !M_bind_unfold.
  rewrite !get_json_steady by (intros t; apply Hs).
  destruct (checked _); [|done]. by apply get_total_commits_loop_steady.
Qed.

(** Against a steady server the record does not depend on when it is
    fetched. *)
Lemma fetch_and_store_user_steady github username st st' :
  steady github ->
  (fetch_and_store_user github username st).1
  = (fetch_and_store_user github username st').1.
Proof.
  intros Hs.
  pose proof (get_json_steady (users_api github)
                ("https://api.github.com/users/" ++ username) st
                (fun t => proj1 (Hs t _))) as E.
  pose proof (get_json_steady (users_api github)
                ("https://api.github.com/users/" ++ username) st'
                (fun t => proj1 (Hs t _))) as E'.
  destruct (checked _) as [user|e] eqn:Hc.
  - destruct (fetch_and_store_user_run github username st user E) as [-> _].
    destruct (fetch_and_store_user_run github username st' user E') as [-> _].
    cbn [fst]. f_equal.
    repeat match goal with
    | |- context [(get_list github ?u ?s).1] =>
        lazymatch s with st => fail | _ =>
          rewrite (get_list_steady github u s st Hs) end
    | |- context [(get_starred_or_subs github ?u ?s).1] =>
        lazymatch s with st => fail | _ =>
          rewrite (get_starred_or_subs_steady github u s st Hs) end
    | |- context [(get_languages github ?u ?s).1] =>
        lazymatch s with st => fail | _ =>
          rewrite (get_languages_steady github u s st Hs) end
    | |- context [(get_total_commits github ?u ?s).1] =>
        lazymatch s with st => fail | _ =>
          rewrite (get_total_commits_steady github u s st Hs) end
    end.
    done.
  - rewrite (fetch_and_store_user_fails github username st e E).
    by rewrite (fetch_and_store_user_fails github username st' e E').
Qed.

End Steady.

Section Upsert.
Import Scenarios.

Lemma record_login user l1 l2 l3 l4 l5 langs total :
  Recommendation_dashboard.user_record user l1 l2 l3 l4 l5 langs total !! "Login"
  = Some (of_opt_str (user_login user)).
Proof. reflexivity. Qed.

Lemma record_languages user l1 l2 l3 l4 l5 langs total :
  Recommendation_dashboard.user_record user l1 l2 l3 l4 l5 langs total !! "Languages"
  = Some (PCounts langs).
Proof. reflexivity. Qed.

Lemma set_fields_absorb (data : gmap string pyval) k v :
  is_Some (data !! k) -> set_fields data {[k := v]} = data.
Proof.
  intros [w Hw]. unfold set_fields. apply map_eq. intros k'.
  rewrite lookup_union. destruct (decide (k' = k)) as [->|Hne].
  - rewrite Hw, lookup_singleton_eq. done.
  - rewrite lookup_singleton_ne by done. by destruct (data !! k').
Qed.

Lemma set_fields_twice (data doc : gmap string pyval) :
  set_fields data (set_fields data doc) = set_fields data doc.
Proof.
  unfold set_fields. apply map_eq. intros k. rewrite !lookup_union.
  by destruct (data !! k), (doc !! k).
Qed.

Lemma upsert_found username data docs i doc :
  list_find (has_login username) docs = Some (i, doc) ->
  upsert username data docs = <[i := set_fields data doc]> docs.
Proof. intros H. unfold upsert. by rewrite (update_first_found _ _ _ _ _ H). Qed.

Lemma upsert_missing username data docs :
  list_find (has_login username) docs = None ->
  upsert username data docs = (docs ++ [set_fields data {["Login" := PStr username]}])%list.
Proof. intros H. unfold upsert. by rewrite (update_first_missing _ _ _ H). Qed.

(** Storing again a record that carries the login it is filed under
    changes nothing. *)
Lemma upsert_twice username data docs :
  data !! "Login" = Some (PStr username) ->
  upsert username data (upsert username data docs) = upsert username data docs.
Proof.
  intros HL.
  destruct (list_find (has_login username) docs) as [[i doc]|] eqn:Hf.
  - rewrite (upsert_found _ _ _ _ _ Hf).
    pose proof Hf as (Hi & Hdoc & Hbefore)%list_find_Some.
    assert (list_find (has_login username) (<[i := set_fields data doc]> docs)
            = Some (i, set_fields data doc)) as Hf'.
    { apply list_find_Some. split_and!.
      - apply list_lookup_insert_eq. by eapply lookup_lt_Some.
      - unfold has_login. rewrite set_fields_lookup. by rewrite HL.
      - intros j y Hj Hlt. rewrite list_lookup_insert_ne in Hj by lia.
        by eapply Hbefore. }
    rewrite (upsert_found _ _ _ _ _ Hf').
    by rewrite list_insert_insert_eq, set_fields_twice.
  - rewrite (upsert_missing _ _ _ Hf).
    rewrite set_fields_absorb by (by rewrite HL).
    pose proof Hf as Hnone%list_find_None.
    assert (list_find (has_login username) (docs ++ [data]) = Some (length docs, data))
      as Hf'.
    { apply list_find_Some. split_and!.
      - by rewrite lookup_app_r, Nat.sub_diag by lia.
      - done.
      - intros j y Hj Hlt. rewrite lookup_app_l in Hj by done.
        rewrite Forall_forall in Hnone. apply Hnone. by eapply list_elem_of_lookup_2. }
    rewrite (upsert_found _ _ _ _ _ Hf').
    rewrite insert_app_r_alt, Nat.sub_diag by lia. simpl.
    f_equal. f_equal. unfold set_fields. apply map_union_idemp.
Qed.

End Upsert.

Section Refetch.
Import Scenarios.

Lemma fetch_effect_on_store_aux github username st :
  collection (fetch_and_store_user github username st).2 =
    match (fetch_and_store_user github username st).1 with
    | Some data => upsert username data (collection st)
    | None => collection st
    end.
Proof.
  destruct (get_json (users_api github) ("https://api.github.com/users/" ++ username) st).1
    as [user|e] eqn:E.
  - destruct (fetch_and_store_user_run github username st user E) as [-> Hc].
    cbn [fst snd collection]. by rewrite Hc.
  - rewrite (fetch_and_store_user_fails github username st e E). cbn [fst snd].
    destruct (get_json_steps (users_api github)
                ("https://api.github.com/users/" ++ username) st) as (evs & _ & _ & Hc).
    done.
Qed.

(** X12.  Fetching the same user again from a server whose answers have not
    changed stores nothing new: when GitHub's login is the name that was
    typed, the second call returns the same record and leaves the
    collection as the first call left it. *)
Theorem fetch_and_store_user_idempotent (github : Server) (username : string)
    (st : State) (user : user_json) :
  steady github ->
  (get_json (users_api github) ("https://api.github.com/users/" ++ username) st).1
    = Return user ->
  user_login user = Some username ->
  let first := fetch_and_store_user github username st in
  let second := fetch_and_store_user github username first.2 in
  second.1 = first.1 /\ collection second.2 = collection first.2.
Proof.
  intros Hs Hu HL first second.
  assert (second.1 = first.1) as E1 by (by apply fetch_and_store_user_steady).
  split; [done|].
  pose proof (fetch_effect_on_store_aux github username st) as Hc1.
  pose proof (fetch_effect_on_store_aux github username first.2) as Hc2.
  fold first in Hc1. fold second in Hc2. rewrite E1 in Hc2.
  destruct (fetch_and_store_user_run github username st user Hu) as [Hrun _].
  fold first in Hrun.
  destruct first.1 as [data|] eqn:Hd; [|by rewrite Hrun in Hd].
  rewrite Hc2, Hc1. apply upsert_twice.
  rewrite Hrun in Hd. cbn [fst] in Hd. injection Hd as <-.
  by rewrite record_login, HL.
Qed.

Lemma steady_octocat : steady github_octocat.
Proof. intros t url. by split_and!. Qed.

Lemma fetch_and_store_user_idempotent_octocat :
  let first := fetch_and_store_user github_octocat "octocat" (boot []) in
  let second := fetch_and_store_user github_octocat "octocat" first.2 in
  second.1 = first.1 /\ collection second.2 = collection first.2.
Proof.
  apply (fetch_and_store_user_idempotent github_octocat "octocat" (boot []) octocat).
  - apply steady_octocat.
  - reflexivity.
  - reflexivity.
Defined.

(** X13.  The upsert looks for the name as it was typed but stores the login
    as GitHub spells it.  When the two differ and no stored document
    carries the typed name, the call appends the record as a new document,
    and still no document carries the typed name afterwards: every further
    call appends once more. *)
Theorem fetch_and_store_user_respelled (github : Server) (username : string)
    (st : State) (user : user_json) :
  (get_json (users_api github) ("https://api.github.com/users/" ++ username) st).1
    = Return user ->
  user_login user ≠ Some username ->
  list_find (has_login username) (collection st) = None ->
  exists data st',
    fetch_and_store_user github username st = (Some data, st') /\
    data !! "Login" = Some (of_opt_str (user_login user)) /\
    collection st' = (collection st ++ [data])%list /\
    list_find (has_login username) (collection st') = None.
Proof.
  intros Hu HL Hnone.
  destruct (fetch_and_store_user_run github username st user Hu) as [Hrun Hc].
  eexists _, _. split; [exact Hrun|].
  cbn [collection]. rewrite Hc.
  rewrite (upsert_missing _ _ _ Hnone).
  rewrite set_fields_absorb by (rewrite record_login; by eexists).
  split_and!; [apply record_login|done|].
  apply list_find_None, Forall_app. split; [by apply list_find_None in Hnone|].
  apply Forall_singleton. unfold has_login. rewrite record_login.
  intros [= E]. apply HL. destruct (user_login user); by simplify_eq/=.
Qed.

Lemma fetch_and_store_user_respelled_octocat :
  exists data st',
    fetch_and_store_user github_octocat "Octocat" (boot []) = (Some data, st') /\
    data !! "Login" = Some (PStr "octocat") /\
    collection st' = [data].
Proof.
  destruct (fetch_and_store_user_respelled github_octocat "Octocat" (boot []) octocat)
    as (data & st' & Hrun & HL & Hc & _).
  - reflexivity.
  - discriminate.
  - reflexivity.
  - by exists data, st'.
Defined.

Lemma get_languages_loop_fails github repos language_data st repo :
  repo ∈ repos -> down (languages_api github) (repo_languages_url repo) ->
  exists e, (get_languages_loop github repos language_data st).1 = Raise e.
Proof.
  intros Hin Hd. revert language_data st.
  induction repos as [|r repos IH]; intros language_data st;
    [by apply elem_of_nil in Hin|].
  simpl. rewrite M_bind_unfold.
  destruct (get_json (languages_api github) (repo_languages_url r) st).1
    as [langs|e] eqn:E; [|by exists e].
  apply elem_of_cons in Hin as [-> | Hin].
  - destruct (get_json_down (languages_api github) _ st Hd) as [e He]. congruence.
  - by apply IH.
Qed.

(** X9.  The languages are all or nothing: when the language breakdown of
    one repository of the listing cannot be fetched, the mapping comes back
    empty, whatever the other repositories answered. *)
Theorem get_languages_all_or_nothing (github : Server) (username : string)
    (st : State) (repos : list repo_json) (repo : repo_json) :
  (get_json (repos_api github)
     ("https://api.github.com/users/" ++ username ++ "/repos") st).1 = Return repos ->
  repo ∈ repos ->
  down (languages_api github) (repo_languages_url repo) ->
  (get_languages github username st).1 = ∅.
Proof.
  intros Hrepos Hin Hd. unfold get_languages. rewrite M_bind_unfold, Hrepos.
  rewrite M_bind_unfold.
  match goal with |- context [get_languages_loop github repos ∅ ?s] =>
    destruct (get_languages_loop_fails github repos ∅ s repo Hin Hd) as [e ->] end.
  done.
Qed.

End Refetch.

(** ** Language totals and commit requests *)

Section Tally.

Lemma add_languages_lookup items (d : gmap string Z) lang :
  add_languages items d !! lang =
  if decide (lang ∈ items.*1)
  then Some (get0 d lang + sum ((filter (fun lc : string * Z => lc.1 = lang) items).*2))%Z
  else d !! lang.
Proof.
  revert d. induction items as [|[l c] items IH]; intros d.
  - destruct (decide _) as [Hin|_]; [by apply elem_of_nil in Hin|done].
  - unfold add_languages in *. cbn [foldl]. rewrite IH. cbn [fst snd fmap list_fmap].
    destruct (decide (l = lang)) as [->|Hne].
    + rewrite filter_cons_True by done. cbn [fmap list_fmap snd sum foldr].
      rewrite (decide_True (P := lang ∈ lang :: _)) by (by left).
      unfold get0 at 1 3. rewrite !lookup_insert_eq. cbn [default].
      unfold Datatypes.id, get0, sum. case_decide as Hin; f_equal; [lia|].
      assert (filter (fun lc : string * Z => lc.1 = lang) items = []) as ->; [|destruct (d !! lang); simpl; lia].
      destruct (filter _ items) as [|[l' c'] k] eqn:Ef; [done|]. exfalso.
      assert ((l', c') ∈ filter (fun lc : string * Z => lc.1 = lang) items) as Hf
        by (rewrite Ef; left).
      apply list_elem_of_filter in Hf as [E Hi]. simpl in E. subst l'.
      apply Hin, list_elem_of_fmap. by exists (lang, c').
    + rewrite filter_cons_False by done.
      unfold get0 at 1. rewrite !lookup_insert_ne by done. fold (get0 d lang).
      destruct (decide (lang ∈ items.*1)) as [Hin|Hout].
      * rewrite decide_True by (by right). done.
      * rewrite decide_False; [done|]. intros [?|?]%elem_of_cons; congruence.
Qed.

Lemma add_languages_app l1 l2 (d : gmap string Z) :
  add_languages (l1 ++ l2) d = add_languages l2 (add_languages l1 d).
Proof. unfold add_languages. apply foldl_app. Qed.

End Tally.

Section Languages.
Import Scenarios.

Lemma get_languages_all_or_nothing_half :
  (get_languages github_half "octocat" (boot [])).1 = ∅.
Proof.
  apply (get_languages_all_or_nothing github_half "octocat" (boot [])
           [repo_of (Some "hello") "Python" false; repo_of (Some "spoon") "C" false]
           (repo_of (Some "spoon") "C" false)).
  - reflexivity.
  - right. left.
  - intros t. vm_compute. split; [discriminate|reflexivity].
Defined.

Lemma get_languages_loop_serves github repos (langs_of : repo_json -> list (string * Z))
    d st :
  (forall repo, repo ∈ repos ->
     serves (languages_api github) (repo_languages_url repo) (langs_of repo)) ->
  (get_languages_loop github repos d st).1
    = Return (add_languages (repos ≫= langs_of) d) /\
  steps st (get_languages_loop github repos d st).2
    ((fun repo => Request (repo_languages_url repo)) <$> repos).
Proof.
  revert d st. induction repos as [|repo repos IH]; intros d st Hs.
  - split; [done|apply steps_refl].
  - simpl. rewrite M_bind_unfold.
    destruct (get_json_serves (languages_api github) (repo_languages_url repo)
                (langs_of repo) st) as [-> Hst]; [apply Hs; by left|].
    destruct (IH (add_languages (langs_of repo) d)
                (get_json (languages_api github) (repo_languages_url repo) st).2)
      as [-> Hst']; [intros r Hr; apply Hs; by right|].
    split; [by rewrite add_languages_app|].
    eapply (steps_trans _ _ _ [_]); [exact Hst|exact Hst'].
Qed.

(** X10.  When the listing and every language breakdown are served, the
    mapping holds, for each language that occurs in a breakdown, the sum
    of its byte counts over the repositories, and nothing else; it costs
    one request for the listing and one per repository. *)
Theorem get_languages_totals (github : Server) (username : string) (st : State)
    (repos : list repo_json) (langs_of : repo_json -> list (string * Z)) :
  serves (repos_api github)
    ("https://api.github.com/users/" ++ username ++ "/repos") repos ->
  (forall repo, repo ∈ repos ->
     serves (languages_api github) (repo_languages_url repo) (langs_of repo)) ->
  (forall lang,
     (get_languages github username st).1 !! lang =
     if decide (lang ∈ (repos ≫= langs_of).*1)
     then Some (sum ((filter (fun lc : string * Z => lc.1 = lang)
                        (repos ≫= langs_of)).*2))
     else None) /\
  steps st (get_languages github username st).2
    (Request ("https://api.github.com/users/" ++ username ++ "/repos")
     :: ((fun repo => Request (repo_languages_url repo)) <$> repos)).
Proof.
  intros Hrepos Hlangs. unfold get_languages. rewrite M_bind_unfold.
  destruct (get_json_serves (repos_api github) _ repos st Hrepos) as [-> Hst].
  rewrite M_bind_unfold.
  match goal with |- context [get_languages_loop github repos ∅ ?s] =>
    destruct (get_languages_loop_serves github repos langs_of ∅ s Hlangs)
      as [E Hst'] end.
  rewrite E. simpl. split.
  - intros lang. rewrite add_languages_lookup.
    case_decide; [|apply lookup_empty].
    unfold get0. rewrite lookup_empty. done.
  - eapply (steps_trans _ _ _ [_]); [exact Hst|exact Hst'].
Qed.

Lemma get_languages_totals_octocat :
  (get_languages github_octocat "octocat" (boot [])).1 !! "Python" = Some 1200%Z /\
  (get_languages github_octocat "octocat" (boot [])).1 !! "Go" = None.
Proof.
  destruct (get_languages_totals github_octocat "octocat" (boot [])
              [repo_of (Some "hello") "Python" false]
              (fun _ => [("Python", 1200%Z)])) as [Hl _].
  - intros t. split; reflexivity.
  - intros repo _ t. split; reflexivity.
  - split.
    + rewrite (Hl "Python"). reflexivity.
    + rewrite (Hl "Go"). reflexivity.
Defined.

End Languages.

Section Templates.
Import Scenarios.
#[local] Arguments String.append : simpl nomatch.

Lemma replace_template base :
  contains "{" base = false -> replace "{/sha}" "" (base ++ "{/sha}") = base.
Proof.
  intros Hc. unfold replace.
  rewrite <- (append_nil_r "{/sha}") at 2.
  rewrite split_piece; [|done|by apply no_char_free].
  cbn. by rewrite !append_nil_r.
Qed.

(** X11.  [get_total_commits] sends exactly one request per repository that
    is not a fork, in the order of the listing, to the commits URL of the
    repository with the [{/sha}] template removed and [per_page=1]; it
    sends nothing for a fork, never sleeps and leaves the collection
    alone. *)
Theorem get_total_commits_requests (github : Server) (repos : list repo_json)
    (total : Z) (st : State) (base : repo_json -> string) :
  Forall (fun repo => repo_commits_url repo = base repo ++ "{/sha}" /\
                      contains "{" (base repo) = false) repos ->
  steps st (get_total_commits_loop github repos total st).2
    ((fun repo => Request (base repo ++ "?per_page=1")) <$> non_forks repos).
Proof.
  intros Hb. revert total st.
  induction Hb as [|repo repos [Hurl Hfree] Hb IH]; intros total st.
  - apply steps_refl.
  - cbn [get_total_commits_loop]. unfold non_forks in *.
    destruct (repo_fork repo) eqn:Hfork.
    + rewrite filter_cons_False by (rewrite Hfork; done). apply IH.
    + rewrite filter_cons_True by done. rewrite fmap_cons.
      rewrite M_bind_unfold. rewrite Hurl, replace_template by done.
      eapply (steps_trans _ _ _ [_]);
        [apply (requests_get_steps (commits_api github))|].
      case_decide; apply IH.
Qed.

Lemma get_total_commits_requests_busy :
  trace (get_total_commits_loop github_busy
           [repo_of (Some "hello") "Python" false; repo_of (Some "spoon") "C" true]
           0 (boot [])).2
  = [Request "https://api.github.com/repos/octocat/hello/commits?per_page=1"].
Proof.
  destruct (get_total_commits_requests github_busy
              [repo_of (Some "hello") "Python" false; repo_of (Some "spoon") "C" true]
              0 (boot [])
              (fun repo => "https://api.github.com/repos/octocat/"
                           ++ default "" (repo_name repo) ++ "/commits"))
    as (Ht & _ & _).
  - repeat constructor.
  - exact Ht.
Defined.

End Templates.

(** ** The page of [Recommendation_dashboard.py] *)

Section Page.
Import Scenarios.

Lemma upsert_elem username data docs doc :
  doc ∈ upsert username data docs ->
  doc ∈ docs \/ exists old, doc = set_fields data old.
Proof.
  destruct (list_find (has_login username) docs) as [[i old]|] eqn:Hf.
  - rewrite (upsert_found _ _ _ _ _ Hf). intros [j Hj]%list_elem_of_lookup.
    pose proof Hf as (Hi & _ & _)%list_find_Some.
    destruct (decide (j = i)) as [->|Hne].
    + rewrite list_lookup_insert_eq in Hj by (by eapply lookup_lt_Some).
      injection Hj as <-. right. by exists old.
    + rewrite list_lookup_insert_ne in Hj by done.
      left. by eapply list_elem_of_lookup_2.
  - rewrite (upsert_missing _ _ _ Hf). intros [H|H]%elem_of_app; [by left|].
    apply list_elem_of_singleton in H as ->. right. by eexists.
Qed.

Lemma show_absent cols df username :
  PStr username ∉ Login <$> df -> show cols df username = Warning_no_recommendations.
Proof. intros H. unfold show. by rewrite get_recommendations_absent. Qed.

Lemma get_recommendations_length df username top_n :
  PStr username ∈ Login <$> df -> (0 ≤ top_n)%Z ->
  exists recs,
    get_recommendations df username top_n = Return (Some recs) /\
    length recs = (Z.to_nat top_n `min` (length df - 1))%nat.
Proof.
  intros Hin Hn.
  destruct (get_recommendations_present df username top_n Hin)
    as (i & user & row & recs & Hi & Hu & Hrow & Heq & HF).
  exists recs. split; [done|].
  rewrite <- (Forall2_length _ _ _ HF), ranked_length; [|..|done].
  - by rewrite (similarity_row_length _ _ _ Hrow).
  - rewrite (similarity_row_length _ _ _ Hrow). by eapply lookup_lt_Some.
Qed.

(** X14.  On an empty collection every run with a name in the text box ends
    in [KeyError: 'Login'] before any request is sent: the frame built from
    no document has no [Login] column, so the first user can never be
    fetched through this page. *)
Theorem run_on_empty_collection (github : Server) (username : string) (st : State) :
  collection st = [] -> username ≠ "" ->
  run github username st = (KeyError "Login", st).
Proof.
  intros Hc Hu. unfold run. rewrite M_bind_unfold, load_frame_run, Hc. cbn [fst snd].
  rewrite decide_False by done. rewrite decide_False; [done|]. apply not_elem_of_empty.
Qed.

Lemma run_on_empty_collection_octocat :
  run github_octocat "octocat" (boot []) = (KeyError "Login", boot []).
Proof. by apply run_on_empty_collection. Defined.

(** X15.  For a user who is in the frame the page is served from the store
    alone: no request is sent and nothing is written.  It lists between 1
    and 10 recommendations under the first row of that login, warns when
    the user is the only row of the frame, or stops at a column that no
    document has. *)
Theorem run_for_stored_user (github : Server) (username : string) (st : State) :
  username ≠ "" ->
  PStr username ∈ Login <$> (load_data st).1 ->
  (run github username st).2 = st /\
  match (run github username st).1 with
  | Results main_user recommendations =>
      Login main_user = PStr username /\
      (0 < length recommendations ≤ 10)%nat /\
      get_recommendations (load_data st).1 username top_n_default
        = Return (Some recommendations)
  | Warning_no_recommendations => length (load_data st).1 = 1%nat
  | KeyError key => forall doc, doc ∈ collection st -> doc !! key = None
  | _ => False
  end.
Proof.
  intros Hu Hin. pose proof Hin as (doc & x & Hdoc & HL & Hx & Hne)%load_data_logins.
  assert ("Languages" ∈ columns (collection st)) as Hlang.
  { apply elem_of_columns. exists doc. split; [done|by rewrite Hx]. }
  assert ("Login" ∈ columns (collection st)) as Hlogin.
  { apply elem_of_columns. exists doc. split; [done|by rewrite HL]. }
  unfold run. rewrite M_bind_unfold, load_frame_run. cbn [fst snd].
  destruct (collection st) as [|d0 ds] eqn:Hc; [by apply elem_of_nil in Hdoc|].
  rewrite <- Hc in *. rewrite decide_True by done. rewrite decide_False by done.
  rewrite decide_True by (apply elem_of_union; by left).
  rewrite decide_True by done. cbn [mret M_ret fst snd]. split; [done|].
  unfold show.
  destruct (get_recommendations_length (load_data st).1 username top_n_default Hin)
    as (recs & -> & Hlen); [unfold top_n_default; lia|].
  unfold top_n_default in Hlen. change (Z.to_nat 10) with 10%nat in Hlen.
  assert (0 < length (load_data st).1)%nat as Hpos.
  { apply list_elem_of_fmap in Hin as (r & _ & Hr).
    destruct (load_data st).1; [by apply elem_of_nil in Hr|simpl; lia]. }
  destruct recs as [|r recs]; [cbn [length] in Hlen; lia|].
  set (keys := filter _ _).
  destruct keys as [|key keys'] eqn:Hk.
  - destruct (filter (fun r => Login r = PStr username) (load_data st).1)
      as [|main_user rest] eqn:Hm.
    + apply list_elem_of_fmap in Hin as (r0 & Hr0 & Hin).
      assert (r0 ∈ filter (fun r => Login r = PStr username) (load_data st).1) as Hf
        by (by apply list_elem_of_filter).
      rewrite Hm in Hf. by apply elem_of_nil in Hf.
    + assert (main_user ∈ filter (fun r => Login r = PStr username) (load_data st).1)
        as Hf by (rewrite Hm; left).
      apply list_elem_of_filter in Hf as [Hf _].
      split_and!; [done|cbn [length]; lia|rewrite Hlen; lia|done].
  - assert (key ∈ keys) as Hkey by (rewrite Hk; left).
    apply list_elem_of_filter in Hkey as [Hkey _].
    intros doc' Hdoc'. destruct (doc' !! key) as [v|] eqn:E; [|done].
    exfalso. apply Hkey, elem_of_union. left. apply elem_of_columns.
    exists doc'. split; [done|by rewrite E].
Qed.

Lemma run_for_stored_user_alice :
  let st := boot [document_of "alice" [("Python", 10%Z)]; document_of "bob" [("Python", 20%Z)]] in
  (run github_forbidden "alice" st).2 = st.
Proof.
  intros st.
  destruct (run_for_stored_user github_forbidden "alice" st) as [Hst _].
  - discriminate.
  - vm_compute. left.
  - exact Hst.
Defined.

(** X16.  When the name is not in the frame and the profile cannot be
    fetched, the run stops after the failed fetch and the collection is as
    it was. *)
Theorem run_fetch_fails (github : Server) (username : string) (st : State) (e : exn) :
  username ≠ "" ->
  "Login" ∈ columns (collection st) -> "Languages" ∈ columns (collection st) ->
  PStr username ∉ Login <$> (load_data st).1 ->
  (get_json (users_api github) ("https://api.github.com/users/" ++ username) st).1
    = Raise e ->
  (run github username st).1 = Stopped /\
  collection (run github username st).2 = collection st.
Proof.
  intros Hu Hlogin Hlang Hout Hfail.
  unfold run. rewrite M_bind_unfold, load_frame_run. cbn [fst snd].
  destruct (collection st) as [|d0 ds] eqn:Hc.
  { apply elem_of_columns in Hlogin as (doc & Hdoc & _). by apply elem_of_nil in Hdoc. }
  rewrite <- Hc in *. rewrite decide_True by done. rewrite decide_False by done.
  rewrite decide_True by (apply elem_of_union; by left).
  rewrite decide_False by done.
  rewrite M_bind_unfold, (fetch_and_store_user_fails github username st e Hfail).
  cbn [fst snd mret M_ret]. split; [done|].
  by destruct (get_json_steps (users_api github)
                 ("https://api.github.com/users/" ++ username) st) as (evs & _ & _ & ?).
Qed.

Lemma run_fetch_fails_forbidden :
  let st := boot [document_of "alice" [("Python", 10%Z)]] in
  (run github_forbidden "octocat" st).1 = Stopped /\
  collection (run github_forbidden "octocat" st).2 = collection st.
Proof.
  intros st.
  apply (run_fetch_fails github_forbidden "octocat" st (HTTPError 403)).
  - discriminate.
  - apply elem_of_columns. eexists. split; [left|]. by eexists.
  - apply elem_of_columns. eexists. split; [left|]. by eexists.
  - vm_compute. intros H. apply list_elem_of_singleton in H. discriminate.
  - reflexivity.
Defined.

(** X17.  A user fetched live is shown recommendations only when the record
    carries the name as it was typed and at least one language.  Otherwise
    (GitHub spells the login differently, or no language was found) the
    record is stored, and the page warns that no recommendation was found
    or that the user does not exist. *)
Theorem run_fetch_without_match (github : Server) (username : string) (st : State)
    (data : gmap string pyval) (st' : State) :
  username ≠ "" ->
  "Login" ∈ columns (collection st) -> "Languages" ∈ columns (collection st) ->
  PStr username ∉ Login <$> (load_data st).1 ->
  fetch_and_store_user github username st = (Some data, st') ->
  ~ (data !! "Login" = Some (PStr username) /\
     exists x, data !! "Languages" = Some (PCounts x) /\ x ≠ ∅) ->
  run github username st = (Warning_no_recommendations, st') /\
  exists doc, doc ∈ collection st' /\ doc !! "Login" = data !! "Login".
Proof.
  intros Hu Hlogin Hlang Hout Hrun Hno.
  destruct (get_json (users_api github) ("https://api.github.com/users/" ++ username) st).1
    as [user|e] eqn:Hj;
    [|by rewrite (fetch_and_store_user_fails github username st e Hj) in Hrun].
  destruct (fetch_and_store_user_run github username st user Hj) as [Hrun' Hc].
  rewrite Hrun in Hrun'. injection Hrun' as Hdata Hst'.
  assert (collection st' = upsert username data (collection st)) as Hcol.
  { rewrite Hst'. cbn [collection]. by rewrite Hc, <- Hdata. }
  assert (is_Some (data !! "Login")) as HdL by (rewrite Hdata, record_login; by eexists).
  assert (is_Some (data !! "Languages")) as HdLa
    by (rewrite Hdata, record_languages; by eexists).
  clear Hdata Hst' Hc.
  destruct (upsert_stored username data (collection st)) as (new & Hnew & Hkeys).
  rewrite <- Hcol in Hnew.
  assert ("Languages" ∈ columns (collection st')) as Hlang'.
  { apply elem_of_columns. exists new. split; [done|].
    destruct HdLa as [v Hv]. rewrite (Hkeys _ _ Hv). by eexists. }
  assert (PStr username ∉ Login <$> (load_data st').1) as Hout'.
  { intros (doc & x & Hdoc & HL & Hx & Hne)%load_data_logins.
    rewrite Hcol in Hdoc. apply upsert_elem in Hdoc as [Hdoc | [old ->]].
    - apply Hout, load_data_logins. by exists doc, x.
    - apply Hno. rewrite set_fields_lookup in HL, Hx.
      destruct HdL as [v Hv]. destruct HdLa as [w Hw].
      rewrite Hv in HL. rewrite Hw in Hx. rewrite Hv, Hw.
      split; [done|]. exists x. by split. }
  split.
  - unfold run. rewrite M_bind_unfold, load_frame_run. cbn [fst snd].
    destruct (collection st) as [|d0 ds] eqn:Hc.
    { apply elem_of_columns in Hlogin as (doc & Hdoc & _). by apply elem_of_nil in Hdoc. }
    rewrite <- Hc in *. rewrite decide_True by done. rewrite decide_False by done.
    rewrite decide_True by (apply elem_of_union; by left).
    rewrite decide_False by done.
    rewrite M_bind_unfold, Hrun. cbn [fst snd].
    rewrite M_bind_unfold, load_frame_run. cbn [fst snd].
    destruct (collection st') as [|d1 ds'] eqn:Hc'; [by apply elem_of_nil in Hnew|].
    rewrite <- Hc' in *. rewrite decide_True by done.
    cbn [mret M_ret]. by rewrite show_absent.
  - exists new. split; [done|]. destruct HdL as [v Hv]. by rewrite (Hkeys _ _ Hv).
Qed.

Lemma run_fetch_without_match_respelled :
  let st := boot [document_of "alice" [("Python", 10%Z)]] in
  (run github_octocat "Octocat" st).1 = Warning_no_recommendations /\
  length (collection (run github_octocat "Octocat" st).2) = 2%nat.
Proof.
  intros st.
  destruct (run_fetch_without_match github_octocat "Octocat" st
              (default ∅ (fetch_and_store_user github_octocat "Octocat" st).1)
              (fetch_and_store_user github_octocat "Octocat" st).2) as [-> _].
  - discriminate.
  - apply elem_of_columns. eexists. split; [left|]. by eexists.
  - apply elem_of_columns. eexists. split; [left|]. by eexists.
  - vm_compute. intros H. apply list_elem_of_singleton in H. discriminate.
  - reflexivity.
  - intros [H _]. vm_compute in H. discriminate.
  - split; reflexivity.
Defined.

End Page.

(** ** [dashboard.py]: requests, aggregates, caching and the page *)

Section DashboardFetch.
Import Dashboard Scenarios.

(** X18.  A fetch whose profile request is answered 200 sends exactly three
    requests (profile, repositories, starred) and then two per repository
    of the listing, in order: the count request and the dates request.  It
    never sleeps and leaves the collection alone. *)
Theorem fetch_user_data_requests (github : Server) (username : string) (st : State) :
  status_code (users_api github (clock st) ("https://api.github.com/users/" ++ username))
    = 200%Z ->
  let repos_resp := repos_api github (S (clock st))
    ("https://api.github.com/users/" ++ username ++ "/repos?per_page=100") in
  let repos := if decide (status_code repos_resp = 200%Z) then json repos_resp else [] in
  steps st (fetch_user_data github username st).2
    ([Request ("https://api.github.com/users/" ++ username);
      Request ("https://api.github.com/users/" ++ username ++ "/repos?per_page=100");
      Request ("https://api.github.com/users/" ++ username ++ "/starred?per_page=100")]
     ++ (repos ≫= fun repo =>
           [Request (count_url username (str_or (repo_name repo) "Unknown"));
            Request (dates_url username (str_or (repo_name repo) "Unknown"))])).
Proof.
  intros H200 repos_resp repos.
  rewrite (fetch_user_data_run github username st H200). cbn [snd].
  eapply steps_trans; [|apply visit_repos_trace].
  unfold steps. cbn [trace clock collection]. rewrite <- !app_assoc.
  split_and!; [done|simpl; lia|done].
Qed.

Lemma fetch_user_data_requests_busy :
  length (trace (fetch_user_data github_busy "octocat" (boot [])).2) = 7%nat.
Proof.
  destruct (fetch_user_data_requests github_busy "octocat" (boot []) eq_refl)
    as (-> & _ & _).
  reflexivity.
Defined.

Lemma filter_fmap_fst {A} (f : A -> string) (g : A -> Z) (l : list A) lang :
  (filter (fun lc : string * Z => lc.1 = lang) ((fun x => (f x, g x)) <$> l)).*2
  = g <$> filter (fun x => f x = lang) l.
Proof.
  induction l as [|x l IH]; [done|].
  rewrite fmap_cons. destruct (decide (f x = lang)) as [E|E].
  - rewrite !filter_cons_True by done. rewrite !fmap_cons. by rewrite IH.
  - by rewrite !filter_cons_False.
Qed.

Lemma filter_nil_Forall {A} (P : A -> Prop) `{!forall x, Decision (P x)} (l : list A) :
  filter P l = [] <-> Forall (fun x => ~ P x) l.
Proof.
  induction l as [|x l IH]; [by split; [constructor|]|].
  destruct (decide (P x)).
  - rewrite filter_cons_True by done. split; [done|]. by intros [? _]%Forall_cons.
  - rewrite filter_cons_False by done. rewrite IH, Forall_cons. tauto.
Qed.

Lemma visit_repos_tallies github username repos acc st :
  languages (visit_repos github username repos acc st).1
    = add_languages ((fun repo => (lang_of repo, int_or (repo_size repo) 0)) <$> repos)
        (languages acc) /\
  stars_per_language (visit_repos github username repos acc st).1
    = add_languages
        ((fun repo => (lang_of repo, int_or (repo_stargazers_count repo) 0)) <$> repos)
        (stars_per_language acc).
Proof.
  revert acc st. induction repos as [|repo repos IH]; intros acc st; [done|].
  cbn [visit_repos]. rewrite M_bind_unfold.
  destruct (visit_repo_run github username repo acc st) as [Hv _].
  destruct (IH (visit_repo github username repo acc st).1
              (visit_repo github username repo acc st).2) as [-> ->].
  rewrite Hv. done.
Qed.

Lemma record_languages_dashboard username u repos starred acc :
  Dashboard.user_record username u repos starred acc !! "Languages"
  = Some (PCounts (languages acc)).
Proof. reflexivity. Qed.

Lemma record_stars_per_language username u repos starred acc :
  Dashboard.user_record username u repos starred acc !! "Stars Per Language"
  = Some (PCounts (stars_per_language acc)).
Proof. reflexivity. Qed.

Lemma record_login_dashboard username u repos starred acc :
  Dashboard.user_record username u repos starred acc !! "Login"
  = Some (PStr username).
Proof. reflexivity. Qed.

(** X19.  In the record of [dashboard.py] the entry of a language under
    [Languages] is the sum of the sizes of the repositories of that
    language, and its entry under [Stars Per Language] the sum of their
    stars; a repository without a language counts under [Unknown], and a
    language no repository has is not a key. *)
Theorem fetch_user_data_per_language (github : Server) (username : string) (st : State) :
  status_code (users_api github (clock st) ("https://api.github.com/users/" ++ username))
    = 200%Z ->
  let repos_resp := repos_api github (S (clock st))
    ("https://api.github.com/users/" ++ username ++ "/repos?per_page=100") in
  let repos := if decide (status_code repos_resp = 200%Z) then json repos_resp else [] in
  exists record sizes stars,
    (fetch_user_data github username st).1 = Some record /\
    record !! "Languages" = Some (PCounts sizes) /\
    record !! "Stars Per Language" = Some (PCounts stars) /\
    forall lang,
      let of_lang := filter (fun repo => str_or (repo_language repo) "Unknown" = lang) repos in
      match of_lang with
      | [] => sizes !! lang = None /\ stars !! lang = None
      | _ =>
          sizes !! lang = Some (sum ((fun repo => int_or (repo_size repo) 0) <$> of_lang)) /\
          stars !! lang
            = Some (sum ((fun repo => int_or (repo_stargazers_count repo) 0) <$> of_lang))
      end.
Proof.
  intros H200 repos_resp repos.
  rewrite (fetch_user_data_run github username st H200). cbn [fst].
  fold repos_resp. fold repos. set (st3 := {| clock := _ |}).
  destruct (visit_repos_tallies github username repos no_aggregates st3) as [Hl Hs].
  eexists _, _, _. split_and!;
    [done|apply record_languages_dashboard|apply record_stars_per_language|].
  intros lang. rewrite Hl, Hs, !add_languages_lookup.
  rewrite <- !list_fmap_compose. cbn [compose fst].
  rewrite !filter_fmap_fst. fold (lang_of).
  change (fun repo => str_or (repo_language repo) "Unknown" = lang)
    with (fun repo => lang_of repo = lang).
  destruct (filter _ repos) as [|r rs] eqn:Ef.
  - apply filter_nil_Forall in Ef. rewrite Forall_forall in Ef.
    rewrite !decide_False; [done|..];
      intros (r & Hr & Hin)%list_elem_of_fmap; by apply (Ef r).
  - assert (lang ∈ lang_of <$> repos) as Hin.
    { assert (r ∈ r :: rs) as Hf by left. rewrite <- Ef in Hf.
      apply list_elem_of_filter in Hf as [E Hf]. simpl in E. rewrite <- E.
      by apply list_elem_of_fmap_2. }
    rewrite !decide_True by done. cbn [no_aggregates languages stars_per_language].
    unfold get0. rewrite lookup_empty. cbn [default]. by rewrite !Z.add_0_l.
Qed.

Lemma fetch_user_data_per_language_busy :
  exists record sizes,
    (fetch_user_data github_busy "octocat" (boot [])).1 = Some record /\
    record !! "Languages" = Some (PCounts sizes) /\
    sizes !! "Python" = Some 10%Z /\ sizes !! "Go" = None.
Proof.
  destruct (fetch_user_data_per_language github_busy "octocat" (boot []) eq_refl)
    as (record & sizes & stars & Hrun & Hl & _ & Hall).
  exists record, sizes. split_and!; [done|done|..].
  - by destruct (Hall "Python") as [-> _].
  - by destruct (Hall "Go") as [-> _].
Defined.

(** X21.  On a store miss with the profile answered 200 the record is
    fetched once and inserted once, at the end of the collection; the next
    visit finds it in the store and returns it without any request,
    whatever GitHub would answer by then. *)
Theorem lookup_or_fetch_caches (github : Server) (username : string) (st : State) :
  list_find (has_login username) (collection st) = None ->
  status_code (users_api github (clock st) ("https://api.github.com/users/" ++ username))
    = 200%Z ->
  exists record st1,
    lookup_or_fetch github username st = (Some record, st1) /\
    (fetch_user_data github username st).1 = Some record /\
    collection st1 = (collection st ++ [record])%list /\
    forall github', lookup_or_fetch github' username st1 = (Some record, st1).
Proof.
  intros Hmiss H200.
  rewrite lookup_or_fetch_run, Hmiss.
  destruct (fetch_user_data_steps github username st) as (evs & (_ & _ & Hc) & _).
  rewrite (fetch_user_data_run github username st H200) in Hc |- *.
  cbn [fst snd] in Hc |- *.
  eexists _, _. split_and!; [done|done|cbn [collection]; by rewrite Hc|].
  intros github'. rewrite lookup_or_fetch_run. cbn [collection]. rewrite Hc.
  match goal with |- context [list_find _ (_ ++ [?r])] =>
    assert (list_find (has_login username) (collection st ++ [r])
            = Some (length (collection st), r)) as -> end; [|done].
  apply list_find_Some. split_and!.
  - by rewrite lookup_app_r, Nat.sub_diag by lia.
  - apply record_login_dashboard.
  - intros j y Hj Hlt. rewrite lookup_app_l in Hj by done.
    apply list_find_None in Hmiss. rewrite Forall_forall in Hmiss.
    apply Hmiss. by eapply list_elem_of_lookup_2.
Qed.

Lemma lookup_or_fetch_caches_busy :
  exists record st1,
    lookup_or_fetch github_busy "octocat" (boot []) = (Some record, st1) /\
    collection st1 = [record] /\
    lookup_or_fetch github_forbidden "octocat" st1 = (Some record, st1).
Proof.
  destruct (lookup_or_fetch_caches github_busy "octocat" (boot []) eq_refl eq_refl)
    as (record & st1 & Hrun & _ & Hc & Hnext).
  exists record, st1. split_and!; [done|done|apply Hnext].
Defined.

Lemma commits_per_language_sums_busy :
  exists record per_language counts,
    (fetch_user_data github_busy "octocat" (boot [])).1 = Some record /\
    record !! "Commits Per Language" = Some (PCounts per_language) /\
    record !! "Commits Per Repo" = Some (PCounts counts) /\
    sum_values per_language = sum_values counts.
Proof.
  destruct (commits_per_language_sums github_busy "octocat" (boot []) eq_refl)
    as (record & langs & counts & per_language & Hrun & _ & Hc & Hp & _ & _ & Hsum).
  - repeat constructor; discriminate.
  - exists record, per_language, counts. split_and!; [done|done|done|].
    apply Hsum. apply (bool_decide_unpack _). vm_compute. exact I.
Defined.

End DashboardFetch.

Section Presenter.
Import Dashboard Scenarios.
Open Scope Z_scope.

(** X22.  The [Joined] line: for an account created [days] days ago the
    years are whole periods of 365 days and the months whole periods of
    30 days of the rest.  The months run from 0 to 12: the last five days
    before a multiple of 365 read as twelve months. *)
Theorem joined_months_up_to_twelve (days : Z) :
  0 ≤ days ->
  let (years, months) := joined days in
  0 ≤ years /\ 0 ≤ months ≤ 12 /\
  365 * years + 30 * months ≤ days < 365 * years + 30 * months + 30 /\
  (months = 12 <-> 360 ≤ days mod 365).
Proof.
  intros Hd. unfold joined.
  pose proof (Z.mod_pos_bound days 365 ltac:(lia)) as Hm.
  pose proof (Z.div_mod days 365 ltac:(lia)) as Hdm.
  pose proof (Z.div_mod (days mod 365) 30 ltac:(lia)) as Hdm'.
  pose proof (Z.mod_pos_bound (days mod 365) 30 ltac:(lia)) as Hm'.
  assert (0 ≤ days / 365) by (apply Z.div_pos; lia).
  assert (0 ≤ days mod 365 / 30) by (apply Z.div_pos; lia).
  split_and!; try lia.
Qed.

Lemma joined_months_up_to_twelve_364 : joined 364 = (0, 12).
Proof.
  pose proof (joined_months_up_to_twelve 364 ltac:(lia)) as H.
  destruct (joined 364) as [years months] eqn:E.
  destruct H as (Hy & Hm & Hb & H12).
  assert (months = 12) as -> by (apply H12; vm_compute; discriminate).
  f_equal. lia.
Defined.

End Presenter.

Section Bubbles.
Import Dashboard Scenarios.
Open Scope R_scope.

Lemma largest_upper v values x :
  x ∈ v :: values -> (x ≤ foldr Z.max v values)%Z.
Proof.
  induction values as [|w values IH]; simpl.
  - intros ->%list_elem_of_singleton. lia.
  - intros [->|[->|H]%elem_of_cons]%elem_of_cons.
    + assert (v ≤ foldr Z.max v values)%Z by (apply IH; left). lia.
    + lia.
    + assert (x ≤ foldr Z.max v values)%Z by (apply IH; by right). lia.
Qed.

Lemma largest_bound v values b :
  (v ≤ b)%Z -> Forall (fun x => x ≤ b)%Z values -> (foldr Z.max v values ≤ b)%Z.
Proof. intros Hv. induction 1; simpl; lia. Qed.

Lemma largest_elem v values : foldr Z.max v values ∈ v :: values.
Proof.
  induction values as [|x xs IH]; simpl; [left|].
  destruct (Z.max_spec x (foldr Z.max v xs)) as [[_ ->] | [_ ->]].
  - apply elem_of_cons in IH as [IH|IH]; [rewrite IH; left|right; by right].
  - right. left.
Qed.

Lemma Forall2_fmap_self {A B} (Q : A -> B -> Prop) (f : A -> B) (l : list A) :
  Forall (fun x => Q x (f x)) l -> Forall2 Q l (f <$> l).
Proof. induction 1; rewrite ?fmap_cons; by constructor. Qed.

(** X23.  The bubble chart of the frameworks: without any framework the
    unpacking raises [ValueError]; when the largest value is 0 the division
    raises [ZeroDivisionError]; and when some value is positive there is one
    size per framework, between 20 and 100, which is 100 for a framework of
    the largest value. *)
Theorem bubble_sizes_range (frameworks : list (string * Z)) :
  (frameworks = [] -> bubble_sizes frameworks = ValueError) /\
  (frameworks ≠ [] -> Forall (fun lv => lv.2 ≤ 0)%Z frameworks ->
   Exists (fun lv => lv.2 = 0%Z) frameworks ->
   bubble_sizes frameworks = ZeroDivisionError) /\
  (Exists (fun lv => 0 < lv.2)%Z frameworks ->
   exists sizes,
     bubble_sizes frameworks = Sizes sizes /\
     Forall2 (fun lv size =>
       20 <= size <= 100 /\
       (Forall (fun lv' => lv'.2 ≤ lv.2)%Z frameworks -> size = 100))
       frameworks sizes).
Proof.
  split_and!.
  - by intros ->.
  - intros Hne Hall Hex. unfold bubble_sizes.
    destruct frameworks as [|[l v] fs]; [done|]. cbn [fmap list_fmap snd].
    assert (foldr Z.max v fs.*2 = 0)%Z as ->; [|by rewrite decide_True].
    pose proof (largest_upper v fs.*2) as Hup.
    assert (foldr Z.max v fs.*2 ≤ 0)%Z as Hle.
    { apply Forall_cons in Hall as [Hv Hall]. apply largest_bound; [done|].
      by apply Forall_fmap. }
    apply Exists_exists in Hex as ([l' w] & Hin & Hw). simpl in Hw. subst w.
    assert (0 ≤ foldr Z.max v fs.*2)%Z; [|lia].
    apply Hup. change (v :: fs.*2) with (((l, v) :: fs).*2).
    apply list_elem_of_fmap. by exists (l', 0%Z).
  - intros Hex. unfold bubble_sizes.
    destruct frameworks as [|[l v] fs]; [by apply Exists_nil in Hex|].
    cbn [fmap list_fmap snd]. set (largest := foldr Z.max v fs.*2).
    assert (forall x, x ∈ ((l, v) :: fs).*2 -> (x ≤ largest)%Z) as Hup
      by (intros x; apply largest_upper).
    assert (0 < largest)%Z as Hpos.
    { apply Exists_exists in Hex as ([l' w] & Hin & Hw). simpl in Hw.
      assert (w ≤ largest)%Z; [|lia]. apply Hup, list_elem_of_fmap. by exists (l', w). }
    rewrite decide_False by lia.
    exists ((fun lv : string * Z => Rmax 20 (IZR lv.2 / IZR largest * 100))
              <$> (l, v) :: fs).
    split.
    { f_equal. change (v :: fs.*2) with (((l, v) :: fs).*2).
      by rewrite <- list_fmap_compose. }
    apply Forall2_fmap_self, Forall_forall.
    intros [l' w] Hin. cbn [snd].
    assert (w ≤ largest)%Z as Hw by (apply Hup, list_elem_of_fmap; by exists (l', w)).
    assert (0 < IZR largest) as HposR by (by apply IZR_lt).
    assert (IZR w / IZR largest * 100 <= 100) as Hle.
    { apply IZR_le in Hw. apply (Rmult_le_reg_r (IZR largest)); [done|].
      field_simplify; [|lra]. lra. }
    split.
    + unfold Rmax. destruct (Rle_dec _ _); lra.
    + intros Hmax. assert (w = largest) as ->.
      { assert (largest ≤ w)%Z; [|lia].
        assert (largest ∈ ((l, v) :: fs).*2) as Hl by apply largest_elem.
        apply list_elem_of_fmap in Hl as ([l'' w'] & -> & Hl).
        rewrite Forall_forall in Hmax. apply (Hmax _ Hl). }
      unfold Rmax. destruct (Rle_dec _ _) as [_|Hn].
      * field. lra.
      * exfalso. apply Hn. replace (IZR largest / IZR largest * 100) with 100; [lra|].
        field. lra.
Qed.

End Bubbles.
